(** * pywrparser: the network model ([pywrparser/types/network.py])

    A shallow embedding of [PywrNetwork] and of the types it handles, and the
    properties of its reference resolver (attach / detach / back-references),
    its serialiser, its duplicate-edge view and its construction entry points.

    Python values are embedded as follows.
    - A [dict] is an insertion-ordered association list with string keys
      ([dict_get], [dict_set], [dict_del]); assignment to a present key keeps
      its position, assignment to a new key appends.
    - A statement sequence that mutates [self] and may raise returns the
      mutated state together with [Some e] when exception [e] escaped.
    - A [for] loop is [for_each]: the body is run on the items in order and the
      loop stops at the first exception, keeping the state reached.
    - Calls to [print] and to the logger change neither the network nor the
      control flow and are left out. *)

From Stdlib Require Import List String Ascii Bool ZArith Arith Lia.
Import ListNotations.
Open Scope string_scope.
Set Warnings "-register-all".

(** ** Exceptions ([pywrparser/types/exceptions.py] and the built-in ones) *)

Inductive exn : Type :=
| ValueError (msg : string)
| AttributeError (msg : string)
| PywrParserException (message : string).

(** [PywrParserException.__str__] *)
Definition exn_str (e : exn) : string :=
  match e with
  | ValueError m => m
  | AttributeError m => m
  | PywrParserException m => m
  end.

(** A call that either raises or returns. *)
Inductive outcome (A : Type) : Type :=
| Raise (e : exn)
| Return (a : A).
Arguments Raise {A} e.
Arguments Return {A} a.

(** ** Loops *)

Fixpoint for_each {X S : Type} (body : X -> S -> S * option exn)
         (xs : list X) (s : S) : S * option exn :=
  match xs with
  | [] => (s, None)
  | x :: xs' =>
      match body x s with
      | (s', None) => for_each body xs' s'
      | (s', Some e) => (s', Some e)
      end
  end.

(** ** Python dictionaries with string keys *)

Definition dict (V : Type) : Type := list (string * V).

Section DictOps.
Context {V : Type}.

(** [d.get(k)] *)
Fixpoint dict_get (k : string) (d : dict V) : option V :=
  match d with
  | [] => None
  | (k', v) :: d' => if String.eqb k k' then Some v else dict_get k d'
  end.

(** [k in d] *)
Definition dict_in (k : string) (d : dict V) : bool :=
  match dict_get k d with
  | Some _ => true
  | None => false
  end.

(** [d[k] = v] *)
Fixpoint dict_set (k : string) (v : V) (d : dict V) : dict V :=
  match d with
  | [] => [(k, v)]
  | (k', v') :: d' =>
      if String.eqb k k' then (k, v) :: d' else (k', v') :: dict_set k v d'
  end.

(** [del d[k]]; the source only deletes a key it has just looked up, so the
    [KeyError] of an absent key is not reachable and is not modelled. *)
Fixpoint dict_del (k : string) (d : dict V) : dict V :=
  match d with
  | [] => []
  | (k', v') :: d' =>
      if String.eqb k k' then dict_del k d' else (k', v') :: dict_del k d'
  end.

Definition dict_keys (d : dict V) : list string := map fst d.
Definition dict_values (d : dict V) : list V := map snd d.
Definition dict_items (d : dict V) : list (string * V) := d.
Definition dict_len (d : dict V) : nat := List.length d.

(** [d1 == d2] on dictionaries ignores insertion order. *)
Definition dict_equiv (d1 d2 : dict V) : Prop :=
  forall k, dict_get k d1 = dict_get k d2.
End DictOps.

(** [{k: f(v) for k, v in d.items()}] *)
Definition dict_comprehension {V W : Type} (f : V -> W) (d : dict V) : dict W :=
  fold_left (fun acc kv => dict_set (fst kv) (f (snd kv)) acc) (dict_items d) [].

(** ** Strings *)

(** [str.lower] on the ASCII range; bytes of other characters are kept. *)
Definition ascii_lower (c : ascii) : ascii :=
  let n := nat_of_ascii c in
  if (65 <=? n)%nat && (n <=? 90)%nat then ascii_of_nat (n + 32) else c.

Fixpoint lower (s : string) : string :=
  match s with
  | EmptyString => EmptyString
  | String c s' => String (ascii_lower c) (lower s')
  end.

(** [needle in hay] on strings *)
Fixpoint str_in (needle hay : string) : bool :=
  String.prefix needle hay ||
  match hay with
  | EmptyString => false
  | String _ hay' => str_in needle hay'
  end.

(** [s in t] for a tuple of strings *)
Definition tuple_in (s : string) (t : list string) : bool :=
  existsb (String.eqb s) t.

(** Modelled from the spec: [pywrparser.utils.canonical_name] is not part of the
    sources at hand.  The reference-key format is
    ["__<nodename>__:<attrname>"]. *)
Definition canonical_name (nodename attr : string) : string :=
  "__" ++ nodename ++ "__:" ++ attr.

(** [s[len(p):]] when [s.startswith(p)]. *)
Fixpoint strip_prefix (p s : string) : option string :=
  match p with
  | EmptyString => Some s
  | String a p' =>
      match s with
      | EmptyString => None
      | String b s' => if Ascii.eqb a b then strip_prefix p' s' else None
      end
  end.

(** Splits at the first ["__:"]. *)
Fixpoint split_reference (s : string) : option (string * string) :=
  match strip_prefix "__:" s with
  | Some r => Some (EmptyString, r)
  | None =>
      match s with
      | EmptyString => None
      | String c s' =>
          match split_reference s' with
          | Some (l, r) => Some (String c l, r)
          | None => None
          end
      end
  end.

(** Modelled from the spec: [pywrparser.utils.parse_reference_key] is not part
    of the sources at hand.  It reads a name of the form
    ["__<nodename>__:<attrname>"] back into [(nodename, attrname)]; [None]
    stands for the [ValueError] of a name that is not in this format. *)
Definition parse_reference_key (key : string) : option (string * string) :=
  match strip_prefix "__" key with
  | Some rest => split_reference rest
  | None => None
  end.

(** ** JSON data, as [json.loads] delivers it

    Numbers are carried as integers: the code below only ever asks whether a
    number is zero. *)

Inductive json : Type :=
| JNull
| JBool (b : bool)
| JNum (n : Z)
| JStr (s : string)
| JList (l : list json)
| JDict (d : list (string * json)).

(** Truth value of a JSON datum ([not x] is its negation). *)
Definition truthy (j : json) : bool :=
  match j with
  | JNull => false
  | JBool b => b
  | JNum n => negb (n =? 0)%Z
  | JStr s => negb (s =? "")
  | JList l => match l with [] => false | _ => true end
  | JDict d => match d with [] => false | _ => true end
  end.

(** [value.get("type")] on a JSON object: [None] when the key is absent. *)
Definition json_get (k : string) (d : dict json) : json :=
  match dict_get k d with
  | Some j => j
  | None => JNull
  end.

(** ** Component types *)

(** [PywrParameter] ([pywrparser/types/parameter.py]). *)
Record PywrParameter : Type := mkPywrParameter {
  param_name : string;
  param_data : dict json
}.

(** [PywrParameter.type] *)
Definition param_type (p : PywrParameter) : json := json_get "type" (param_data p).

(** [PywrParameter.attrs] *)
Definition param_attrs (p : PywrParameter) : list string := dict_keys (param_data p).

(** Modelled from the spec: [PywrRecorder] is not part of the sources at hand;
    it has the shape of [PywrParameter] (a name and its data). *)
Record PywrRecorder : Type := mkPywrRecorder {
  recorder_name : string;
  recorder_data : dict json
}.

(** What a node attribute can hold: JSON data, or an attached component. *)
Inductive attr_value : Type :=
| VJson (j : json)
| VParameter (p : PywrParameter)
| VRecorder (r : PywrRecorder).

(** Modelled from the spec: [PywrNode] is not part of the sources at hand.
    A node has a name and a mapping [data] from attribute names to values;
    [attrs] are the keys of [data]. *)
Record PywrNode : Type := mkPywrNode {
  node_name : string;
  node_data : dict attr_value
}.

Definition node_attrs (n : PywrNode) : list string := dict_keys (node_data n).

(** Modelled from the spec: [PywrEdge] is not part of the sources at hand.
    An edge is an ordered tuple of node names. *)
Definition PywrEdge : Type := list string.

(** Metadata, timestepper, scenarios and tables are data blobs that the
    network only stores and serialises. *)
Record PywrMetadata : Type := mkPywrMetadata { metadata_data : dict json }.
Record PywrTimestepper : Type := mkPywrTimestepper { timestepper_data : dict json }.
Record PywrScenario : Type := mkPywrScenario { scenario_data : dict json }.
Record PywrTable : Type := mkPywrTable { table_name : string; table_data : dict json }.

(** ** The network *)

Record PywrNetwork : Type := mkPywrNetwork {
  metadata : PywrMetadata;
  timestepper : PywrTimestepper;
  scenarios : list PywrScenario;
  tables : dict PywrTable;
  nodes : dict PywrNode;
  edges : list PywrEdge;
  parameters : dict PywrParameter;
  recorders : dict PywrRecorder
}.

Definition with_nodes (net : PywrNetwork) (ns : dict PywrNode) : PywrNetwork :=
  mkPywrNetwork (metadata net) (timestepper net) (scenarios net) (tables net)
                ns (edges net) (parameters net) (recorders net).

Definition with_nodes_parameters (net : PywrNetwork) (ns : dict PywrNode)
           (ps : dict PywrParameter) : PywrNetwork :=
  mkPywrNetwork (metadata net) (timestepper net) (scenarios net) (tables net)
                ns (edges net) ps (recorders net).

(** ** [attach_parameters] *)

Definition exclude : list string := ["name"; "type"].

(** The body of the inner loop, for the item [(attr, value)] of the node
    called [name]; the state is [node.data] and [self.parameters].

    [if not param] only tells a missing entry from a present one: a
    [PywrParameter] object defines no truth value of its own, so it is true.
    [type_key.lower()] exists on strings only; on any other true value it
    raises [AttributeError]. *)
Definition attach_item (name : string) (item : string * attr_value)
           (st : dict attr_value * dict PywrParameter)
  : (dict attr_value * dict PywrParameter) * option exn :=
  let '(attr, value) := item in
  let '(data, params) := st in
  if tuple_in (lower attr) exclude then (st, None)
  else
    match value with
    | VJson (JStr value) =>
        match dict_get value params with
        | None => (st, None)
        | Some param =>
            ((dict_set attr (VParameter param) data, dict_del value params), None)
        end
    | VJson (JDict value) =>
        let type_key := json_get "type" value in
        if negb (truthy type_key) then (st, None)
        else
          match type_key with
          | JStr t =>
              if str_in "recorder" (lower t) then (st, None)
              else
                let param_name := canonical_name name attr in
                if dict_in param_name params
                then (st, Some (ValueError "inline dups global param"))
                else
                  ((dict_set attr (VParameter (mkPywrParameter param_name value)) data,
                    params), None)
          | _ => (st, Some (AttributeError "object has no attribute 'lower'"))
          end
    | _ => (st, None)
    end.

(** The inner loop over [node.data.items()]. *)
Definition attach_node (n : PywrNode) (params : dict PywrParameter)
  : (PywrNode * dict PywrParameter) * option exn :=
  match for_each (attach_item (node_name n)) (dict_items (node_data n))
                 (node_data n, params) with
  | ((data', params'), e) => ((mkPywrNode (node_name n) data', params'), e)
  end.

(** The outer loop over [self.nodes.values()]; each node object is mutated in
    place, so it keeps its key and position. *)
Fixpoint attach_nodes (ns : dict PywrNode) (params : dict PywrParameter)
  : (dict PywrNode * dict PywrParameter) * option exn :=
  match ns with
  | [] => (([], params), None)
  | (key, n) :: rest =>
      match attach_node n params with
      | ((n', params'), Some e) => (((key, n') :: rest, params'), Some e)
      | ((n', params'), None) =>
          match attach_nodes rest params' with
          | ((rest', params''), e) => (((key, n') :: rest', params''), e)
          end
      end
  end.

Definition attach_parameters (self : PywrNetwork) : PywrNetwork * option exn :=
  match attach_nodes (nodes self) (parameters self) with
  | ((ns, ps), e) => (with_nodes_parameters self ns ps, e)
  end.

(** ** [detach_parameters] *)

Definition detach_item (item : string * attr_value)
           (st : dict attr_value * dict PywrParameter)
  : (dict attr_value * dict PywrParameter) * option exn :=
  let '(attr, value) := item in
  let '(data, params) := st in
  match value with
  | VParameter value =>
      if dict_in (param_name value) params
      then (st, Some (ValueError "Attr param name duplicates global param name"))
      else ((dict_set attr (VJson (JStr (param_name value))) data,
             dict_set (param_name value) value params), None)
  | _ => (st, None)
  end.

Definition detach_node (n : PywrNode) (params : dict PywrParameter)
  : (PywrNode * dict PywrParameter) * option exn :=
  match for_each detach_item (dict_items (node_data n)) (node_data n, params) with
  | ((data', params'), e) => ((mkPywrNode (node_name n) data', params'), e)
  end.

Fixpoint detach_nodes (ns : dict PywrNode) (params : dict PywrParameter)
  : (dict PywrNode * dict PywrParameter) * option exn :=
  match ns with
  | [] => (([], params), None)
  | (key, n) :: rest =>
      match detach_node n params with
      | ((n', params'), Some e) => (((key, n') :: rest, params'), Some e)
      | ((n', params'), None) =>
          match detach_nodes rest params' with
          | ((rest', params''), e) => (((key, n') :: rest', params''), e)
          end
      end
  end.

Definition detach_parameters (self : PywrNetwork) : PywrNetwork * option exn :=
  match detach_nodes (nodes self) (parameters self) with
  | ((ns, ps), e) => (with_nodes_parameters self ns ps, e)
  end.

(** ** [__add_component_references] and its two specialisations *)

(** The body of the loop over the store's names; the state is [self.nodes]. *)
Definition add_reference_item (comp_name : string) (ns : dict PywrNode)
  : dict PywrNode :=
  match parse_reference_key comp_name with
  | None => ns
  | Some (nname, attr) =>
      match dict_get nname ns with
      | None => ns
      | Some node =>
          if tuple_in attr (node_attrs node) then ns
          else
            dict_set nname
                     (mkPywrNode (node_name node)
                                 (dict_set attr (VJson (JStr comp_name)) (node_data node)))
                     ns
      end
  end.

(** The loop [for comp_name in store]. *)
Definition add_references (store : list string) (ns : dict PywrNode) : dict PywrNode :=
  fold_left (fun ns comp_name => add_reference_item comp_name ns) store ns.

(** [component_map[component]]: only the names of the store are iterated. *)
Definition component_store (self : PywrNetwork) (component : string)
  : option (list string) :=
  if component =? "parameter" then Some (dict_keys (parameters self))
  else if component =? "recorder" then Some (dict_keys (recorders self))
  else None.

Definition add_component_references (self : PywrNetwork) (component : option string)
  : PywrNetwork :=
  match component with
  | None => self
  | Some c =>
      if c =? "" then self
      else
        match component_store self c with
        | None => self
        | Some store =>
            with_nodes self (add_references store (nodes self))
        end
  end.

Definition add_parameter_references (self : PywrNetwork) : PywrNetwork :=
  add_component_references self (Some "parameter").

Definition add_recorder_references (self : PywrNetwork) : PywrNetwork :=
  add_component_references self (Some "recorder").

(** ** [as_dict] *)

(** The [as_dict] method of the component types ([PywrType] and its
    subclasses); their bodies are not part of the sources at hand, so the
    network serialiser is stated over any implementation of them. *)
Class AsDict (A : Type) : Type := as_dict_of : A -> json.

(** [len(x)] of a serialised list or mapping. *)
Definition json_len (j : json) : nat :=
  match j with
  | JList l => List.length l
  | JDict d => List.length d
  | JStr s => String.length s
  | _ => 0
  end.

Section Serialise.
Context {metadata_as_dict : AsDict PywrMetadata}
        {timestepper_as_dict : AsDict PywrTimestepper}
        {scenario_as_dict : AsDict PywrScenario}
        {table_as_dict : AsDict PywrTable}
        {node_as_dict : AsDict PywrNode}
        {edge_as_dict : AsDict PywrEdge}
        {parameter_as_dict : AsDict PywrParameter}
        {recorder_as_dict : AsDict PywrRecorder}.

Definition as_dict (self : PywrNetwork) : dict json :=
  let network : dict json :=
    [ ("metadata", as_dict_of (metadata self));
      ("timestepper", as_dict_of (timestepper self));
      ("nodes", JList (map as_dict_of (dict_values (nodes self))));
      ("edges", JList (map as_dict_of (edges self))) ] in
  let network :=
    if (0 <? dict_len (parameters self))%nat
    then dict_set "parameters"
                  (JDict (dict_comprehension as_dict_of (parameters self))) network
    else network in
  let network :=
    if (0 <? dict_len (recorders self))%nat
    then dict_set "recorders"
                  (JDict (dict_comprehension as_dict_of (recorders self))) network
    else network in
  let network :=
    if (0 <? List.length (scenarios self))%nat
    then dict_set "scenarios" (JList (map as_dict_of (scenarios self))) network
    else network in
  let network :=
    if (0 <? dict_len (tables self))%nat
    then dict_set "tables"
                  (JDict (dict_comprehension as_dict_of (tables self))) network
    else network in
  network.
End Serialise.

(** ** [duplicate_edges] *)

(** The target [(n1, n2)] of the generator: unpacking an edge that does not
    have exactly two elements raises [ValueError]. *)
Definition unpack_pair (e : PywrEdge) : outcome (string * string) :=
  match e with
  | [n1; n2] => Return (n1, n2)
  | _ :: _ :: _ :: _ => Raise (ValueError "too many values to unpack (expected 2)")
  | _ => Raise (ValueError "not enough values to unpack (expected 2)")
  end.

Definition pair_eqb (a b : string * string) : bool :=
  (fst a =? fst b) && (snd a =? snd b).

(** A [Counter] keyed by pairs of names, in order of first occurrence. *)
Definition counter : Type := list ((string * string) * nat).

Fixpoint counter_get (e : string * string) (c : counter) : option nat :=
  match c with
  | [] => None
  | (e', n) :: c' => if pair_eqb e e' then Some n else counter_get e c'
  end.

(** [c[e] = c.get(e, 0) + 1] *)
Fixpoint counter_incr (e : string * string) (c : counter) : counter :=
  match c with
  | [] => [(e, 1)]
  | (e', n) :: c' =>
      if pair_eqb e e' then (e', S n) :: c' else (e', n) :: counter_incr e c'
  end.

(** [Counter((n1, n2) for (n1, n2) in edges)], consuming the generator. *)
Fixpoint count_edges (es : list PywrEdge) (c : counter) : outcome counter :=
  match es with
  | [] => Return c
  | e :: es' =>
      match unpack_pair e with
      | Raise x => Raise x
      | Return p => count_edges es' (counter_incr p c)
      end
  end.

Definition duplicate_edges (self : PywrNetwork) : outcome counter :=
  match count_edges (edges self) [] with
  | Raise x => Raise x
  | Return edge_count => Return (filter (fun ec => (1 <? snd ec)%nat) edge_count)
  end.

(** ** Construction entry points *)

(** The external front end [PywrJSONParser]: its constructor, its [parse]
    method (which may raise when one of the raise flags asks for it), and the
    attributes the network reads from it. *)
Record ParserFrontEnd : Type := {
  parser_state : Type;
  PywrJSONParser : string -> option string -> outcome parser_state;
  parse : parser_state -> bool -> bool -> bool -> outcome parser_state;
  has_errors : parser_state -> bool;
  errors : parser_state -> dict (list exn);
  has_warnings : parser_state -> bool;
  warnings : parser_state -> dict (list exn);
  parsed_network : parser_state -> PywrNetwork
}.

(** What opening and reading a file does: it fails with an [OSError] of text
    [err], or raises an exception [e] that is not an [OSError]
    ([UnicodeDecodeError], which is a [ValueError], on bytes that do not
    decode; [ValueError] on a file name with a null character), or gives the
    content. *)
Inductive read_outcome : Type :=
| ReadOSError (err : string)
| ReadRaises (e : exn)
| ReadContent (json_src : string).

Definition construction_result : Type :=
  (option PywrNetwork * option (dict (list exn)) * option (dict (list exn)))%type.

Section Construction.
Variable P : ParserFrontEnd.

(** [open(filename, 'r')] and [fp.read()]. *)
Variable read_file : string -> read_outcome.

Definition from_file (filename : string)
           (raise_on_parser_error raise_on_parser_warning allow_duplicate_edges : bool)
           (ruleset : option string)
  : outcome construction_result :=
  match read_file filename with
  | ReadOSError err =>
      let exc := PywrParserException ("Unable to read input file: " ++ err) in
      if raise_on_parser_error then Raise exc
      else Return (None, Some [("network", [exc])], None)
  | ReadRaises e => Raise e
  | ReadContent json_src =>
      match PywrJSONParser P json_src ruleset with
      | Raise (PywrParserException m) =>
          if raise_on_parser_error then Raise (PywrParserException m)
          else Return (None, Some [("network", [PywrParserException m])], None)
      | Raise e => Raise e
      | Return parser =>
          match parse P parser raise_on_parser_error raise_on_parser_warning
                      allow_duplicate_edges with
          | Raise e => Raise e
          | Return parser =>
              let ret_warnings :=
                if has_warnings P parser then Some (warnings P parser) else None in
              if has_errors P parser
              then Return (None, Some (errors P parser), ret_warnings)
              else Return (Some (parsed_network P parser), None,
                           Some (warnings P parser))
          end
      end
  end.

Definition from_json (json_src : string)
           (raise_on_parser_error raise_on_parser_warning allow_duplicate_edges : bool)
  : outcome construction_result :=
  match PywrJSONParser P json_src None with
  | Raise e => Raise e
  | Return parser =>
      match parse P parser raise_on_parser_error raise_on_parser_warning
                  allow_duplicate_edges with
      | Raise e => Raise e
      | Return parser =>
          let ret_warnings :=
            if has_warnings P parser then Some (warnings P parser) else None in
          if has_errors P parser
          then Return (None, Some (errors P parser), ret_warnings)
          else Return (Some (parsed_network P parser), None,
                       Some (warnings P parser))
      end
  end.
End Construction.

(** ** Positional view of the two-level loops

    Both resolver loops visit every attribute of every node once, in order,
    and may replace the value of the attribute they are visiting.  [update_*]
    describe such a traversal by what it does to each value; the lemmas below
    show that the loops above, which assign through [node.data[attr] = ...],
    coincide with them as soon as attribute names are unique. *)

Definition assigned (v : attr_value) (ov : option attr_value) : attr_value :=
  match ov with
  | Some v' => v'
  | None => v
  end.

Section Positional.
Context {S : Type}.
Variable g : string -> string -> attr_value -> S
             -> (option attr_value * S) * option exn.

Fixpoint update_items (name : string) (items : dict attr_value) (s : S)
  : (dict attr_value * S) * option exn :=
  match items with
  | [] => (([], s), None)
  | (attr, v) :: rest =>
      match g name attr v s with
      | ((ov, s'), Some e) => (((attr, assigned v ov) :: rest, s'), Some e)
      | ((ov, s'), None) =>
          match update_items name rest s' with
          | ((rest', s''), e) => (((attr, assigned v ov) :: rest', s''), e)
          end
      end
  end.

Fixpoint update_nodes (ns : dict PywrNode) (s : S)
  : (dict PywrNode * S) * option exn :=
  match ns with
  | [] => (([], s), None)
  | (key, n) :: rest =>
      match update_items (node_name n) (node_data n) s with
      | ((d', s'), Some e) => (((key, mkPywrNode (node_name n) d') :: rest, s'), Some e)
      | ((d', s'), None) =>
          match update_nodes rest s' with
          | ((rest', s''), e) => (((key, mkPywrNode (node_name n) d') :: rest', s''), e)
          end
      end
  end.

Fixpoint update_flat (l : list (string * string * attr_value)) (s : S)
  : (list (string * string * attr_value) * S) * option exn :=
  match l with
  | [] => (([], s), None)
  | (name, attr, v) :: rest =>
      match g name attr v s with
      | ((ov, s'), Some e) => (((name, attr, assigned v ov) :: rest, s'), Some e)
      | ((ov, s'), None) =>
          match update_flat rest s' with
          | ((rest', s''), e) => (((name, attr, assigned v ov) :: rest', s''), e)
          end
      end
  end.
End Positional.

(** The attributes of a network in the order the loops visit them, each with
    the name of its node. *)
Definition attrs_of_node (n : PywrNode) : list (string * string * attr_value) :=
  map (fun av => (node_name n, fst av, snd av)) (node_data n).

Definition attrs_in_order (ns : dict PywrNode) : list (string * string * attr_value) :=
  flat_map (fun kn => attrs_of_node (snd kn)) ns.

(** What one iteration of [attach_parameters] does to the value it visits. *)
Definition attach_value (name attr : string) (value : attr_value)
           (params : dict PywrParameter)
  : (option attr_value * dict PywrParameter) * option exn :=
  if tuple_in (lower attr) exclude then ((None, params), None)
  else
    match value with
    | VJson (JStr s) =>
        match dict_get s params with
        | None => ((None, params), None)
        | Some param => ((Some (VParameter param), dict_del s params), None)
        end
    | VJson (JDict d) =>
        let type_key := json_get "type" d in
        if negb (truthy type_key) then ((None, params), None)
        else
          match type_key with
          | JStr t =>
              if str_in "recorder" (lower t) then ((None, params), None)
              else
                if dict_in (canonical_name name attr) params
                then ((None, params), Some (ValueError "inline dups global param"))
                else ((Some (VParameter (mkPywrParameter (canonical_name name attr) d)),
                       params), None)
          | _ => ((None, params), Some (AttributeError "object has no attribute 'lower'"))
          end
    | _ => ((None, params), None)
    end.

(** What one iteration of [detach_parameters] does to the value it visits. *)
Definition detach_value (name attr : string) (value : attr_value)
           (params : dict PywrParameter)
  : (option attr_value * dict PywrParameter) * option exn :=
  match value with
  | VParameter p =>
      if dict_in (param_name p) params
      then ((None, params),
            Some (ValueError "Attr param name duplicates global param name"))
      else ((Some (VJson (JStr (param_name p))), dict_set (param_name p) p params), None)
  | _ => ((None, params), None)
  end.

(** ** Vocabulary of the statements *)

(** The attribute name is one of the reserved ones, whatever its case. *)
Definition reserved (attr : string) : bool := tuple_in (lower attr) exclude.

Fixpoint unique (l : list string) : bool :=
  match l with
  | [] => true
  | x :: l' => negb (existsb (String.eqb x) l') && unique l'
  end.

(** Attribute names are unique in every node (they are keys of a dict). *)
Definition nodes_wf (ns : dict PywrNode) : bool :=
  forallb (fun kn => unique (node_attrs (snd kn))) ns.

Definition is_json (v : attr_value) : bool :=
  match v with
  | VJson _ => true
  | _ => false
  end.

(** Every attribute of every node is JSON data, as the parser delivers it. *)
Definition json_only (ns : dict PywrNode) : bool :=
  forallb (fun x => is_json (snd x)) (attrs_in_order ns).

(** Every parameter of the registry is stored under its own name. *)
Definition keyed_by_name (params : dict PywrParameter) : bool :=
  forallb (fun kp => fst kp =? param_name (snd kp)) params.

(** A dict-valued attribute that [attach_parameters] passes over: its [type]
    is missing or falsy, or is a string that mentions a recorder. *)
Definition passed_over (d : dict json) : bool :=
  negb (truthy (json_get "type" d)) ||
  match json_get "type" d with
  | JStr t => str_in "recorder" (lower t)
  | _ => false
  end.

(** No attribute of the network is an inline definition that
    [attach_parameters] would act upon. *)
Definition no_inline_definitions (ns : dict PywrNode) : bool :=
  forallb (fun x =>
             match x with
             | (_, attr, VJson (JDict d)) => reserved attr || passed_over d
             | _ => true
             end) (attrs_in_order ns).

(** The parameters attached to node attributes, in the order of the loops. *)
Definition attached_in (l : list (string * string * attr_value)) : list PywrParameter :=
  flat_map (fun x => match snd x with VParameter p => [p] | _ => [] end) l.

Definition attached_parameters (ns : dict PywrNode) : list PywrParameter :=
  attached_in (attrs_in_order ns).

(** The value [detach_parameters] leaves in place of an attached parameter. *)
Definition detached_value (v : attr_value) : attr_value :=
  match v with
  | VParameter p => VJson (JStr (param_name p))
  | _ => v
  end.

Definition detached_node (n : PywrNode) : PywrNode :=
  mkPywrNode (node_name n)
             (map (fun av => (fst av, detached_value (snd av))) (node_data n)).

Definition detached_nodes (ns : dict PywrNode) : dict PywrNode :=
  map (fun kn => (fst kn, detached_node (snd kn))) ns.

(** The registry after the parameters [ps] were stored in it one by one. *)
Definition add_params (ps : list PywrParameter) (params : dict PywrParameter)
  : dict PywrParameter :=
  fold_left (fun r p => dict_set (param_name p) p r) ps params.

(** No parameter of [ps] finds its name in the registry at the time it is
    stored, the registry growing with each one. *)
Fixpoint collision_free (ps : list PywrParameter) (params : dict PywrParameter) : bool :=
  match ps with
  | [] => true
  | p :: ps' =>
      negb (dict_in (param_name p) params) &&
      collision_free ps' (dict_set (param_name p) p params)
  end.

(** Two node stores with the same keys, node names and attribute names, in
    the same order. *)
Definition same_shape (ns ns' : dict PywrNode) : Prop :=
  Forall2 (fun kn kn' =>
             fst kn = fst kn' /\
             node_name (snd kn) = node_name (snd kn') /\
             node_attrs (snd kn) = node_attrs (snd kn'))
          ns ns'.

(** [detached_value] on an attribute with its node name. *)
Definition detached_attr (x : string * string * attr_value)
  : string * string * attr_value :=
  (fst x, detached_value (snd x)).

(** The name [k] asks for nothing more from the node store: it is not a
    reference key, or its node is missing, or the node has the attribute. *)
Definition reference_settled (k : string) (ns : dict PywrNode) : Prop :=
  match parse_reference_key k with
  | None => True
  | Some (n, a) =>
      match dict_get n ns with
      | None => True
      | Some node => tuple_in a (node_attrs node) = true
      end
  end.

(** The value of attribute [a] of the node stored under [n], if any. *)
Definition node_attr (ns : dict PywrNode) (n a : string) : option attr_value :=
  match dict_get n ns with
  | Some node => dict_get a (node_data node)
  | None => None
  end.

(** How many times the edge [(n1, n2)] occurs in an edge list. *)
Definition edge_occurrences (es : list PywrEdge) (e : string * string) : nat :=
  count_occ (list_eq_dec string_dec) es [fst e; snd e].

(** [c[e]] of a [Counter]: zero for a missing key. *)
Definition counter_count (e : string * string) (c : counter) : nat :=
  match counter_get e c with
  | Some n => n
  | None => 0
  end.

(** ** Example networks *)

Definition example_metadata : PywrMetadata :=
  mkPywrMetadata [("title", JStr "Example"); ("minimum_version", JStr "1.0")].

Definition example_timestepper : PywrTimestepper :=
  mkPywrTimestepper
    [("start", JStr "2020-01-01"); ("end", JStr "2020-12-31"); ("timestep", JNum 1)].

Definition flow_max : PywrParameter :=
  mkPywrParameter "flow_max" [("type", JStr "constant"); ("value", JNum 10)].

Definition monthly_profile : dict json :=
  [("type", JStr "monthlyprofileparameter");
   ("values", JList [JNum 1; JNum 2; JNum 3; JNum 4; JNum 5; JNum 6;
                     JNum 7; JNum 8; JNum 9; JNum 10; JNum 11; JNum 12])].

(** Two nodes refer to the global parameter ["flow_max"] by name. *)
Definition referencing_network : PywrNetwork :=
  mkPywrNetwork example_metadata example_timestepper [] []
    [("Reservoir1",
      mkPywrNode "Reservoir1"
        [("name", VJson (JStr "Reservoir1")); ("type", VJson (JStr "storage"));
         ("max_flow", VJson (JStr "flow_max")); ("cost", VJson (JStr "penalty"))]);
     ("Link1",
      mkPywrNode "Link1"
        [("name", VJson (JStr "Link1")); ("type", VJson (JStr "link"));
         ("max_flow", VJson (JStr "flow_max"))])]
    [["Reservoir1"; "Link1"]]
    [("flow_max", flow_max)]
    [].

(** A node defines a parameter inline. *)
Definition inline_network : PywrNetwork :=
  mkPywrNetwork example_metadata example_timestepper [] []
    [("Reservoir1",
      mkPywrNode "Reservoir1"
        [("name", VJson (JStr "Reservoir1")); ("type", VJson (JStr "storage"));
         ("max_flow", VJson (JDict monthly_profile))])]
    []
    []
    [].

(** Attributes spelt ["Name"] and ["TYPE"] that look like parameters. *)
Definition reserved_network : PywrNetwork :=
  mkPywrNetwork example_metadata example_timestepper [] []
    [("flow_max",
      mkPywrNode "flow_max"
        [("Name", VJson (JStr "flow_max")); ("TYPE", VJson (JDict monthly_profile));
         ("max_flow", VJson (JStr "flow_max"))])]
    []
    [("flow_max", flow_max)]
    [].

(** A node holds an attached parameter. *)
Definition attached_network : PywrNetwork :=
  mkPywrNetwork example_metadata example_timestepper [] []
    [("Reservoir1",
      mkPywrNode "Reservoir1"
        [("name", VJson (JStr "Reservoir1")); ("type", VJson (JStr "storage"));
         ("max_flow", VParameter flow_max)])]
    []
    []
    [].

(** The registry names a parameter after a node attribute. *)
Definition back_reference_network : PywrNetwork :=
  mkPywrNetwork example_metadata example_timestepper [] []
    [("Reservoir1",
      mkPywrNode "Reservoir1"
        [("name", VJson (JStr "Reservoir1")); ("type", VJson (JStr "storage"))])]
    []
    [("__Reservoir1__:max_flow", mkPywrParameter "__Reservoir1__:max_flow" monthly_profile);
     ("flow_max", flow_max);
     ("__Missing__:cost", mkPywrParameter "__Missing__:cost" monthly_profile);
     ("__Reservoir1__:type", mkPywrParameter "__Reservoir1__:type" monthly_profile)]
    [].

(** Inline dicts whose [type] is present but is an empty string, or a number. *)
Definition empty_type_definition : dict json :=
  [("type", JStr ""); ("value", JNum 1)].

Definition numeric_type_definition : dict json :=
  [("type", JNum 5); ("value", JNum 1)].

(** Serialisers used in the examples: each component gives back its data. *)
Definition attr_value_json (v : attr_value) : json :=
  match v with
  | VJson j => j
  | VParameter p => JDict (param_data p)
  | VRecorder r => JDict (recorder_data r)
  end.

Definition example_metadata_as_dict : AsDict PywrMetadata :=
  fun m => JDict (metadata_data m).
Definition example_timestepper_as_dict : AsDict PywrTimestepper :=
  fun t => JDict (timestepper_data t).
Definition example_scenario_as_dict : AsDict PywrScenario :=
  fun s => JDict (scenario_data s).
Definition example_table_as_dict : AsDict PywrTable :=
  fun t => JDict (table_data t).
Definition example_node_as_dict : AsDict PywrNode :=
  fun n => JDict (map (fun av => (fst av, attr_value_json (snd av))) (node_data n)).
Definition example_edge_as_dict : AsDict PywrEdge :=
  fun e => JList (map JStr e).
Definition example_parameter_as_dict : AsDict PywrParameter :=
  fun p => JDict (param_data p).
Definition example_recorder_as_dict : AsDict PywrRecorder :=
  fun r => JDict (recorder_data r).

(** The edge list [(A,B), (B,C), (A,B)]. *)
Definition pair_edges_network : PywrNetwork :=
  mkPywrNetwork example_metadata example_timestepper [] [] []
    [["A"; "B"]; ["B"; "C"]; ["A"; "B"]] [] [].

(** The edge [(A,B,C)], twice. *)
Definition long_edges_network : PywrNetwork :=
  mkPywrNetwork example_metadata example_timestepper [] [] []
    [["A"; "B"; "C"]; ["A"; "B"; "C"]] [] [].

(** A front end whose constructor rejects the empty document and accepts
    every other one without errors or warnings. *)
Definition example_front_end : ParserFrontEnd :=
  {| parser_state := string;
     PywrJSONParser := fun json_src _ =>
       if json_src =? "" then Raise (PywrParserException "Invalid JSON")
       else Return json_src;
     parse := fun parser _ _ _ => Return parser;
     has_errors := fun _ => false;
     errors := fun _ => [];
     has_warnings := fun _ => false;
     warnings := fun _ => [];
     parsed_network := fun _ => referencing_network |}.

(** A file system with one empty file and one file that is not text. *)
Definition example_read_file (filename : string) : read_outcome :=
  if filename =? "empty.json" then ReadContent ""
  else if filename =? "binary.json"
       then ReadRaises (ValueError "'utf-8' codec can't decode byte 0xff")
       else ReadOSError "[Errno 2] No such file or directory".

(** The only reference to the global parameter is under an attribute spelt
    ["Name"]. *)
Definition capitalised_network : PywrNetwork :=
  mkPywrNetwork example_metadata example_timestepper [] []
    [("Reservoir1",
      mkPywrNode "Reservoir1"
        [("Name", VJson (JStr "flow_max")); ("cost", VJson (JNum 3))])]
    []
    [("flow_max", flow_max)]
    [].

(** ** [detach_recorders] *)

Definition with_nodes_recorders (net : PywrNetwork) (ns : dict PywrNode)
           (rs : dict PywrRecorder) : PywrNetwork :=
  mkPywrNetwork (metadata net) (timestepper net) (scenarios net) (tables net)
                ns (edges net) (parameters net) rs.

(** The body of the inner loop; the state is [node.data] and
    [self.recorders].  A recorder object is not a parameter object and a
    parameter object is not a recorder object. *)
Definition detach_recorder_item (item : string * attr_value)
           (st : dict attr_value * dict PywrRecorder)
  : (dict attr_value * dict PywrRecorder) * option exn :=
  let '(attr, value) := item in
  let '(data, recs) := st in
  match value with
  | VRecorder value =>
      if dict_in (recorder_name value) recs
      then (st, Some (ValueError "Attr recorder name duplicates global recorder name"))
      else ((dict_set attr (VJson (JStr (recorder_name value))) data,
             dict_set (recorder_name value) value recs), None)
  | _ => (st, None)
  end.

Definition detach_recorders_node (n : PywrNode) (recs : dict PywrRecorder)
  : (PywrNode * dict PywrRecorder) * option exn :=
  match for_each detach_recorder_item (dict_items (node_data n)) (node_data n, recs) with
  | ((data', recs'), e) => ((mkPywrNode (node_name n) data', recs'), e)
  end.

Fixpoint detach_recorders_nodes (ns : dict PywrNode) (recs : dict PywrRecorder)
  : (dict PywrNode * dict PywrRecorder) * option exn :=
  match ns with
  | [] => (([], recs), None)
  | (key, n) :: rest =>
      match detach_recorders_node n recs with
      | ((n', recs'), Some e) => (((key, n') :: rest, recs'), Some e)
      | ((n', recs'), None) =>
          match detach_recorders_nodes rest recs' with
          | ((rest', recs''), e) => (((key, n') :: rest', recs''), e)
          end
      end
  end.

Definition detach_recorders (self : PywrNetwork) : PywrNetwork * option exn :=
  match detach_recorders_nodes (nodes self) (recorders self) with
  | ((ns, rs), e) => (with_nodes_recorders self ns rs, e)
  end.

(** ** [report] *)

(** [len(getattr(self, component))] for the four component names of
    [report]. *)
Definition component_len (self : PywrNetwork) (component : string) : nat :=
  if component =? "parameters" then dict_len (parameters self)
  else if component =? "recorders" then dict_len (recorders self)
  else if component =? "tables" then dict_len (tables self)
  else List.length (scenarios self).

Definition report (self : PywrNetwork) : dict nat :=
  let report : dict nat :=
    [("nodes", dict_len (nodes self)); ("edges", List.length (edges self))] in
  let components := ["parameters"; "recorders"; "tables"; "scenarios"] in
  fold_left (fun report component =>
               let count := component_len self component in
               if (0 <? count)%nat then dict_set component count report else report)
            components report.

(** ** [PywrParameter.rule_type_required] *)

(** The outcome of a validation rule: its assertion holds, or it raises
    [AssertionError] with a message. *)
Inductive rule_outcome : Type :=
| Passes
| AssertionError (msg : string).

Definition is_str (j : json) : bool :=
  match j with
  | JStr _ => true
  | _ => false
  end.

Definition rule_type_required (self : PywrParameter) : rule_outcome :=
  if is_str (param_type self) then Passes
  else AssertionError ("Parameter <" ++ param_name self ++ "> does not define type").

(** ** The exception classes ([pywrparser/types/exceptions.py]) as objects *)

Inductive exception_class : Type :=
| PywrParserException_class
| PywrTypeValidationError_class
| PywrNetworkValidationError_class.

(** [cls.__qualname__] *)
Definition qualname (c : exception_class) : string :=
  match c with
  | PywrParserException_class => "PywrParserException"
  | PywrTypeValidationError_class => "PywrTypeValidationError"
  | PywrNetworkValidationError_class => "PywrNetworkValidationError"
  end.

(** An exception instance with the attributes the classes use; an attribute
    that was never assigned is [None]. *)
Record exception_object : Type := mkException {
  exc_class : exception_class;
  exc_message : option string;
  exc_source : option json;
  exc_component : option json;
  exc_rules_failed : option (list string)
}.

(** [PywrParserException.__init__], on an instance of class [c]. *)
Definition parser_exception_init (c : exception_class) (message : string)
  : exception_object :=
  mkException c (Some message) None None None.

(** [PywrTypeValidationError.__init__]; [source] and [component] default to
    [None]. *)
Definition type_validation_error_init (message : string) (source component : json)
  : exception_object :=
  let self := parser_exception_init PywrTypeValidationError_class message in
  mkException (exc_class self) (exc_message self)
              (Some (if truthy source then source else JDict []))
              (Some (if truthy component then component else JStr ""))
              (exc_rules_failed self).

(** [PywrNetworkValidationError.__init__] *)
Definition network_validation_error_init (message : string) : exception_object :=
  parser_exception_init PywrNetworkValidationError_class message.

(** [sep.join(l)] *)
Fixpoint str_join (sep : string) (l : list string) : string :=
  match l with
  | [] => ""
  | [x] => x
  | x :: l' => x ++ sep ++ str_join sep l'
  end.

Definition newline : string := String (ascii_of_nat 10) EmptyString.

(** [PywrParserException.__str__] *)
Definition parser_exception_str (self : exception_object) : outcome string :=
  match exc_message self with
  | Some m => Return m
  | None => Raise (AttributeError "object has no attribute 'message'")
  end.

(** [str(self)]: [PywrTypeValidationError] overrides [__str__], the other two
    classes use the one of [PywrParserException]. *)
Definition exception_str (self : exception_object) : outcome string :=
  match exc_class self with
  | PywrTypeValidationError_class =>
      match parser_exception_str self with
      | Raise e => Raise e
      | Return m =>
          match exc_rules_failed self with
          | Some rules_failed => Return (m ++ newline ++ str_join newline rules_failed)
          | None => Raise (AttributeError "object has no attribute 'rules_failed'")
          end
      end
  | _ => parser_exception_str self
  end.

(** [repr(self)]: [__repr__] is defined by [PywrParserException] only. *)
Definition exception_repr (self : exception_object) : outcome string :=
  match exc_message self with
  | Some m => Return (qualname (exc_class self) ++ "(" ++ m ++ ")")
  | None => Raise (AttributeError "object has no attribute 'message'")
  end.

(** ** Vocabulary for the recorder loop and for composed runs *)

(** What one iteration of [detach_recorders] does to the value it visits. *)
Definition detach_recorder_value (name attr : string) (value : attr_value)
           (recs : dict PywrRecorder)
  : (option attr_value * dict PywrRecorder) * option exn :=
  match value with
  | VRecorder r =>
      if dict_in (recorder_name r) recs
      then ((None, recs),
            Some (ValueError "Attr recorder name duplicates global recorder name"))
      else ((Some (VJson (JStr (recorder_name r))), dict_set (recorder_name r) r recs),
            None)
  | _ => ((None, recs), None)
  end.

(** The node store with [f] applied to every attribute value. *)
Definition map_values (f : attr_value -> attr_value) (ns : dict PywrNode)
  : dict PywrNode :=
  map (fun kn => (fst kn,
                  mkPywrNode (node_name (snd kn))
                             (map (fun av => (fst av, f (snd av))) (node_data (snd kn)))))
      ns.

(** The recorders attached to node attributes, in the order of the loops. *)
Definition attached_recorders (ns : dict PywrNode) : list PywrRecorder :=
  flat_map (fun x => match snd x with VRecorder r => [r] | _ => [] end)
           (attrs_in_order ns).

(** The value [detach_recorders] leaves in place of an attached recorder. *)
Definition detached_recorder_value (v : attr_value) : attr_value :=
  match v with
  | VRecorder r => VJson (JStr (recorder_name r))
  | _ => v
  end.

(** The recorder registry after the recorders [rs] were stored one by one. *)
Definition add_recorders (rs : list PywrRecorder) (recs : dict PywrRecorder)
  : dict PywrRecorder :=
  fold_left (fun acc r => dict_set (recorder_name r) r acc) rs recs.

(** No recorder of [rs] finds its name in the registry at the time it is
    stored. *)
Fixpoint recorder_collision_free (rs : list PywrRecorder) (recs : dict PywrRecorder)
  : bool :=
  match rs with
  | [] => true
  | r :: rs' =>
      negb (dict_in (recorder_name r) recs) &&
      recorder_collision_free rs' (dict_set (recorder_name r) r recs)
  end.

(** The shape of a node store: keys, node names and attribute names. *)
Definition shape_of (ns : dict PywrNode) : list (string * string * list string) :=
  map (fun kn => (fst kn, node_name (snd kn), node_attrs (snd kn))) ns.

(** [self.rules_failed = rules], done by whoever fills the error in. *)
Definition set_rules_failed (self : exception_object) (rules : list string)
  : exception_object :=
  mkException (exc_class self) (exc_message self) (exc_source self)
              (exc_component self) (Some rules).

(** Some name of [ks] reads as the reference key of attribute [a] of node
    [n]. *)
Definition names_attr (ks : list string) (n a : string) : bool :=
  existsb (fun k => match parse_reference_key k with
                    | Some (n', a') => (n' =? n) && (a' =? a)
                    | None => false
                    end) ks.

(** The attributes of [ns] can be attached again from the registry [params]:
    a Parameter sits under a name that is not reserved, a string under a
    name that is not reserved names no entry of [params], and a dict under a
    name that is not reserved is one that [attach_parameters] passes over. *)
Definition reattach_ready (ns : dict PywrNode) (params : dict PywrParameter) : bool :=
  forallb (fun x =>
             match x with
             | (_, attr, VParameter _) => negb (reserved attr)
             | (_, attr, VJson (JStr s)) => reserved attr || negb (dict_in s params)
             | (_, attr, VJson (JDict d)) => reserved attr || passed_over d
             | _ => true
             end) (attrs_in_order ns).

(** What [attach_parameters] followed by [detach_parameters] leaves in place
    of a JSON value: an inline definition that the attach acts upon becomes
    the canonical name of its node and attribute, anything else stays. *)
Definition referenced_value (name attr : string) (v : attr_value) : attr_value :=
  match v with
  | VJson (JDict d) =>
      if reserved attr || passed_over d then v
      else VJson (JStr (canonical_name name attr))
  | _ => v
  end.

Definition referenced_attr (x : string * string * attr_value)
  : string * string * attr_value :=
  (fst x, referenced_value (fst (fst x)) (snd (fst x)) (snd x)).

(** ** More example networks *)

(** An inline definition whose canonical name is taken by a global
    parameter. *)
Definition colliding_network : PywrNetwork :=
  mkPywrNetwork example_metadata example_timestepper [] []
    [("Reservoir1",
      mkPywrNode "Reservoir1"
        [("name", VJson (JStr "Reservoir1")); ("cost", VJson (JStr "flow_max"));
         ("max_flow", VJson (JDict monthly_profile)); ("min_flow", VJson (JStr "low"))])]
    []
    [("flow_max", flow_max);
     ("__Reservoir1__:max_flow", mkPywrParameter "__Reservoir1__:max_flow" monthly_profile);
     ("low", mkPywrParameter "low" [("type", JStr "constant")])]
    [].

Definition flow_recorder : PywrRecorder :=
  mkPywrRecorder "flow_rec" [("type", JStr "numpyarraynoderecorder")].

(** A node holds an attached parameter and an attached recorder. *)
Definition mixed_attached_network : PywrNetwork :=
  mkPywrNetwork example_metadata example_timestepper [] []
    [("Reservoir1",
      mkPywrNode "Reservoir1"
        [("name", VJson (JStr "Reservoir1")); ("max_flow", VParameter flow_max);
         ("flow", VRecorder flow_recorder)]);
     ("Link1",
      mkPywrNode "Link1"
        [("name", VJson (JStr "Link1")); ("cost", VJson (JNum 3))])]
    [["Reservoir1"; "Link1"]]
    [("low", mkPywrParameter "low" [("type", JStr "constant")])]
    [].

(** A front end whose [parse] raises as soon as it is asked to raise on
    warnings. *)
Definition warning_front_end : ParserFrontEnd :=
  {| parser_state := string;
     PywrJSONParser := fun json_src _ => Return json_src;
     parse := fun parser _ raise_on_warning _ =>
       if raise_on_warning then Raise (PywrParserException "warning") else Return parser;
     has_errors := fun _ => false;
     errors := fun _ => [];
     has_warnings := fun _ => true;
     warnings := fun _ => [("nodes", [PywrParserException "warning"])];
     parsed_network := fun _ => referencing_network |}.

(** The registries name the same node attributes. *)
Definition both_reference_network : PywrNetwork :=
  mkPywrNetwork example_metadata example_timestepper [] []
    [("Reservoir1",
      mkPywrNode "Reservoir1"
        [("name", VJson (JStr "Reservoir1")); ("type", VJson (JStr "storage"))])]
    []
    [("__Reservoir1__:max_flow", mkPywrParameter "__Reservoir1__:max_flow" monthly_profile)]
    [("__Reservoir1__:flow", flow_recorder);
     ("__Reservoir1__:max_flow", mkPywrRecorder "__Reservoir1__:max_flow" [])].

(** * Properties *)

Open Scope list_scope.

(** ** Dictionaries *)

Lemma dict_get_set_eq {V} (k : string) (v : V) (d : dict V) :
  dict_get k (dict_set k v d) = Some v.
Proof.
  induction d as [|[k' v'] d IH]; simpl.
  - now rewrite String.eqb_refl.
  - destruct (String.eqb k k') eqn:E; simpl.
    + now rewrite String.eqb_refl.
    + now rewrite E.
Qed.

Lemma dict_get_set_neq {V} (k k' : string) (v : V) (d : dict V) :
  k <> k' -> dict_get k (dict_set k' v d) = dict_get k d.
Proof.
  intros Hne. induction d as [|[k0 v0] d IH]; simpl.
  - apply String.eqb_neq in Hne. now rewrite Hne.
  - destruct (String.eqb k' k0) eqn:E; simpl.
    + apply String.eqb_eq in E. subst k0.
      apply String.eqb_neq in Hne. now rewrite Hne.
    + now rewrite IH.
Qed.

Lemma dict_get_del_eq {V} (k : string) (d : dict V) :
  dict_get k (dict_del k d) = None.
Proof.
  induction d as [|[k' v'] d IH]; simpl; auto.
  destruct (String.eqb k k') eqn:E; simpl; auto.
  now rewrite E.
Qed.

Lemma dict_get_del_neq {V} (k k' : string) (d : dict V) :
  k <> k' -> dict_get k (dict_del k' d) = dict_get k d.
Proof.
  intros Hne. induction d as [|[k0 v0] d IH]; simpl; auto.
  destruct (String.eqb k' k0) eqn:E; simpl.
  - apply String.eqb_eq in E. subst k0.
    apply String.eqb_neq in Hne. now rewrite Hne.
  - now rewrite IH.
Qed.

Lemma dict_get_del_some {V} (k k' : string) (d : dict V) (v : V) :
  dict_get k (dict_del k' d) = Some v -> dict_get k d = Some v.
Proof.
  destruct (string_dec k k') as [->|Hne].
  - now rewrite dict_get_del_eq.
  - now rewrite dict_get_del_neq.
Qed.

Lemma dict_get_none_keys {V} (k : string) (d : dict V) :
  dict_get k d = None <-> ~ In k (dict_keys d).
Proof.
  unfold dict_keys.
  induction d as [|[k' v'] d IH]; simpl.
  - tauto.
  - destruct (String.eqb k k') eqn:E.
    + apply String.eqb_eq in E. subst. split; [discriminate | tauto].
    + apply String.eqb_neq in E. rewrite IH. split.
      * intros H [H1|H1]; [congruence | tauto].
      * tauto.
Qed.

Lemma dict_in_keys {V} (k : string) (d : dict V) :
  dict_in k d = true <-> In k (dict_keys d).
Proof.
  unfold dict_in. destruct (dict_get k d) eqn:E.
  - split; auto. intros _.
    destruct (in_dec string_dec k (dict_keys d)) as [H|H]; auto.
    apply dict_get_none_keys in H. congruence.
  - split; [discriminate|]. intros H. apply dict_get_none_keys in E. tauto.
Qed.

Lemma dict_in_false {V} (k : string) (d : dict V) :
  dict_in k d = false <-> dict_get k d = None.
Proof.
  unfold dict_in. destruct (dict_get k d); split; congruence.
Qed.

(** Assignment to a key that is present, and absent from what precedes it,
    replaces the value where it stands. *)
Lemma dict_set_middle {V} (k : string) (v v0 : V) (d1 d2 : dict V) :
  ~ In k (dict_keys d1) ->
  dict_set k v (d1 ++ (k, v0) :: d2) = d1 ++ (k, v) :: d2.
Proof.
  unfold dict_keys.
  induction d1 as [|[k' v'] d1 IH]; simpl; intros Hn.
  - now rewrite String.eqb_refl.
  - destruct (String.eqb k k') eqn:E.
    + apply String.eqb_eq in E. subst. tauto.
    + rewrite IH; tauto.
Qed.

(** Assignment to an absent key appends. *)
Lemma dict_set_fresh {V} (k : string) (v : V) (d : dict V) :
  ~ In k (dict_keys d) -> dict_set k v d = d ++ [(k, v)].
Proof.
  unfold dict_keys.
  induction d as [|[k' v'] d IH]; simpl; intros Hn; auto.
  destruct (String.eqb k k') eqn:E.
  - apply String.eqb_eq in E. subst. tauto.
  - rewrite IH; tauto.
Qed.

Lemma dict_keys_set_present {V} (k : string) (v : V) (d : dict V) :
  In k (dict_keys d) -> dict_keys (dict_set k v d) = dict_keys d.
Proof.
  unfold dict_keys.
  induction d as [|[k' v'] d IH]; simpl; intros Hin.
  - tauto.
  - destruct (String.eqb k k') eqn:E; simpl.
    + apply String.eqb_eq in E. now subst.
    + apply String.eqb_neq in E. rewrite IH; auto.
      destruct Hin; congruence.
Qed.

Lemma unique_NoDup (l : list string) : unique l = true <-> NoDup l.
Proof.
  induction l as [|x l IH]; simpl.
  - split; auto. constructor.
  - rewrite andb_true_iff, negb_true_iff, IH. split.
    + intros [Hx Hl]. constructor; auto.
      intros Hin. assert (existsb (String.eqb x) l = true).
      { apply existsb_exists. exists x. split; auto. apply String.eqb_refl. }
      congruence.
    + intros H. inversion H; subst. split; auto.
      destruct (existsb (String.eqb x) l) eqn:E; auto.
      apply existsb_exists in E. destruct E as [y [Hy Hxy]].
      apply String.eqb_eq in Hxy. subst. tauto.
Qed.

Lemma tuple_in_In (s : string) (t : list string) :
  tuple_in s t = true <-> In s t.
Proof.
  unfold tuple_in. rewrite existsb_exists. split.
  - intros [y [Hy E]]. apply String.eqb_eq in E. now subst.
  - intros H. exists s. split; auto. apply String.eqb_refl.
Qed.

(** ** The loops assign where they stand *)

Section LoopIsPositional.
Context {S : Type}.
Variable g : string -> string -> attr_value -> S
             -> (option attr_value * S) * option exn.
Variable body : string -> string * attr_value -> dict attr_value * S
                -> (dict attr_value * S) * option exn.

(** The body assigns to the attribute it visits, or to none. *)
Hypothesis body_assigns : forall name attr v data s,
  body name (attr, v) (data, s) =
  match g name attr v s with
  | ((Some v', s'), e) => ((dict_set attr v' data, s'), e)
  | ((None, s'), e) => ((data, s'), e)
  end.

Lemma for_each_positional_gen (name : string) (rest done : dict attr_value) (s : S) :
  NoDup (dict_keys (done ++ rest)) ->
  for_each (body name) rest (done ++ rest, s) =
  match update_items g name rest s with
  | ((rest', s'), e) => ((done ++ rest', s'), e)
  end.
Proof.
  revert done s. induction rest as [|[attr v] rest IH]; intros done s Hnd; simpl.
  - reflexivity.
  - rewrite body_assigns.
    assert (Hattr : ~ In attr (dict_keys done)).
    { unfold dict_keys in *. rewrite map_app in Hnd. simpl in Hnd.
      apply NoDup_remove_2 in Hnd. intros Hin. apply Hnd.
      apply in_or_app. now left. }
    assert (Hstep : forall w, done ++ (attr, w) :: rest = (done ++ [(attr, w)]) ++ rest).
    { intros w. now rewrite <- app_assoc. }
    assert (Hnd' : forall w, NoDup (dict_keys ((done ++ [(attr, w)]) ++ rest))).
    { intros w. rewrite <- Hstep. unfold dict_keys in *.
      rewrite map_app in *. simpl in *. exact Hnd. }
    destruct (g name attr v s) as [[[v'|] s'] [e|]]; simpl.
    + now rewrite dict_set_middle.
    + rewrite dict_set_middle by assumption.
      rewrite Hstep, IH by apply Hnd'.
      destruct (update_items g name rest s') as [[rest' s''] e].
      now rewrite <- app_assoc.
    + reflexivity.
    + rewrite Hstep, IH by apply Hnd'.
      destruct (update_items g name rest s') as [[rest' s''] e].
      now rewrite <- app_assoc.
Qed.

Lemma for_each_positional (name : string) (data : dict attr_value) (s : S) :
  unique (dict_keys data) = true ->
  for_each (body name) (dict_items data) (data, s) = update_items g name data s.
Proof.
  intros Hu. apply unique_NoDup in Hu.
  pose proof (for_each_positional_gen name data [] s Hu) as H.
  change ([] ++ data) with data in H.
  unfold dict_items. etransitivity; [exact H|].
  now destruct (update_items g name data s) as [[? ?] ?].
Qed.
End LoopIsPositional.

Lemma attach_item_assigns (name attr : string) (v : attr_value)
      (data : dict attr_value) (params : dict PywrParameter) :
  attach_item name (attr, v) (data, params) =
  match attach_value name attr v params with
  | ((Some v', s'), e) => ((dict_set attr v' data, s'), e)
  | ((None, s'), e) => ((data, s'), e)
  end.
Proof.
  unfold attach_item, attach_value.
  destruct (tuple_in (lower attr) exclude); [reflexivity|].
  destruct v as [j|p|r]; try reflexivity.
  destruct j as [|b|n|s|l|d]; try reflexivity.
  - destruct (dict_get s params); reflexivity.
  - cbv zeta. destruct (negb (truthy (json_get "type" d))); [reflexivity|].
    destruct (json_get "type" d) as [|b|n|t|l|d']; try reflexivity.
    destruct (str_in "recorder" (lower t)); [reflexivity|].
    destruct (dict_in (canonical_name name attr) params); reflexivity.
Qed.

Lemma detach_item_assigns (name attr : string) (v : attr_value)
      (data : dict attr_value) (params : dict PywrParameter) :
  detach_item (attr, v) (data, params) =
  match detach_value name attr v params with
  | ((Some v', s'), e) => ((dict_set attr v' data, s'), e)
  | ((None, s'), e) => ((data, s'), e)
  end.
Proof.
  unfold detach_item, detach_value.
  destruct v as [j|p|r]; try reflexivity.
  destruct (dict_in (param_name p) params); reflexivity.
Qed.

Lemma nodes_wf_cons (key : string) (n : PywrNode) (ns : dict PywrNode) :
  nodes_wf ((key, n) :: ns) = true ->
  unique (dict_keys (node_data n)) = true /\ nodes_wf ns = true.
Proof.
  unfold nodes_wf. simpl. rewrite andb_true_iff. tauto.
Qed.

Lemma attach_nodes_positional (ns : dict PywrNode) (params : dict PywrParameter) :
  nodes_wf ns = true ->
  attach_nodes ns params = update_nodes attach_value ns params.
Proof.
  revert params. induction ns as [|[key n] ns IH]; intros params Hwf; simpl.
  - reflexivity.
  - apply nodes_wf_cons in Hwf. destruct Hwf as [Hu Hwf].
    unfold attach_node.
    rewrite (for_each_positional attach_value attach_item attach_item_assigns) by exact Hu.
    destruct (update_items attach_value (node_name n) (node_data n) params)
      as [[d' s'] [e|]]; [reflexivity|].
    now rewrite IH.
Qed.

Lemma detach_nodes_positional (ns : dict PywrNode) (params : dict PywrParameter) :
  nodes_wf ns = true ->
  detach_nodes ns params = update_nodes detach_value ns params.
Proof.
  revert params. induction ns as [|[key n] ns IH]; intros params Hwf; simpl.
  - reflexivity.
  - apply nodes_wf_cons in Hwf. destruct Hwf as [Hu Hwf].
    unfold detach_node.
    pose proof (for_each_positional detach_value (fun _ => detach_item)
                  detach_item_assigns (node_name n) (node_data n) params Hu) as H.
    cbv beta in H. rewrite H. clear H.
    destruct (update_items detach_value (node_name n) (node_data n) params)
      as [[d' s'] [e|]]; [reflexivity|].
    now rewrite IH.
Qed.

(** ** The traversal of the nodes is the traversal of their attributes in order *)

Section FlatView.
Context {S : Type}.
Variable g : string -> string -> attr_value -> S
             -> (option attr_value * S) * option exn.

Lemma update_flat_app (l1 l2 : list (string * string * attr_value)) (s : S) :
  update_flat g (l1 ++ l2) s =
  match update_flat g l1 s with
  | ((l1', s1), Some e) => ((l1' ++ l2, s1), Some e)
  | ((l1', s1), None) =>
      match update_flat g l2 s1 with
      | ((l2', s2), e) => ((l1' ++ l2', s2), e)
      end
  end.
Proof.
  revert s. induction l1 as [|[[name attr] v] l1 IH]; intros s; simpl.
  - now destruct (update_flat g l2 s) as [[? ?] ?].
  - destruct (g name attr v s) as [[ov s'] [e|]]; [reflexivity|].
    rewrite IH.
    destruct (update_flat g l1 s') as [[l1' s1] [e|]]; [reflexivity|].
    now destruct (update_flat g l2 s1) as [[? ?] ?].
Qed.

Lemma update_items_flat (name : string) (d : dict attr_value) (s : S) :
  update_flat g (attrs_of_node (mkPywrNode name d)) s =
  match update_items g name d s with
  | ((d', s'), e) => ((attrs_of_node (mkPywrNode name d'), s'), e)
  end.
Proof.
  unfold attrs_of_node. simpl.
  revert s. induction d as [|[attr v] d IH]; intros s; simpl.
  - reflexivity.
  - destruct (g name attr v s) as [[ov s'] [e|]]; [reflexivity|].
    rewrite IH.
    now destruct (update_items g name d s') as [[? ?] ?].
Qed.

Lemma update_nodes_flat (ns : dict PywrNode) (s : S) :
  update_flat g (attrs_in_order ns) s =
  match update_nodes g ns s with
  | ((ns', s'), e) => ((attrs_in_order ns', s'), e)
  end.
Proof.
  revert s. induction ns as [|[key [name d]] ns IH]; intros s; simpl.
  - reflexivity.
  - rewrite update_flat_app, update_items_flat.
    destruct (update_items g name d s) as [[d' s'] [e|]]; [reflexivity|].
    rewrite IH.
    now destruct (update_nodes g ns s') as [[? ?] ?].
Qed.

Lemma update_flat_length (l : list (string * string * attr_value)) (s : S) :
  List.length (fst (fst (update_flat g l s))) = List.length l.
Proof.
  revert s. induction l as [|[[name attr] v] l IH]; intros s; simpl; auto.
  destruct (g name attr v s) as [[ov s'] [e|]]; simpl; auto.
  specialize (IH s').
  destruct (update_flat g l s') as [[? ?] ?]; simpl in *. now rewrite IH.
Qed.
End FlatView.

Lemma attach_parameters_flat (net : PywrNetwork) :
  nodes_wf (nodes net) = true ->
  update_flat attach_value (attrs_in_order (nodes net)) (parameters net) =
  match attach_parameters net with
  | (net', e) => ((attrs_in_order (nodes net'), parameters net'), e)
  end.
Proof.
  intros Hwf. unfold attach_parameters.
  rewrite attach_nodes_positional by exact Hwf.
  rewrite update_nodes_flat.
  now destruct (update_nodes attach_value (nodes net) (parameters net)) as [[? ?] ?].
Qed.

Lemma detach_parameters_flat (net : PywrNetwork) :
  nodes_wf (nodes net) = true ->
  update_flat detach_value (attrs_in_order (nodes net)) (parameters net) =
  match detach_parameters net with
  | (net', e) => ((attrs_in_order (nodes net'), parameters net'), e)
  end.
Proof.
  intros Hwf. unfold detach_parameters.
  rewrite detach_nodes_positional by exact Hwf.
  rewrite update_nodes_flat.
  now destruct (update_nodes detach_value (nodes net) (parameters net)) as [[? ?] ?].
Qed.

(** ** One iteration of [attach_parameters] *)

Lemma attach_value_cases (name attr : string) (v : attr_value)
      (r r' : dict PywrParameter) (ov : option attr_value) (e : option exn) :
  attach_value name attr v r = ((ov, r'), e) ->
  (ov = None /\ r' = r) \/
  (exists s p, v = VJson (JStr s) /\ reserved attr = false /\
               dict_get s r = Some p /\
               ov = Some (VParameter p) /\ r' = dict_del s r /\ e = None) \/
  (exists d, v = VJson (JDict d) /\ reserved attr = false /\
             passed_over d = false /\
             dict_in (canonical_name name attr) r = false /\
             ov = Some (VParameter (mkPywrParameter (canonical_name name attr) d)) /\
             r' = r /\ e = None).
Proof.
  unfold attach_value, reserved, passed_over.
  destruct (tuple_in (lower attr) exclude) eqn:Hres.
  { intros H. inversion H. now left. }
  destruct v as [j|p|q]; try (intros H; inversion H; now left).
  destruct j as [|b|n|s|l|d]; try (intros H; inversion H; now left).
  - destruct (dict_get s r) as [p|] eqn:Hget; intros H; inversion H; subst.
    + right. left. exists s, p. repeat split; auto.
    + now left.
  - cbv zeta. destruct (negb (truthy (json_get "type" d))) eqn:Ht.
    { intros H. inversion H. now left. }
    destruct (json_get "type" d) as [|b|n|t|l|d'] eqn:Hty;
      try (intros H; inversion H; now left).
    destruct (str_in "recorder" (lower t)) eqn:Hrec.
    { intros H. inversion H. now left. }
    destruct (dict_in (canonical_name name attr) r) eqn:Hin;
      intros H; inversion H; subst.
    + now left.
    + right. right. exists d. repeat split; auto.
      rewrite Hty, Ht, Hrec. reflexivity.
Qed.

(** The registry never gains an entry during [attach_parameters]. *)
Lemma attach_value_shrinks (name attr : string) (v : attr_value)
      (r r' : dict PywrParameter) (ov : option attr_value) (e : option exn)
      (k : string) (p : PywrParameter) :
  attach_value name attr v r = ((ov, r'), e) ->
  dict_get k r' = Some p -> dict_get k r = Some p.
Proof.
  intros H. apply attach_value_cases in H.
  destruct H as [[_ ->]|[(s & q & _ & _ & _ & _ & -> & _)|(d & _ & _ & _ & _ & _ & -> & _)]];
    auto.
  apply dict_get_del_some.
Qed.

Lemma attach_flat_shrinks (l l' : list (string * string * attr_value))
      (r r' : dict PywrParameter) (e : option exn) (k : string) (p : PywrParameter) :
  update_flat attach_value l r = ((l', r'), e) ->
  dict_get k r' = Some p -> dict_get k r = Some p.
Proof.
  revert l' r r' e. induction l as [|[[name attr] v] l IH]; intros l' r r' e; simpl.
  - intros H. inversion H. auto.
  - destruct (attach_value name attr v r) as [[ov s'] [x|]] eqn:Hv.
    + intros H. inversion H; subst. eapply attach_value_shrinks; eauto.
    + destruct (update_flat attach_value l s') as [[rest' s''] e'] eqn:Hl.
      intros H. inversion H; subst. intros Hk.
      eapply attach_value_shrinks; eauto.
Qed.

Lemma attach_flat_none (l l' : list (string * string * attr_value))
      (r r' : dict PywrParameter) (e : option exn) (k : string) :
  update_flat attach_value l r = ((l', r'), e) ->
  dict_get k r = None -> dict_get k r' = None.
Proof.
  intros H Hn. destruct (dict_get k r') as [p|] eqn:E; auto.
  eapply attach_flat_shrinks in E; eauto. congruence.
Qed.

(** A string reference that is visited leaves no entry of that name. *)
Lemma attach_flat_consumes (l l' : list (string * string * attr_value))
      (r r' : dict PywrParameter) (name attr s : string) :
  update_flat attach_value l r = ((l', r'), None) ->
  In (name, attr, VJson (JStr s)) l -> reserved attr = false ->
  dict_get s r' = None.
Proof.
  revert l' r r'. induction l as [|[[name0 attr0] v] l IH]; intros l' r r'; simpl.
  - tauto.
  - destruct (attach_value name0 attr0 v r) as [[ov s'] [x|]] eqn:Hv; [discriminate|].
    destruct (update_flat attach_value l s') as [[rest' s''] e'] eqn:Hl.
    intros H [Hin|Hin] Hres; inversion H; subst.
    + inversion Hin; subst. eapply attach_flat_none; eauto.
      unfold attach_value in Hv. unfold reserved in Hres. rewrite Hres in Hv.
      destruct (dict_get s r) eqn:Hg; inversion Hv; subst; auto.
      apply dict_get_del_eq.
    + eapply IH; eauto.
Qed.

(** The look-up of a name is not affected by visiting attributes that do not
    refer to it. *)
Lemma attach_flat_keeps (l l' : list (string * string * attr_value))
      (r r' : dict PywrParameter) (e : option exn) (s : string) :
  update_flat attach_value l r = ((l', r'), e) ->
  (forall name attr, In (name, attr, VJson (JStr s)) l -> reserved attr = true) ->
  dict_get s r' = dict_get s r.
Proof.
  revert l' r r' e. induction l as [|[[name0 attr0] v] l IH]; intros l' r r' e; simpl.
  - intros H. inversion H. auto.
  - intros H Hno.
    assert (Hstep : forall ov s' x, attach_value name0 attr0 v r = ((ov, s'), x) ->
                                    dict_get s s' = dict_get s r).
    { intros ov s' x Hv. apply attach_value_cases in Hv.
      destruct Hv as [[_ ->]|[(s0 & q & -> & Hres & _ & _ & -> & _)
                             |(d & _ & _ & _ & _ & _ & -> & _)]]; auto.
      destruct (string_dec s s0) as [->|Hne].
      - specialize (Hno name0 attr0 (or_introl eq_refl)). congruence.
      - now apply dict_get_del_neq. }
    destruct (attach_value name0 attr0 v r) as [[ov s'] [x|]] eqn:Hv.
    + inversion H; subst. eapply Hstep; eauto.
    + destruct (update_flat attach_value l s') as [[rest' s''] e'] eqn:Hl.
      inversion H; subst.
      rewrite (IH _ _ _ _ Hl); [eapply Hstep; eauto|].
      intros name attr Hin. eapply Hno. right. exact Hin.
Qed.

(** The result of the traversal at a given position. *)
Lemma update_flat_nth {S : Type}
      (g : string -> string -> attr_value -> S -> (option attr_value * S) * option exn)
      (l : list (string * string * attr_value)) (s : S) (i : nat)
      (name attr : string) (v : attr_value) :
  nth_error l i = Some (name, attr, v) ->
  exists l1 l2,
    l = l1 ++ (name, attr, v) :: l2 /\ List.length l1 = i /\
    match update_flat g l1 s with
    | ((l1', s1), Some e) =>
        update_flat g l s = ((l1' ++ (name, attr, v) :: l2, s1), Some e) /\
        nth_error (fst (fst (update_flat g l s))) i = Some (name, attr, v)
    | ((l1', s1), None) =>
        match g name attr v s1 with
        | ((ov, s2), Some e) =>
            update_flat g l s = ((l1' ++ (name, attr, assigned v ov) :: l2, s2), Some e)
        | ((ov, s2), None) =>
            match update_flat g l2 s2 with
            | ((l2', s3), e) =>
                update_flat g l s =
                ((l1' ++ (name, attr, assigned v ov) :: l2', s3), e)
            end
        end /\
        nth_error (fst (fst (update_flat g l s))) i =
        Some (name, attr, assigned v (fst (fst (g name attr v s1))))
    end.
Proof.
  intros Hnth. apply nth_error_split in Hnth. destruct Hnth as (l1 & l2 & Hl & Hlen).
  exists l1, l2. split; [exact Hl|]. split; [exact Hlen|].
  pose proof (update_flat_length g l1 s) as Hlen1.
  rewrite Hl, update_flat_app.
  destruct (update_flat g l1 s) as [[l1' s1] [e|]]; simpl in Hlen1.
  - split; [reflexivity|]. simpl.
    rewrite nth_error_app2 by lia.
    replace (i - List.length l1') with 0 by lia. reflexivity.
  - simpl.
    destruct (g name attr v s1) as [[ov s2] [e|]]; simpl.
    + split; [reflexivity|].
      rewrite nth_error_app2 by lia.
      replace (i - List.length l1') with 0 by lia. reflexivity.
    + destruct (update_flat g l2 s2) as [[l2' s3] e]; simpl.
      split; [reflexivity|].
      rewrite nth_error_app2 by lia.
      replace (i - List.length l1') with 0 by lia. reflexivity.
Qed.

(** ** [attach_parameters]: reserved attribute names *)

Lemma attach_items_reserved (name : string) (items data data' : dict attr_value)
      (ps ps' : dict PywrParameter) (e : option exn) (a : string) :
  for_each (attach_item name) items (data, ps) = ((data', ps'), e) ->
  reserved a = true ->
  dict_get a data' = dict_get a data.
Proof.
  revert data ps. induction items as [|[attr v] items IH]; intros data ps;
    cbn [for_each].
  - intros H. inversion H. auto.
  - rewrite attach_item_assigns.
    destruct (attach_value name attr v ps) as [[ov s'] x] eqn:Hv.
    assert (Hdata : dict_get a (match ov with Some v' => dict_set attr v' data
                                         | None => data end) = dict_get a data
                    \/ reserved a = false).
    { apply attach_value_cases in Hv.
      destruct Hv as [[-> _]|[(s0 & q & _ & Hres & _ & -> & _)
                             |(d & _ & Hres & _ & _ & -> & _)]]; auto;
        destruct (string_dec a attr) as [->|Hne]; auto;
        left; now apply dict_get_set_neq. }
    intros H Ha. destruct Hdata as [Hdata|Hdata]; [|congruence].
    destruct ov as [v'|]; destruct x as [x|]; inversion H; subst; auto;
      try (erewrite IH by eauto; exact Hdata).
Qed.

(** C10: [attach_parameters] excludes the reserved attribute names whatever
    their case.  An attribute whose lowercased name is ["name"] or ["type"] is
    passed over by the loop body for every value, and after the whole run
    (finished or interrupted) every node has the same key, the same name and
    the same value under that attribute as before. *)
Theorem C10_reserved_attributes_unchanged (net : PywrNetwork) (a : string) :
  lower a = "name" \/ lower a = "type" ->
  (forall name v st, attach_item name (a, v) st = (st, None)) /\
  Forall2 (fun kn kn' =>
             fst kn' = fst kn /\
             node_name (snd kn') = node_name (snd kn) /\
             dict_get a (node_data (snd kn')) = dict_get a (node_data (snd kn)))
          (nodes net) (nodes (fst (attach_parameters net))).
Proof.
  intros Ha.
  assert (Hres : reserved a = true).
  { unfold reserved. destruct Ha as [Ha|Ha]; rewrite Ha; reflexivity. }
  split.
  - intros name v [data ps]. unfold attach_item. cbv beta iota zeta.
    unfold reserved in Hres. now rewrite Hres.
  - unfold attach_parameters.
    generalize (parameters net) as ps. generalize (nodes net) as ns.
    induction ns as [|[key n] ns IH]; intros ps; simpl.
    + constructor.
    + unfold attach_node.
      destruct (for_each (attach_item (node_name n)) (dict_items (node_data n))
                         (node_data n, ps)) as [[data' ps'] e] eqn:Hloop.
      assert (Hn : dict_get a data' = dict_get a (node_data n)).
      { eapply attach_items_reserved; eauto. }
      destruct e as [e|]; simpl.
      * constructor; [simpl; auto|].
        clear. induction ns as [|kn ns IH]; constructor; auto.
      * specialize (IH ps').
        destruct (attach_nodes ns ps') as [[rest' ps''] e']. simpl in *.
        constructor; [simpl; auto | exact IH].
Qed.

Lemma C10_reserved_attributes_unchanged_witness :
  (lower "TYPE" = "name" \/ lower "TYPE" = "type") /\
  (forall name v st, attach_item name ("TYPE", v) st = (st, None)) /\
  Forall2 (fun kn kn' =>
             fst kn' = fst kn /\
             node_name (snd kn') = node_name (snd kn) /\
             dict_get "TYPE" (node_data (snd kn')) = dict_get "TYPE" (node_data (snd kn)))
          (nodes reserved_network) (nodes (fst (attach_parameters reserved_network))).
Proof.
  split; [right; reflexivity|].
  apply (C10_reserved_attributes_unchanged reserved_network "TYPE").
  right; reflexivity.
Defined.

(** ** [attach_parameters]: string references *)

(** C2, as the code has it: during [attach_parameters], an attribute whose
    lowercased name is neither name nor type and whose value is a string is
    resolved against the registry.  One iteration either stores the registry's
    Parameter in the attribute and deletes the entry, or (no entry of that
    name) changes nothing and raises nothing.  Over the whole run: a string
    that names no entry of the registry is left unchanged; a string that names
    an entry has that entry removed by the end of a run that raises nothing,
    and the first attribute that refers to it holds the registry's
    Parameter. *)
Theorem C2_string_reference (net : PywrNetwork) (i : nat) (name attr s : string) :
  nodes_wf (nodes net) = true ->
  nth_error (attrs_in_order (nodes net)) i = Some (name, attr, VJson (JStr s)) ->
  reserved attr = false ->
  (forall data params,
      attach_item name (attr, VJson (JStr s)) (data, params) =
      match dict_get s params with
      | Some param => ((dict_set attr (VParameter param) data, dict_del s params), None)
      | None => ((data, params), None)
      end) /\
  (dict_get s (parameters net) = None ->
   nth_error (attrs_in_order (nodes (fst (attach_parameters net)))) i =
   Some (name, attr, VJson (JStr s))) /\
  (forall p,
      dict_get s (parameters net) = Some p ->
      snd (attach_parameters net) = None ->
      dict_get s (parameters (fst (attach_parameters net))) = None /\
      ((forall j name' attr',
           j < i ->
           nth_error (attrs_in_order (nodes net)) j = Some (name', attr', VJson (JStr s)) ->
           reserved attr' = true) ->
       nth_error (attrs_in_order (nodes (fst (attach_parameters net)))) i =
       Some (name, attr, VParameter p))).
Proof.
  intros Hwf Hnth Hres.
  pose proof (attach_parameters_flat net Hwf) as Hflat.
  destruct (attach_parameters net) as [net' e] eqn:Hrun. cbn [fst snd].
  destruct (update_flat_nth attach_value _ (parameters net) _ _ _ _ Hnth)
    as (l1 & l2 & Hl & Hlen & Hat).
  rewrite Hflat in Hat. cbn [fst snd] in Hat.
  split; [|split].
  - intros data params. unfold attach_item. cbv beta iota zeta.
    unfold reserved in Hres. rewrite Hres.
    destruct (dict_get s params); reflexivity.
  - intros Hnone.
    destruct (update_flat attach_value l1 (parameters net)) as [[l1' r1] [x|]] eqn:H1.
    + apply Hat.
    + destruct Hat as [_ Hat]. rewrite Hat.
      assert (Hr1 : dict_get s r1 = None) by (eapply attach_flat_none; eauto).
      unfold attach_value. unfold reserved in Hres. rewrite Hres, Hr1. reflexivity.
  - intros p Hp He. subst e. split.
    + assert (Hin : In (name, attr, VJson (JStr s)) (attrs_in_order (nodes net))).
      { eapply nth_error_In; eauto. }
      eapply attach_flat_consumes; eauto.
    + intros Hfirst.
      destruct (update_flat attach_value l1 (parameters net)) as [[l1' r1] [x|]] eqn:H1.
      * destruct Hat as [Hat _]. discriminate.
      * destruct Hat as [_ Hat]. rewrite Hat.
        assert (Hr1 : dict_get s r1 = Some p).
        { rewrite <- Hp. eapply attach_flat_keeps; eauto.
          intros name' attr' Hin. apply In_nth_error in Hin. destruct Hin as [j Hj].
          assert (Hjlt : j < List.length l1).
          { apply nth_error_Some. congruence. }
          apply (Hfirst j name' attr'); [lia|].
          rewrite Hl, nth_error_app1 by exact Hjlt. exact Hj. }
        unfold attach_value. unfold reserved in Hres. rewrite Hres, Hr1. reflexivity.
Qed.

(** The spec's example: ["flow_max"] referenced by [Reservoir1.max_flow]. *)
Lemma C2_string_reference_witness :
  dict_get "flow_max" (parameters (fst (attach_parameters referencing_network))) = None /\
  nth_error (attrs_in_order (nodes (fst (attach_parameters referencing_network)))) 2 =
  Some ("Reservoir1", "max_flow", VParameter flow_max) /\
  nth_error (attrs_in_order (nodes (fst (attach_parameters referencing_network)))) 3 =
  Some ("Reservoir1", "cost", VJson (JStr "penalty")).
Proof.
  pose proof (C2_string_reference referencing_network 2 "Reservoir1" "max_flow" "flow_max"
                eq_refl eq_refl eq_refl) as [_ [_ H]].
  specialize (H flow_max eq_refl eq_refl). destruct H as [H1 H2].
  pose proof (C2_string_reference referencing_network 3 "Reservoir1" "cost" "penalty"
                eq_refl eq_refl eq_refl) as [_ [H3 _]].
  split; [exact H1|]. split; [|exact (H3 eq_refl)].
  apply H2. intros j name' attr' Hj.
  destruct j as [|[|[|j]]]; try lia; vm_compute; intros E; inversion E.
Defined.

(** C2 as the spec words it does not hold: an attribute spelt ["Name"] is
    not named name or type, its value is a string that is a key of the
    registry, and yet [attach_parameters] leaves the attribute and the
    registry as they are, because the guard tests the lowercased name. *)
Lemma C2_counterexample :
  "Name" <> "name" /\ "Name" <> "type" /\
  nth_error (attrs_in_order (nodes capitalised_network)) 0 =
  Some ("Reservoir1", "Name", VJson (JStr "flow_max")) /\
  dict_get "flow_max" (parameters capitalised_network) = Some flow_max /\
  attach_item "Reservoir1" ("Name", VJson (JStr "flow_max"))
              (node_data (mkPywrNode "Reservoir1"
                            [("Name", VJson (JStr "flow_max")); ("cost", VJson (JNum 3))]),
               parameters capitalised_network) =
  ((node_data (mkPywrNode "Reservoir1"
                 [("Name", VJson (JStr "flow_max")); ("cost", VJson (JNum 3))]),
    parameters capitalised_network), None) /\
  attach_parameters capitalised_network = (capitalised_network, None) /\
  nth_error (attrs_in_order (nodes (fst (attach_parameters capitalised_network)))) 0 <>
  Some ("Reservoir1", "Name", VParameter flow_max) /\
  dict_get "flow_max" (parameters (fst (attach_parameters capitalised_network))) <> None.
Proof.
  repeat split; try reflexivity; try discriminate; vm_compute; discriminate.
Qed.

(** ** [attach_parameters]: one global parameter, one attribute *)

(** An attribute under a reserved name is the same after the run. *)
Lemma attach_reserved_position (net : PywrNetwork) (j : nat) (name attr : string)
      (v : attr_value) :
  nodes_wf (nodes net) = true ->
  nth_error (attrs_in_order (nodes net)) j = Some (name, attr, v) ->
  reserved attr = true ->
  nth_error (attrs_in_order (nodes (fst (attach_parameters net)))) j =
  Some (name, attr, v).
Proof.
  intros Hwf Hj Hr.
  pose proof (attach_parameters_flat net Hwf) as Hflat.
  destruct (attach_parameters net) as [net' e] eqn:Hrun. cbn [fst snd].
  destruct (update_flat_nth attach_value _ (parameters net) _ _ _ _ Hj)
    as (l1 & l2 & Hl & Hlen & Hat).
  rewrite Hflat in Hat. cbn [fst snd] in Hat.
  destruct (update_flat attach_value l1 (parameters net)) as [[l1' r1] [x|]] eqn:H1.
  - apply Hat.
  - destruct Hat as [_ Hat]. rewrite Hat.
    unfold attach_value. unfold reserved in Hr. now rewrite Hr.
Qed.

(** An attribute that holds the same string as an earlier attribute under a
    non-reserved name is the same after the run. *)
Lemma attach_later_position (net : PywrNetwork) (i j : nat)
      (name attr name' attr' s : string) :
  nodes_wf (nodes net) = true ->
  i < j ->
  nth_error (attrs_in_order (nodes net)) i = Some (name, attr, VJson (JStr s)) ->
  reserved attr = false ->
  nth_error (attrs_in_order (nodes net)) j = Some (name', attr', VJson (JStr s)) ->
  nth_error (attrs_in_order (nodes (fst (attach_parameters net)))) j =
  Some (name', attr', VJson (JStr s)).
Proof.
  intros Hwf Hij Hi Hres Hj.
  pose proof (attach_parameters_flat net Hwf) as Hflat.
  destruct (attach_parameters net) as [net' e] eqn:Hrun. cbn [fst snd].
  destruct (update_flat_nth attach_value _ (parameters net) _ _ _ _ Hj)
    as (l1 & l2 & Hl & Hlen & Hat).
  rewrite Hflat in Hat. cbn [fst snd] in Hat.
  destruct (update_flat attach_value l1 (parameters net)) as [[l1' r1] [x|]] eqn:H1.
  - apply Hat.
  - destruct Hat as [_ Hat]. rewrite Hat.
    assert (Hr1 : dict_get s r1 = None).
    { eapply attach_flat_consumes; eauto.
      rewrite Hl, nth_error_app1 in Hi by lia.
      eapply nth_error_In; eauto. }
    unfold attach_value. rewrite Hr1.
    destruct (tuple_in (lower attr') exclude); reflexivity.
Qed.

(** C9: within one run of [attach_parameters], a global parameter is attached
    to at most one node attribute: of any two attributes that hold the same
    string [s], at least one still holds the string after the run.  The one
    that can receive the Parameter is the first, in visiting order, that holds
    [s] under a name that passes the reserved-name guard (the first one the
    resolution step processes): every other attribute that holds [s], before
    or after it, still holds the string after the run, whether or not the run
    raises.  When [s] names the registry entry [p] and the run raises nothing,
    that first attribute holds the Parameter [p] afterwards and the entry [s]
    has left the registry, which is what the later iterations observe; when
    [s] names no entry, it keeps the string too. *)
Theorem C9_attached_at_most_once (net : PywrNetwork) (s : string) :
  nodes_wf (nodes net) = true ->
  (forall i j name attr name' attr',
      i < j ->
      nth_error (attrs_in_order (nodes net)) i = Some (name, attr, VJson (JStr s)) ->
      nth_error (attrs_in_order (nodes net)) j = Some (name', attr', VJson (JStr s)) ->
      nth_error (attrs_in_order (nodes (fst (attach_parameters net)))) i =
      Some (name, attr, VJson (JStr s)) \/
      nth_error (attrs_in_order (nodes (fst (attach_parameters net)))) j =
      Some (name', attr', VJson (JStr s))) /\
  (forall i name attr,
      nth_error (attrs_in_order (nodes net)) i = Some (name, attr, VJson (JStr s)) ->
      reserved attr = false ->
      (forall j name' attr',
          j < i ->
          nth_error (attrs_in_order (nodes net)) j = Some (name', attr', VJson (JStr s)) ->
          reserved attr' = true) ->
      (forall j name' attr',
          j <> i ->
          nth_error (attrs_in_order (nodes net)) j = Some (name', attr', VJson (JStr s)) ->
          nth_error (attrs_in_order (nodes (fst (attach_parameters net)))) j =
          Some (name', attr', VJson (JStr s))) /\
      (forall p,
          dict_get s (parameters net) = Some p ->
          snd (attach_parameters net) = None ->
          nth_error (attrs_in_order (nodes (fst (attach_parameters net)))) i =
          Some (name, attr, VParameter p) /\
          dict_get s (parameters (fst (attach_parameters net))) = None) /\
      (dict_get s (parameters net) = None ->
       nth_error (attrs_in_order (nodes (fst (attach_parameters net)))) i =
       Some (name, attr, VJson (JStr s)))).
Proof.
  intros Hwf. split.
  - (* of two attributes holding the string, one keeps it *)
    intros i j name attr name' attr' Hij Hi Hj.
    destruct (reserved attr) eqn:Hr.
    + left. now apply attach_reserved_position.
    + right. eapply attach_later_position; eauto.
  - intros i name attr Hi Hres Hfirst.
    split; [|split].
    + (* every other attribute that holds the string keeps it *)
      intros j name' attr' Hne Hj.
      destruct (Nat.lt_ge_cases j i) as [Hlt|Hge].
      * apply attach_reserved_position; auto. eapply Hfirst; eauto.
      * eapply attach_later_position with (i := i); eauto. lia.
    + (* the first one receives the parameter and the entry is removed *)
      intros p Hp He.
      pose proof (attach_parameters_flat net Hwf) as Hflat.
      destruct (attach_parameters net) as [net' e] eqn:Hrun. cbn [fst snd] in *.
      subst e.
      destruct (update_flat_nth attach_value _ (parameters net) _ _ _ _ Hi)
        as (l1 & l2 & Hl & Hlen & Hat).
      rewrite Hflat in Hat. cbn [fst snd] in Hat.
      split.
      * destruct (update_flat attach_value l1 (parameters net))
          as [[l1' r1] [x|]] eqn:H1.
        -- destruct Hat as [Hat _]. discriminate.
        -- destruct Hat as [_ Hat]. rewrite Hat.
           assert (Hr1 : dict_get s r1 = Some p).
           { rewrite <- Hp. eapply attach_flat_keeps; eauto.
             intros name' attr' Hin. apply In_nth_error in Hin.
             destruct Hin as [j Hj].
             assert (Hjlt : j < List.length l1).
             { apply nth_error_Some. congruence. }
             apply (Hfirst j name' attr'); [lia|].
             rewrite Hl, nth_error_app1 by exact Hjlt. exact Hj. }
           unfold attach_value. unfold reserved in Hres.
           rewrite Hres, Hr1. reflexivity.
      * eapply attach_flat_consumes; eauto. eapply nth_error_In; eauto.
    + (* no entry of that name: nothing happens *)
      intros Hnone.
      pose proof (attach_parameters_flat net Hwf) as Hflat.
      destruct (attach_parameters net) as [net' e] eqn:Hrun. cbn [fst snd] in *.
      destruct (update_flat_nth attach_value _ (parameters net) _ _ _ _ Hi)
        as (l1 & l2 & Hl & Hlen & Hat).
      rewrite Hflat in Hat. cbn [fst snd] in Hat.
      destruct (update_flat attach_value l1 (parameters net)) as [[l1' r1] [x|]] eqn:H1.
      * apply Hat.
      * destruct Hat as [_ Hat]. rewrite Hat.
        assert (Hr1 : dict_get s r1 = None) by (eapply attach_flat_none; eauto).
        unfold attach_value. unfold reserved in Hres. rewrite Hres, Hr1. reflexivity.
Qed.

(** In [referencing_network], [Reservoir1.max_flow] and [Link1.max_flow] both
    hold ["flow_max"]: the first receives the Parameter, the entry leaves the
    registry, and the second still holds the string. *)
Lemma C9_attached_at_most_once_witness :
  nth_error (attrs_in_order (nodes (fst (attach_parameters referencing_network)))) 2 =
  Some ("Reservoir1", "max_flow", VParameter flow_max) /\
  dict_get "flow_max" (parameters (fst (attach_parameters referencing_network))) = None /\
  nth_error (attrs_in_order (nodes (fst (attach_parameters referencing_network)))) 6 =
  Some ("Link1", "max_flow", VJson (JStr "flow_max")).
Proof.
  assert (Hfirst : forall j name' attr',
             j < 2 ->
             nth_error (attrs_in_order (nodes referencing_network)) j =
             Some (name', attr', VJson (JStr "flow_max")) ->
             reserved attr' = true).
  { intros j name' attr' Hj.
    destruct j as [|[|j]]; try lia; vm_compute; intros E; inversion E. }
  destruct (C9_attached_at_most_once referencing_network "flow_max" eq_refl)
    as [_ Hone].
  destruct (Hone 2 "Reservoir1" "max_flow" eq_refl eq_refl Hfirst)
    as (Hothers & Hfirst_gets & _).
  destruct (Hfirst_gets flow_max eq_refl eq_refl) as [H2 Hreg].
  split; [exact H2|]. split; [exact Hreg|].
  apply (Hothers 6 "Link1" "max_flow"); [lia | reflexivity].
Defined.

(** ** [attach_parameters]: inline definitions *)

(** C3, as the code has it: during [attach_parameters], a dict-valued
    attribute not spelt name/type is passed over when its [type] is missing or
    falsy (null, false, zero, empty) or is a string that contains "recorder"
    in any case.  When [type] is a non-empty string without "recorder", the
    iteration raises [ValueError] exactly when the canonical name of
    (node name, attribute name) is a key of the registry, and otherwise
    replaces the value by a new Parameter of that name built from the dict,
    leaving the registry as it is.  Over the whole run, a passed-over dict is
    unchanged, and after a run that raises nothing the attribute holds the new
    Parameter. *)
Theorem C3_inline_definition (net : PywrNetwork) (i : nat) (name attr : string)
        (d : dict json) :
  nodes_wf (nodes net) = true ->
  nth_error (attrs_in_order (nodes net)) i = Some (name, attr, VJson (JDict d)) ->
  reserved attr = false ->
  (forall data params,
      (dict_get "type" d = None \/ truthy (json_get "type" d) = false ->
       attach_item name (attr, VJson (JDict d)) (data, params) = ((data, params), None)) /\
      (forall t, json_get "type" d = JStr t -> str_in "recorder" (lower t) = true ->
                 attach_item name (attr, VJson (JDict d)) (data, params) =
                 ((data, params), None)) /\
      (forall t, json_get "type" d = JStr t -> t <> "" ->
                 str_in "recorder" (lower t) = false ->
                 attach_item name (attr, VJson (JDict d)) (data, params) =
                 if dict_in (canonical_name name attr) params
                 then ((data, params), Some (ValueError "inline dups global param"))
                 else ((dict_set attr
                                 (VParameter (mkPywrParameter (canonical_name name attr) d))
                                 data, params), None))) /\
  (passed_over d = true ->
   nth_error (attrs_in_order (nodes (fst (attach_parameters net)))) i =
   Some (name, attr, VJson (JDict d))) /\
  (forall t, json_get "type" d = JStr t -> t <> "" ->
             str_in "recorder" (lower t) = false ->
             snd (attach_parameters net) = None ->
             nth_error (attrs_in_order (nodes (fst (attach_parameters net)))) i =
             Some (name, attr, VParameter (mkPywrParameter (canonical_name name attr) d))).
Proof.
  intros Hwf Hnth Hres.
  pose proof (attach_parameters_flat net Hwf) as Hflat.
  destruct (attach_parameters net) as [net' e] eqn:Hrun. cbn [fst snd].
  destruct (update_flat_nth attach_value _ (parameters net) _ _ _ _ Hnth)
    as (l1 & l2 & Hl & Hlen & Hat).
  rewrite Hflat in Hat. cbn [fst snd] in Hat.
  unfold reserved in Hres.
  split; [|split].
  - intros data params. split; [|split].
    + intros Habs.
      assert (Ht : truthy (json_get "type" d) = false).
      { destruct Habs as [Habs|Habs]; [|exact Habs].
        unfold json_get. now rewrite Habs. }
      unfold attach_item. cbv beta iota zeta. rewrite Hres, Ht. reflexivity.
    + intros t Ht Hrec.
      unfold attach_item. cbv beta iota zeta. rewrite Hres, Ht, Hrec.
      destruct (negb (truthy (JStr t))); reflexivity.
    + intros t Ht Hne Hrec.
      unfold attach_item. cbv beta iota zeta. rewrite Hres, Ht, Hrec.
      apply String.eqb_neq in Hne. cbn [truthy]. rewrite Hne. cbn [negb].
      destruct (dict_in (canonical_name name attr) params); reflexivity.
  - intros Hpass.
    destruct (update_flat attach_value l1 (parameters net)) as [[l1' r1] [x|]] eqn:H1.
    + apply Hat.
    + destruct Hat as [_ Hat]. rewrite Hat.
      unfold attach_value. rewrite Hres. cbv zeta.
      unfold passed_over in Hpass.
      destruct (negb (truthy (json_get "type" d))); [reflexivity|].
      destruct (json_get "type" d); try discriminate.
      cbn [orb] in Hpass. rewrite Hpass. reflexivity.
  - intros t Ht Hne Hrec He. subst e.
    destruct (update_flat attach_value l1 (parameters net)) as [[l1' r1] [x|]] eqn:H1.
    + destruct Hat as [Hat _]. discriminate.
    + destruct Hat as [Hrun' Hat]. rewrite Hat.
      unfold attach_value in *. rewrite Hres in *. cbv zeta in *.
      rewrite Ht in *. apply String.eqb_neq in Hne. cbn [truthy negb] in *.
      rewrite Hne, Hrec in *. cbn [negb] in *.
      destruct (dict_in (canonical_name name attr) r1); [discriminate|reflexivity].
Qed.

(** The spec's example: [Reservoir1.max_flow] defined inline becomes a
    Parameter named by the canonical-name convention. *)
Lemma C3_inline_definition_witness :
  nth_error (attrs_in_order (nodes (fst (attach_parameters inline_network)))) 2 =
  Some ("Reservoir1", "max_flow",
        VParameter (mkPywrParameter "__Reservoir1__:max_flow" monthly_profile)).
Proof.
  pose proof (C3_inline_definition inline_network 2 "Reservoir1" "max_flow"
                monthly_profile eq_refl eq_refl eq_refl) as [_ [_ H]].
  apply (H "monthlyprofileparameter" eq_refl); [discriminate | reflexivity | reflexivity].
Defined.

(** C3 as the spec words it does not hold: a [type] that is present, is a
    string and does not mention a recorder can still be passed over (the empty
    string), and an error other than the name collision can be raised (a
    [type] that is a number) while the canonical name is free. *)
Lemma C3_counterexample :
  (dict_get "type" empty_type_definition = Some (JStr "") /\
   str_in "recorder" (lower "") = false /\
   dict_in (canonical_name "Reservoir1" "max_flow") (@nil (string * PywrParameter)) = false /\
   attach_item "Reservoir1" ("max_flow", VJson (JDict empty_type_definition))
               ([("max_flow", VJson (JDict empty_type_definition))], []) =
   (([("max_flow", VJson (JDict empty_type_definition))], []), None) /\
   dict_get "max_flow"
            (fst (fst (attach_item "Reservoir1"
                                   ("max_flow", VJson (JDict empty_type_definition))
                                   ([("max_flow", VJson (JDict empty_type_definition))], []))))
   <> Some (VParameter (mkPywrParameter (canonical_name "Reservoir1" "max_flow")
                                        empty_type_definition))) /\
  (dict_get "type" numeric_type_definition = Some (JNum 5) /\
   dict_in (canonical_name "Reservoir1" "max_flow") (@nil (string * PywrParameter)) = false /\
   snd (attach_item "Reservoir1" ("max_flow", VJson (JDict numeric_type_definition))
                    ([("max_flow", VJson (JDict numeric_type_definition))], [])) =
   Some (AttributeError "object has no attribute 'lower'")).
Proof.
  repeat split; try reflexivity.
  vm_compute. discriminate.
Qed.

(** ** The shape of the node store is kept by the loops *)

Lemma same_shape_refl (ns : dict PywrNode) : same_shape ns ns.
Proof.
  unfold same_shape. induction ns; constructor; auto.
Qed.

Lemma same_shape_sym (ns ns' : dict PywrNode) :
  same_shape ns ns' -> same_shape ns' ns.
Proof.
  unfold same_shape. induction 1 as [|kn kn' ns ns' (H1 & H2 & H3) _ IH];
    constructor; auto.
Qed.

Lemma update_items_keys {S : Type}
      (g : string -> string -> attr_value -> S -> (option attr_value * S) * option exn)
      (name : string) (d : dict attr_value) (s : S) :
  dict_keys (fst (fst (update_items g name d s))) = dict_keys d.
Proof.
  unfold dict_keys.
  revert s. induction d as [|[attr v] d IH]; intros s; simpl; auto.
  destruct (g name attr v s) as [[ov s'] [e|]]; simpl; auto.
  specialize (IH s').
  destruct (update_items g name d s') as [[? ?] ?]; simpl in *. now rewrite IH.
Qed.

Lemma update_nodes_shape {S : Type}
      (g : string -> string -> attr_value -> S -> (option attr_value * S) * option exn)
      (ns : dict PywrNode) (s : S) :
  same_shape ns (fst (fst (update_nodes g ns s))).
Proof.
  revert s. induction ns as [|[key n] ns IH]; intros s; simpl.
  - constructor.
  - pose proof (update_items_keys g (node_name n) (node_data n) s) as Hk.
    destruct (update_items g (node_name n) (node_data n) s) as [[d' s'] [e|]];
      simpl in *.
    + constructor; [simpl; auto | apply same_shape_refl].
    + specialize (IH s').
      destruct (update_nodes g ns s') as [[rest' s''] e]; simpl in *.
      constructor; [simpl; auto | exact IH].
Qed.

Lemma same_shape_wf (ns ns' : dict PywrNode) :
  same_shape ns ns' -> nodes_wf ns = true -> nodes_wf ns' = true.
Proof.
  unfold same_shape, nodes_wf.
  induction 1 as [|kn kn' ns ns' (H1 & H2 & H3) _ IH]; simpl; auto.
  rewrite !andb_true_iff. rewrite <- H3. tauto.
Qed.

Lemma app_eq_length {A : Type} (a b c d : list A) :
  List.length a = List.length c -> a ++ b = c ++ d -> a = c /\ b = d.
Proof.
  revert c. induction a as [|x a IH]; intros [|y c]; simpl; try discriminate; auto.
  intros Hlen H. inversion H; subst.
  destruct (IH c) as [-> ->]; auto.
Qed.

Lemma detached_data_flat (name name' : string) (d d' : dict attr_value) :
  name = name' ->
  attrs_of_node (mkPywrNode name' d') = map detached_attr (attrs_of_node (mkPywrNode name d)) ->
  d' = map (fun av => (fst av, detached_value (snd av))) d.
Proof.
  intros <-. unfold attrs_of_node. simpl.
  revert d'. induction d as [|[a v] d IH]; intros [|[a' v'] d']; simpl;
    try discriminate; auto.
  intros H. inversion H; subst. f_equal. now apply IH.
Qed.

Lemma shape_detached (ns ns' : dict PywrNode) :
  same_shape ns ns' ->
  attrs_in_order ns' = map detached_attr (attrs_in_order ns) ->
  ns' = detached_nodes ns.
Proof.
  unfold same_shape.
  induction 1 as [|[k [name d]] [k' [name' d']] ns ns' (H1 & H2 & H3) _ IH]; simpl.
  - reflexivity.
  - simpl in *. subst k' name'. rewrite map_app. intros H.
    apply app_eq_length in H.
    + destruct H as [Hd Hrest].
      apply (detached_data_flat name name d d' eq_refl) in Hd.
      rewrite (IH Hrest). unfold detached_node. simpl. now rewrite Hd.
    + unfold attrs_of_node. simpl. rewrite !length_map.
      unfold node_attrs, dict_keys in H3. simpl in H3.
      apply (f_equal (@List.length string)) in H3.
      rewrite !length_map in H3. auto.
Qed.

(** ** [detach_parameters] *)

Lemma attached_in_cons (x : string * string * attr_value)
      (l : list (string * string * attr_value)) :
  attached_in (x :: l) =
  match snd x with
  | VParameter p => p :: attached_in l
  | _ => attached_in l
  end.
Proof.
  unfold attached_in. simpl. destruct (snd x); reflexivity.
Qed.

Lemma detach_flat_ok (l : list (string * string * attr_value)) (r : dict PywrParameter) :
  collision_free (attached_in l) r = true ->
  update_flat detach_value l r =
  ((map detached_attr l, add_params (attached_in l) r), None).
Proof.
  revert r. induction l as [|[[name attr] v] l IH]; intros r; simpl update_flat.
  - reflexivity.
  - rewrite attached_in_cons.
    destruct v as [j|p|q]; cbn [snd map detach_value];
      try (intros H; rewrite (IH r H); reflexivity).
    cbn [collision_free]. rewrite andb_true_iff, negb_true_iff.
    intros [Hin Hfree]. rewrite Hin.
    rewrite (IH _ Hfree). reflexivity.
Qed.

Lemma detach_flat_collision (l : list (string * string * attr_value))
      (r : dict PywrParameter) :
  collision_free (attached_in l) r = false ->
  snd (update_flat detach_value l r) =
  Some (ValueError "Attr param name duplicates global param name").
Proof.
  revert r. induction l as [|[[name attr] v] l IH]; intros r; simpl update_flat.
  - discriminate.
  - rewrite attached_in_cons.
    destruct v as [j|p|q]; cbn [snd detach_value];
      try (intros H; specialize (IH r H);
           destruct (update_flat detach_value l r) as [[? ?] ?]; exact IH).
    cbn [collision_free]. rewrite andb_false_iff, negb_false_iff.
    destruct (dict_in (param_name p) r) eqn:Hin; [reflexivity|].
    intros [H|H]; [discriminate|].
    specialize (IH _ H).
    destruct (update_flat detach_value l (dict_set (param_name p) p r)) as [[? ?] ?].
    exact IH.
Qed.

Lemma add_params_preserves (ps : list PywrParameter) (r : dict PywrParameter)
      (k : string) (v : PywrParameter) :
  collision_free ps r = true ->
  dict_get k r = Some v -> dict_get k (add_params ps r) = Some v.
Proof.
  revert r. induction ps as [|p ps IH]; intros r; simpl; auto.
  rewrite andb_true_iff, negb_true_iff, dict_in_false.
  intros [Hin Hfree] Hk. apply IH; auto.
  rewrite dict_get_set_neq; auto. congruence.
Qed.

Lemma add_params_get (ps : list PywrParameter) (r : dict PywrParameter)
      (p : PywrParameter) :
  collision_free ps r = true -> In p ps ->
  dict_get (param_name p) (add_params ps r) = Some p.
Proof.
  revert r. induction ps as [|p0 ps IH]; intros r; simpl; [tauto|].
  rewrite andb_true_iff. intros [Hin Hfree] [->|Hp].
  - apply add_params_preserves; auto. apply dict_get_set_eq.
  - now apply IH.
Qed.

Lemma add_params_other (ps : list PywrParameter) (r : dict PywrParameter) (k : string) :
  ~ In k (map param_name ps) ->
  dict_get k (add_params ps r) = dict_get k r.
Proof.
  revert r. induction ps as [|p ps IH]; intros r; simpl; auto.
  intros Hk. rewrite IH by tauto. apply dict_get_set_neq. intros ->. tauto.
Qed.

Lemma detach_parameters_collision_free (net : PywrNetwork) :
  nodes_wf (nodes net) = true ->
  collision_free (attached_parameters (nodes net)) (parameters net) = true ->
  detach_parameters net =
  (with_nodes_parameters net (detached_nodes (nodes net))
                         (add_params (attached_parameters (nodes net)) (parameters net)),
   None) /\
  forall p, In p (attached_parameters (nodes net)) ->
            dict_get (param_name p)
                     (add_params (attached_parameters (nodes net)) (parameters net))
            = Some p.
Proof.
  intros Hwf Hfree. split.
  - pose proof (detach_parameters_flat net Hwf) as Hflat.
    unfold attached_parameters in *.
    rewrite (detach_flat_ok _ _ Hfree) in Hflat.
    unfold detach_parameters in *.
    rewrite detach_nodes_positional in * by exact Hwf.
    pose proof (update_nodes_shape detach_value (nodes net) (parameters net)) as Hshape.
    destruct (update_nodes detach_value (nodes net) (parameters net))
      as [[ns' ps'] e]. simpl in *.
    inversion Hflat; subst.
    rewrite (shape_detached _ _ Hshape) by auto. reflexivity.
  - intros p Hp. now apply add_params_get.
Qed.

(** C4: during [detach_parameters], an attribute that holds a Parameter is
    given the Parameter's name as its value and the Parameter is stored in
    the registry under that name, unless the name is a key of the registry at
    that moment, in which case [ValueError] is raised.  Over the whole run:
    when no attached Parameter finds its name in the registry at the time it
    is stored ([collision_free]), the run raises nothing, every attached
    Parameter is replaced by its name and is found in the registry under its
    name; otherwise the run raises [ValueError]. *)
Theorem C4_detach_parameters (net : PywrNetwork) :
  nodes_wf (nodes net) = true ->
  (forall attr p data params,
      detach_item (attr, VParameter p) (data, params) =
      if dict_in (param_name p) params
      then ((data, params),
            Some (ValueError "Attr param name duplicates global param name"))
      else ((dict_set attr (VJson (JStr (param_name p))) data,
             dict_set (param_name p) p params), None)) /\
  (collision_free (attached_parameters (nodes net)) (parameters net) = true ->
   detach_parameters net =
   (with_nodes_parameters net (detached_nodes (nodes net))
                          (add_params (attached_parameters (nodes net)) (parameters net)),
    None) /\
   forall p, In p (attached_parameters (nodes net)) ->
             dict_get (param_name p)
                      (add_params (attached_parameters (nodes net)) (parameters net))
             = Some p) /\
  (collision_free (attached_parameters (nodes net)) (parameters net) = false ->
   snd (detach_parameters net) =
   Some (ValueError "Attr param name duplicates global param name")).
Proof.
  intros Hwf. split; [|split].
  - intros attr p data params. reflexivity.
  - intros Hfree. now apply detach_parameters_collision_free.
  - intros Hfree.
    pose proof (detach_parameters_flat net Hwf) as Hflat.
    apply detach_flat_collision in Hfree. unfold attached_parameters in *.
    destruct (detach_parameters net) as [net' e].
    rewrite Hflat in Hfree. exact Hfree.
Qed.

Lemma C4_detach_parameters_witness :
  detach_parameters attached_network =
  (with_nodes_parameters attached_network
     [("Reservoir1",
       mkPywrNode "Reservoir1"
         [("name", VJson (JStr "Reservoir1")); ("type", VJson (JStr "storage"));
          ("max_flow", VJson (JStr "flow_max"))])]
     [("flow_max", flow_max)], None) /\
  snd (detach_parameters (with_nodes_parameters attached_network
                            (nodes attached_network) [("flow_max", flow_max)])) =
  Some (ValueError "Attr param name duplicates global param name").
Proof.
  split.
  - exact (proj1 (proj1 (proj2 (C4_detach_parameters attached_network eq_refl)) eq_refl)).
  - exact (proj2 (proj2 (C4_detach_parameters
                           (with_nodes_parameters attached_network
                              (nodes attached_network) [("flow_max", flow_max)])
                           eq_refl)) eq_refl).
Defined.

(** ** [attach_parameters] followed by [detach_parameters] *)

Lemma keyed_get (r : dict PywrParameter) (k : string) (p : PywrParameter) :
  keyed_by_name r = true -> dict_get k r = Some p -> param_name p = k.
Proof.
  unfold keyed_by_name.
  induction r as [|[k' p'] r IH]; simpl; [discriminate|].
  rewrite andb_true_iff. intros [Hk Hr].
  destruct (String.eqb k k') eqn:E.
  - intros H. inversion H; subst. apply String.eqb_eq in E, Hk. congruence.
  - auto.
Qed.

Lemma keyed_del (r : dict PywrParameter) (k : string) :
  keyed_by_name r = true -> keyed_by_name (dict_del k r) = true.
Proof.
  unfold keyed_by_name.
  induction r as [|[k' p'] r IH]; simpl; auto.
  rewrite andb_true_iff. intros [Hk Hr].
  destruct (String.eqb k k'); simpl; auto.
  rewrite Hk. auto.
Qed.

(** Nothing is raised on an attribute that is not an inline definition. *)
Lemma attach_value_quiet (name attr : string) (v : attr_value)
      (r : dict PywrParameter) :
  match v with
  | VJson (JDict d) => reserved attr || passed_over d
  | _ => true
  end = true ->
  snd (attach_value name attr v r) = None /\
  (forall p, fst (fst (attach_value name attr v r)) = Some (VParameter p) ->
             exists s, v = VJson (JStr s) /\ dict_get s r = Some p /\
                       snd (fst (attach_value name attr v r)) = dict_del s r) /\
  (fst (fst (attach_value name attr v r)) = None ->
   snd (fst (attach_value name attr v r)) = r) /\
  (forall w, fst (fst (attach_value name attr v r)) = Some w -> is_json w = false).
Proof.
  unfold attach_value, reserved, passed_over.
  destruct (tuple_in (lower attr) exclude) eqn:Hres.
  { intros _. simpl. repeat split; auto; discriminate. }
  destruct v as [j|p|q];
    try (intros _; simpl; repeat split; auto; discriminate).
  destruct j as [|b|n|s|l|d];
    try (intros _; simpl; repeat split; auto; discriminate).
  - intros _. destruct (dict_get s r) as [p|] eqn:Hget; simpl.
    + repeat split; auto; try discriminate.
      * intros p0 H. inversion H; subst. exists s. auto.
      * intros w H. inversion H. reflexivity.
    + repeat split; auto; discriminate.
  - cbv zeta. cbn [orb].
    destruct (negb (truthy (json_get "type" d))) eqn:Ht.
    { intros _. simpl. repeat split; auto; discriminate. }
    cbn [orb].
    destruct (json_get "type" d) as [|b|n|t|l|d']; try discriminate.
    intros ->. simpl. repeat split; auto; discriminate.
Qed.

Lemma attach_flat_roundtrip (l l' : list (string * string * attr_value))
      (r r' : dict PywrParameter) (e : option exn) :
  forallb (fun x => is_json (snd x)) l = true ->
  forallb (fun x => match x with
                    | (_, attr, VJson (JDict d)) => reserved attr || passed_over d
                    | _ => true
                    end) l = true ->
  keyed_by_name r = true ->
  update_flat attach_value l r = ((l', r'), e) ->
  e = None /\
  map detached_attr l' = l /\
  (forall p, In p (attached_in l') ->
             dict_get (param_name p) r = Some p /\ dict_get (param_name p) r' = None) /\
  NoDup (map param_name (attached_in l')) /\
  (forall k, ~ In k (map param_name (attached_in l')) -> dict_get k r' = dict_get k r).
Proof.
  revert l' r r' e. induction l as [|[[name attr] v] l IH]; intros l' r r' e.
  - simpl. intros _ _ _ H. inversion H; subst. simpl.
    repeat split; auto; try tauto. constructor.
  - cbn [forallb snd]. rewrite !andb_true_iff.
    intros [Hj Hjs] [Hq Hqs] Hkeyed. cbn [update_flat].
    destruct (attach_value_quiet name attr v r Hq) as (Hnone & Hglob & Hsame & Hnj).
    destruct (attach_value name attr v r) as [[ov s'] x] eqn:Hv.
    cbn [fst snd] in *. subst x.
    destruct (update_flat attach_value l s') as [[rest' s''] e'] eqn:Hl.
    intros H. inversion H; subst. clear H.
    destruct ov as [w|].
    + (* a global parameter was attached *)
      destruct w as [j|p|q];
        try (specialize (Hnj _ eq_refl); discriminate).
      2:{ exfalso. clear - Hv Hj.
          apply attach_value_cases in Hv.
          destruct Hv as [[H _]|[(s & p & _ & _ & _ & H & _)|(d & _ & _ & _ & _ & H & _)]];
            discriminate. }
      destruct (Hglob p eq_refl) as (s & -> & Hget & ->).
      pose proof (keyed_get _ _ _ Hkeyed Hget) as Hname.
      destruct (IH _ _ _ _ Hjs Hqs (keyed_del _ s Hkeyed) Hl)
        as (He & Hmap & Hps & Hnd & Hother).
      assert (Hfresh : ~ In s (map param_name (attached_in rest'))).
      { intros Hin. apply in_map_iff in Hin. destruct Hin as (p' & Hn' & Hin').
        destruct (Hps p' Hin') as [Hin1 _]. rewrite Hn' in Hin1.
        rewrite dict_get_del_eq in Hin1. discriminate. }
      split; [exact He|].
      rewrite attached_in_cons. cbn [snd assigned map].
      split; [|split; [|split]].
      * unfold detached_attr at 1. cbn [fst snd detached_value].
        rewrite Hname, Hmap. reflexivity.
      * intros p' [<-|Hin'].
        -- rewrite Hname. split; [exact Hget|].
           eapply attach_flat_none; eauto. apply dict_get_del_eq.
        -- destruct (Hps p' Hin') as [H1 H2]. split; [|exact H2].
           eapply dict_get_del_some; eauto.
      * cbn [map]. rewrite Hname. constructor; auto.
      * intros k Hk. cbn [map] in Hk. rewrite Hname in Hk. cbn [In] in Hk.
        rewrite Hother by tauto. apply dict_get_del_neq. intros ->. tauto.
    + (* the attribute was passed over *)
      rewrite (Hsame eq_refl) in *.
      destruct (IH _ _ _ _ Hjs Hqs Hkeyed Hl) as (He & Hmap & Hps & Hnd & Hother).
      split; [exact He|].
      rewrite attached_in_cons. cbn [snd assigned map].
      destruct v as [j|p|q]; try discriminate.
      unfold detached_attr at 1. cbn [fst snd detached_value].
      rewrite Hmap. auto.
Qed.

Lemma collision_free_intro (ps : list PywrParameter) (r : dict PywrParameter) :
  NoDup (map param_name ps) ->
  (forall p, In p ps -> dict_get (param_name p) r = None) ->
  collision_free ps r = true.
Proof.
  revert r. induction ps as [|p ps IH]; intros r; simpl; auto.
  intros Hnd Hnone. inversion Hnd; subst.
  rewrite andb_true_iff, negb_true_iff, dict_in_false. split; [auto|].
  apply IH; auto.
  intros p' Hp'. rewrite dict_get_set_neq; auto.
  intros E. apply H1. rewrite <- E. now apply in_map.
Qed.

(** C1, as the code has it: for a network as the parser delivers it (node
    attributes hold JSON data, attribute names are unique in each node, every
    registry entry is stored under its parameter's name) in which no node
    attribute is an inline parameter definition, [attach_parameters] and then
    [detach_parameters] raise nothing and are a round trip: the node store is
    the one before the attach, and the registry has the same content. *)
Theorem C1_round_trip (net : PywrNetwork) :
  nodes_wf (nodes net) = true ->
  json_only (nodes net) = true ->
  keyed_by_name (parameters net) = true ->
  no_inline_definitions (nodes net) = true ->
  snd (attach_parameters net) = None /\
  snd (detach_parameters (fst (attach_parameters net))) = None /\
  nodes (fst (detach_parameters (fst (attach_parameters net)))) = nodes net /\
  dict_equiv (parameters (fst (detach_parameters (fst (attach_parameters net)))))
             (parameters net).
Proof.
  intros Hwf Hjson Hkeyed Hinline.
  pose proof (attach_parameters_flat net Hwf) as Hflat.
  assert (Hshape : same_shape (nodes net) (nodes (fst (attach_parameters net)))).
  { unfold attach_parameters. rewrite attach_nodes_positional by exact Hwf.
    pose proof (update_nodes_shape attach_value (nodes net) (parameters net)) as H.
    destruct (update_nodes attach_value (nodes net) (parameters net)) as [[? ?] ?].
    exact H. }
  destruct (attach_parameters net) as [net1 e1] eqn:Hrun1. cbn [fst snd] in *.
  destruct (attach_flat_roundtrip _ _ _ _ _ Hjson Hinline Hkeyed Hflat)
    as (He & Hmap & Hps & Hnd & Hother).
  assert (Hwf1 : nodes_wf (nodes net1) = true) by (eapply same_shape_wf; eauto).
  assert (Hfree : collision_free (attached_parameters (nodes net1)) (parameters net1)
                  = true).
  { apply collision_free_intro; auto. intros p Hp. now apply Hps. }
  destruct (detach_parameters_collision_free net1 Hwf1 Hfree) as [Hrun2 _].
  rewrite Hrun2. cbn [fst snd nodes parameters with_nodes_parameters].
  split; [exact He|]. split; [reflexivity|]. split.
  - symmetry. apply shape_detached.
    + now apply same_shape_sym.
    + symmetry. exact Hmap.
  - intros k. unfold attached_parameters in *.
    destruct (in_dec string_dec k (map param_name (attached_in (attrs_in_order (nodes net1)))))
      as [Hin|Hnin].
    + apply in_map_iff in Hin. destruct Hin as (p & <- & Hin).
      rewrite (add_params_get _ _ _ Hfree Hin). symmetry. now apply Hps.
    + rewrite add_params_other by exact Hnin. now apply Hother.
Qed.

Lemma C1_round_trip_witness :
  snd (attach_parameters referencing_network) = None /\
  snd (detach_parameters (fst (attach_parameters referencing_network))) = None /\
  nodes (fst (detach_parameters (fst (attach_parameters referencing_network)))) =
  nodes referencing_network /\
  dict_equiv (parameters (fst (detach_parameters
                                 (fst (attach_parameters referencing_network)))))
             (parameters referencing_network).
Proof.
  apply (C1_round_trip referencing_network); reflexivity.
Defined.

(** C1 as the spec words it does not hold: an inline definition is promoted
    by the attach and comes back from the detach as a string reference and a
    new registry entry, although no name collides and nothing is raised. *)
Lemma C1_counterexample :
  nodes_wf (nodes inline_network) = true /\
  json_only (nodes inline_network) = true /\
  keyed_by_name (parameters inline_network) = true /\
  snd (attach_parameters inline_network) = None /\
  snd (detach_parameters (fst (attach_parameters inline_network))) = None /\
  nodes (fst (detach_parameters (fst (attach_parameters inline_network)))) <>
  nodes inline_network /\
  dict_get "__Reservoir1__:max_flow"
           (parameters (fst (detach_parameters (fst (attach_parameters inline_network)))))
  <> dict_get "__Reservoir1__:max_flow" (parameters inline_network).
Proof.
  repeat split; try reflexivity; vm_compute; discriminate.
Qed.

(** ** Reference keys *)

Lemma strip_prefix_sound (p s r : string) :
  strip_prefix p s = Some r -> s = (p ++ r)%string.
Proof.
  revert s. induction p as [|a p IH]; intros s; simpl.
  - intros H. now inversion H.
  - destruct s as [|b s]; [discriminate|].
    destruct (Ascii.eqb a b) eqn:E; [|discriminate].
    apply Ascii.eqb_eq in E. subst b. intros H. f_equal. now apply IH.
Qed.

Lemma split_reference_sound (s l r : string) :
  split_reference s = Some (l, r) -> s = (l ++ "__:" ++ r)%string.
Proof.
  revert l. induction s as [|c s IH]; intros l.
  - simpl. discriminate.
  - cbn [split_reference].
    destruct (strip_prefix "__:" (String c s)) as [r0|] eqn:Hp.
    + intros H. inversion H; subst. now apply strip_prefix_sound in Hp.
    + destruct (split_reference s) as [[l0 r0]|]; [|discriminate].
      intros H. inversion H; subst. simpl. f_equal. now apply IH.
Qed.

(** A name that parses as a reference key is the canonical name of what it
    parses to; so no two names stand for the same node attribute. *)
Lemma parse_reference_key_sound (k n a : string) :
  parse_reference_key k = Some (n, a) -> k = canonical_name n a.
Proof.
  unfold parse_reference_key, canonical_name.
  destruct (strip_prefix "__" k) as [rest|] eqn:Hp; [|discriminate].
  intros H. apply split_reference_sound in H. apply strip_prefix_sound in Hp.
  now subst.
Qed.

(** ** [add_parameter_references] *)

Lemma tuple_in_attrs (a : string) (node : PywrNode) :
  tuple_in a (node_attrs node) = dict_in a (node_data node).
Proof.
  unfold node_attrs.
  destruct (dict_in a (node_data node)) eqn:E.
  - apply tuple_in_In. now apply dict_in_keys.
  - destruct (tuple_in a (dict_keys (node_data node))) eqn:E'; auto.
    apply tuple_in_In, dict_in_keys in E'. congruence.
Qed.

Lemma add_reference_item_in (k n : string) (ns : dict PywrNode) :
  dict_in n (add_reference_item k ns) = dict_in n ns.
Proof.
  unfold add_reference_item.
  destruct (parse_reference_key k) as [[n' a']|]; auto.
  destruct (dict_get n' ns) as [node|] eqn:Hn'; auto.
  destruct (tuple_in a' (node_attrs node)); auto.
  unfold dict_in. destruct (string_dec n n') as [->|Hne].
  - now rewrite dict_get_set_eq, Hn'.
  - now rewrite dict_get_set_neq.
Qed.

(** What one iteration does to the attribute [a] of the node stored under [n]. *)
Lemma add_reference_item_attr (k n a : string) (ns : dict PywrNode) :
  node_attr (add_reference_item k ns) n a =
  match node_attr ns n a with
  | Some v => Some v
  | None =>
      match parse_reference_key k with
      | Some (n', a') =>
          if (n' =? n) && (a' =? a) && dict_in n ns
          then Some (VJson (JStr k)) else None
      | None => None
      end
  end.
Proof.
  unfold add_reference_item.
  destruct (parse_reference_key k) as [[n' a']|];
    [|destruct (node_attr ns n a); reflexivity].
  destruct (String.eqb n' n) eqn:En; cbn [andb].
  - apply String.eqb_eq in En. subst n'.
    unfold node_attr at 2, dict_in.
    destruct (dict_get n ns) as [node|] eqn:Hn.
    + rewrite tuple_in_attrs. unfold dict_in.
      destruct (dict_get a' (node_data node)) as [v'|] eqn:Ha'.
      * unfold node_attr. rewrite Hn.
        destruct (dict_get a (node_data node)) as [v|] eqn:Ha; auto.
        destruct (String.eqb a' a) eqn:Ea; auto.
        apply String.eqb_eq in Ea. congruence.
      * unfold node_attr. rewrite dict_get_set_eq. cbn [node_data].
        destruct (String.eqb a' a) eqn:Ea; cbn [andb].
        -- apply String.eqb_eq in Ea. subst a'.
           now rewrite dict_get_set_eq, Ha'.
        -- apply String.eqb_neq in Ea.
           rewrite dict_get_set_neq by congruence.
           destruct (dict_get a (node_data node)); reflexivity.
    + unfold node_attr. rewrite Hn. now rewrite andb_false_r.
  - apply String.eqb_neq in En.
    assert (Hsame : node_attr
                      match dict_get n' ns with
                      | Some node =>
                          if tuple_in a' (node_attrs node) then ns
                          else dict_set n'
                                 (mkPywrNode (node_name node)
                                    (dict_set a' (VJson (JStr k)) (node_data node))) ns
                      | None => ns
                      end n a = node_attr ns n a).
    { destruct (dict_get n' ns) as [node|]; auto.
      destruct (tuple_in a' (node_attrs node)); auto.
      unfold node_attr. rewrite dict_get_set_neq by congruence. reflexivity. }
    rewrite Hsame. destruct (node_attr ns n a); reflexivity.
Qed.

Section References.
Lemma references_in (l : list string) (ns : dict PywrNode) (n : string) :
  dict_in n (add_references l ns) = dict_in n ns.
Proof.
  revert ns. induction l as [|k l IH]; intros ns; simpl; auto.
  rewrite IH. apply add_reference_item_in.
Qed.

Lemma references_keep (l : list string) (ns : dict PywrNode) (n a : string)
      (v : attr_value) :
  node_attr ns n a = Some v -> node_attr (add_references l ns) n a = Some v.
Proof.
  revert ns. induction l as [|k l IH]; intros ns; simpl; auto.
  intros H. apply IH. rewrite add_reference_item_attr, H. reflexivity.
Qed.

Lemma references_set (l : list string) (ns : dict PywrNode) (k n a : string) :
  In k l -> parse_reference_key k = Some (n, a) ->
  dict_in n ns = true -> node_attr ns n a = None ->
  node_attr (add_references l ns) n a = Some (VJson (JStr k)).
Proof.
  revert ns. induction l as [|k0 l IH]; intros ns; simpl; [tauto|].
  intros Hin Hk Hn Ha.
  pose proof (add_reference_item_attr k0 n a ns) as Hstep. rewrite Ha in Hstep.
  destruct (parse_reference_key k0) as [[n' a']|] eqn:Hk0.
  - destruct ((n' =? n) && (a' =? a) && dict_in n ns) eqn:Hc.
    + rewrite !andb_true_iff in Hc. destruct Hc as [[En Ea] _].
      apply String.eqb_eq in En, Ea. subst n' a'.
      apply parse_reference_key_sound in Hk0, Hk. subst k0.
      apply references_keep. rewrite Hstep. now rewrite Hk.
    + destruct Hin as [->|Hin].
      * rewrite Hk in Hk0. inversion Hk0; subst.
        rewrite !String.eqb_refl, Hn in Hc. discriminate.
      * apply IH; auto. now rewrite add_reference_item_in.
  - destruct Hin as [->|Hin]; [congruence|].
    apply IH; auto. now rewrite add_reference_item_in.
Qed.

Lemma references_only (l : list string) (ns : dict PywrNode) (n a : string)
      (v : attr_value) :
  node_attr (add_references l ns) n a = Some v ->
  node_attr ns n a = Some v \/
  (node_attr ns n a = None /\ In (canonical_name n a) l /\
   v = VJson (JStr (canonical_name n a))).
Proof.
  revert ns. induction l as [|k l IH]; intros ns; simpl; [tauto|].
  intros H. apply IH in H. rewrite add_reference_item_attr in H.
  destruct (node_attr ns n a) as [v0|] eqn:Ha.
  - destruct H as [H|[H _]]; [now left | discriminate].
  - right. split; auto.
    destruct (parse_reference_key k) as [[n' a']|] eqn:Hk.
    + destruct ((n' =? n) && (a' =? a) && dict_in n ns) eqn:Hc.
      * rewrite !andb_true_iff in Hc. destruct Hc as [[En Ea] _].
        apply String.eqb_eq in En, Ea. subst n' a'.
        apply parse_reference_key_sound in Hk. subst k.
        destruct H as [H|[H _]]; [|discriminate].
        inversion H. auto.
      * destruct H as [H|(_ & H1 & H2)]; [discriminate|]. auto.
    + destruct H as [H|(_ & H1 & H2)]; [discriminate|]. auto.
Qed.

Lemma settled_iff (k : string) (ns : dict PywrNode) :
  reference_settled k ns <->
  forall n a, parse_reference_key k = Some (n, a) ->
              dict_in n ns = true -> node_attr ns n a <> None.
Proof.
  unfold reference_settled, node_attr, dict_in.
  destruct (parse_reference_key k) as [[n a]|].
  - destruct (dict_get n ns) as [node|] eqn:Hn.
    + rewrite tuple_in_attrs. unfold dict_in. split.
      * intros H n' a' E. inversion E; subst. rewrite Hn. intros _.
        destruct (dict_get a' (node_data node)); congruence.
      * intros H. specialize (H n a eq_refl). rewrite Hn in H.
        destruct (dict_get a (node_data node)); auto.
        exfalso. now apply H.
    + split; auto. intros _ n' a' E. inversion E; subst. rewrite Hn. discriminate.
  - split; auto. discriminate.
Qed.

Lemma settled_id (k : string) (ns : dict PywrNode) :
  reference_settled k ns -> add_reference_item k ns = ns.
Proof.
  unfold reference_settled, add_reference_item.
  destruct (parse_reference_key k) as [[n a]|]; auto.
  destruct (dict_get n ns) as [node|]; auto.
  now intros ->.
Qed.

Lemma settled_step (k k' : string) (ns : dict PywrNode) :
  reference_settled k ns -> reference_settled k (add_reference_item k' ns).
Proof.
  rewrite !settled_iff. intros H n a Hk Hn.
  rewrite add_reference_item_in in Hn. specialize (H n a Hk Hn).
  rewrite add_reference_item_attr.
  destruct (node_attr ns n a); congruence.
Qed.

Lemma step_settles (k : string) (ns : dict PywrNode) :
  reference_settled k (add_reference_item k ns).
Proof.
  rewrite settled_iff. intros n a Hk Hn.
  rewrite add_reference_item_in in Hn.
  rewrite add_reference_item_attr, Hk, !String.eqb_refl, Hn.
  destruct (node_attr ns n a); discriminate.
Qed.

Lemma settled_references (l : list string) (k : string) (ns : dict PywrNode) :
  reference_settled k ns -> reference_settled k (add_references l ns).
Proof.
  revert ns. induction l as [|k' l IH]; intros ns; simpl; auto.
  intros H. apply IH. now apply settled_step.
Qed.

Lemma references_settle (l : list string) (ns : dict PywrNode) (k : string) :
  In k l -> reference_settled k (add_references l ns).
Proof.
  revert ns. induction l as [|k' l IH]; intros ns; simpl; [tauto|].
  intros [->|Hin].
  - apply settled_references, step_settles.
  - now apply IH.
Qed.

Lemma references_settled_id (l : list string) (ns : dict PywrNode) :
  (forall k, In k l -> reference_settled k ns) -> add_references l ns = ns.
Proof.
  induction l as [|k l IH]; simpl; auto.
  intros H. rewrite settled_id by auto. apply IH. auto.
Qed.

Lemma references_idempotent (ks : list string) (ns : dict PywrNode) :
  add_references ks (add_references ks ns) = add_references ks ns.
Proof.
  apply references_settled_id. intros k Hk. now apply references_settle.
Qed.
End References.

(** C5: [add_parameter_references] gives every node attribute named by a
    registry key of the form ["__<nodename>__:<attrname>"] the key itself as
    its value, when the node exists and does not have the attribute.  Names
    that are not in that format, whose node does not exist, or whose attribute
    is already set are skipped; attributes that were set keep their value,
    nothing else is added, the registry is not touched, and a second
    invocation changes nothing. *)
Theorem C5_add_parameter_references (net : PywrNetwork) :
  (forall k n a,
      In k (dict_keys (parameters net)) ->
      parse_reference_key k = Some (n, a) ->
      k = canonical_name n a /\
      (dict_in n (nodes net) = true ->
       node_attr (nodes net) n a = None ->
       node_attr (nodes (add_parameter_references net)) n a = Some (VJson (JStr k)))) /\
  (forall k ns,
      parse_reference_key k = None \/
      (exists n a, parse_reference_key k = Some (n, a) /\
                   (dict_in n ns = false \/ node_attr ns n a <> None)) ->
      add_reference_item k ns = ns) /\
  (forall n a v,
      node_attr (nodes net) n a = Some v ->
      node_attr (nodes (add_parameter_references net)) n a = Some v) /\
  (forall n a v,
      node_attr (nodes (add_parameter_references net)) n a = Some v ->
      node_attr (nodes net) n a = Some v \/
      (In (canonical_name n a) (dict_keys (parameters net)) /\
       v = VJson (JStr (canonical_name n a)))) /\
  parameters (add_parameter_references net) = parameters net /\
  add_parameter_references (add_parameter_references net) = add_parameter_references net.
Proof.
  unfold add_parameter_references, add_component_references, component_store.
  cbn [String.eqb Ascii.eqb Bool.eqb andb with_nodes nodes parameters].
  split; [|split; [|split; [|split; [|split]]]].
  - intros k n a Hin Hk. split; [now apply parse_reference_key_sound|].
    intros Hn Ha. now apply references_set.
  - intros k ns H. apply settled_id. apply settled_iff.
    intros n a Hk Hn. destruct H as [H|(n' & a' & Hk' & H)]; [congruence|].
    rewrite Hk in Hk'. inversion Hk'; subst. destruct H; congruence.
  - intros n a v. apply references_keep.
  - intros n a v H. apply references_only in H. tauto.
  - reflexivity.
  - unfold with_nodes. cbn [nodes parameters metadata timestepper scenarios tables
                            edges recorders].
    now rewrite references_idempotent.
Qed.

(** The spec's example: the registry names ["__Reservoir1__:max_flow"] and
    [Reservoir1] has no [max_flow]. *)
Example add_parameter_references_example :
  node_attr (nodes (add_parameter_references back_reference_network))
            "Reservoir1" "max_flow" = Some (VJson (JStr "__Reservoir1__:max_flow")) /\
  node_attr (nodes (add_parameter_references back_reference_network))
            "Reservoir1" "type" = Some (VJson (JStr "storage")) /\
  dict_in "Missing" (nodes (add_parameter_references back_reference_network)) = false.
Proof. repeat split. Qed.

(** ** [as_dict] *)

Lemma dict_comprehension_gen {V W : Type} (f : V -> W) (d : dict V) (acc : dict W) :
  NoDup (dict_keys acc ++ dict_keys d) ->
  fold_left (fun acc kv => dict_set (fst kv) (f (snd kv)) acc) d acc =
  acc ++ map (fun kv => (fst kv, f (snd kv))) d.
Proof.
  revert acc. induction d as [|[k v] d IH]; intros acc Hnd; simpl.
  - now rewrite app_nil_r.
  - unfold dict_keys in *. simpl in Hnd.
    rewrite dict_set_fresh.
    + rewrite IH.
      * now rewrite <- app_assoc.
      * rewrite map_app. simpl. rewrite <- app_assoc. exact Hnd.
    + apply NoDup_remove_2 in Hnd. intros Hin. apply Hnd.
      apply in_or_app. now left.
Qed.

Lemma dict_comprehension_length {V W : Type} (f : V -> W) (d : dict V) :
  unique (dict_keys d) = true ->
  List.length (dict_comprehension f d) = List.length d.
Proof.
  intros Hu. apply unique_NoDup in Hu. unfold dict_comprehension, dict_items.
  rewrite dict_comprehension_gen by exact Hu.
  simpl. apply length_map.
Qed.

Section SerialiseProperties.
Context {metadata_as_dict : AsDict PywrMetadata}
        {timestepper_as_dict : AsDict PywrTimestepper}
        {scenario_as_dict : AsDict PywrScenario}
        {table_as_dict : AsDict PywrTable}
        {node_as_dict : AsDict PywrNode}
        {edge_as_dict : AsDict PywrEdge}
        {parameter_as_dict : AsDict PywrParameter}
        {recorder_as_dict : AsDict PywrRecorder}.

(** C7: the mapping returned by [as_dict] always has the keys [metadata],
    [timestepper], [nodes] and [edges]; each of [parameters], [recorders],
    [scenarios] and [tables] is a key exactly when the collection is not
    empty, and then the entry has as many elements as the collection. *)
Theorem C7_as_dict (net : PywrNetwork) :
  unique (dict_keys (parameters net)) = true ->
  unique (dict_keys (recorders net)) = true ->
  unique (dict_keys (tables net)) = true ->
  (dict_get "metadata" (as_dict net) = Some (as_dict_of (metadata net)) /\
   dict_get "timestepper" (as_dict net) = Some (as_dict_of (timestepper net)) /\
   dict_get "nodes" (as_dict net) =
   Some (JList (map as_dict_of (dict_values (nodes net)))) /\
   dict_get "edges" (as_dict net) = Some (JList (map as_dict_of (edges net)))) /\
  ((dict_in "parameters" (as_dict net) = true <-> 0 < dict_len (parameters net)) /\
   (dict_in "recorders" (as_dict net) = true <-> 0 < dict_len (recorders net)) /\
   (dict_in "scenarios" (as_dict net) = true <-> 0 < List.length (scenarios net)) /\
   (dict_in "tables" (as_dict net) = true <-> 0 < dict_len (tables net))) /\
  ((forall j, dict_get "parameters" (as_dict net) = Some j ->
              json_len j = dict_len (parameters net)) /\
   (forall j, dict_get "recorders" (as_dict net) = Some j ->
              json_len j = dict_len (recorders net)) /\
   (forall j, dict_get "scenarios" (as_dict net) = Some j ->
              json_len j = List.length (scenarios net)) /\
   (forall j, dict_get "tables" (as_dict net) = Some j ->
              json_len j = dict_len (tables net))).
Proof.
  intros Hp Hr Ht. unfold as_dict.
  assert (Lp : json_len (JDict (dict_comprehension as_dict_of (parameters net)))
               = dict_len (parameters net))
    by (apply dict_comprehension_length; exact Hp).
  assert (Lr : json_len (JDict (dict_comprehension as_dict_of (recorders net)))
               = dict_len (recorders net))
    by (apply dict_comprehension_length; exact Hr).
  assert (Lt : json_len (JDict (dict_comprehension as_dict_of (tables net)))
               = dict_len (tables net))
    by (apply dict_comprehension_length; exact Ht).
  assert (Ls : json_len (JList (map as_dict_of (scenarios net)))
               = List.length (scenarios net))
    by (simpl; apply length_map).
  revert Lp Lr Lt Ls.
  generalize (JDict (dict_comprehension as_dict_of (parameters net))) as vp.
  generalize (JDict (dict_comprehension as_dict_of (recorders net))) as vr.
  generalize (JDict (dict_comprehension as_dict_of (tables net))) as vt.
  generalize (JList (map as_dict_of (scenarios net))) as vs.
  generalize (as_dict_of (metadata net)) as vm.
  generalize (as_dict_of (timestepper net)) as vts.
  generalize (JList (map as_dict_of (dict_values (nodes net)))) as vn.
  generalize (JList (map as_dict_of (edges net))) as ve.
  intros ve vn vts vm vs vt vr vp Lp Lr Lt Ls.
  destruct (0 <? dict_len (parameters net))%nat eqn:Ep;
    destruct (0 <? dict_len (recorders net))%nat eqn:Er;
    destruct (0 <? List.length (scenarios net))%nat eqn:Es;
    destruct (0 <? dict_len (tables net))%nat eqn:Et;
    first [apply Nat.ltb_lt in Ep | apply Nat.ltb_ge in Ep];
    first [apply Nat.ltb_lt in Er | apply Nat.ltb_ge in Er];
    first [apply Nat.ltb_lt in Es | apply Nat.ltb_ge in Es];
    first [apply Nat.ltb_lt in Et | apply Nat.ltb_ge in Et];
    (split; [repeat split|split]);
    try (repeat split; intros; try discriminate; try assumption; lia);
    (repeat split; intros j Hj; try discriminate Hj;
     vm_compute in Hj; inversion Hj; subst; assumption).
Qed.
End SerialiseProperties.

Lemma C7_as_dict_witness :
  dict_in "parameters"
          (@as_dict example_metadata_as_dict example_timestepper_as_dict
                    example_scenario_as_dict example_table_as_dict
                    example_node_as_dict example_edge_as_dict
                    example_parameter_as_dict example_recorder_as_dict
                    referencing_network) = true /\
  dict_in "tables"
          (@as_dict example_metadata_as_dict example_timestepper_as_dict
                    example_scenario_as_dict example_table_as_dict
                    example_node_as_dict example_edge_as_dict
                    example_parameter_as_dict example_recorder_as_dict
                    referencing_network) = false.
Proof.
  pose proof (@C7_as_dict example_metadata_as_dict example_timestepper_as_dict
                          example_scenario_as_dict example_table_as_dict
                          example_node_as_dict example_edge_as_dict
                          example_parameter_as_dict example_recorder_as_dict
                          referencing_network eq_refl eq_refl eq_refl)
    as [_ [[Hp _] _]].
  split.
  - apply Hp. vm_compute. lia.
  - reflexivity.
Defined.

(** ** [duplicate_edges] *)

Lemma pair_eqb_eq (a b : string * string) : pair_eqb a b = true <-> a = b.
Proof.
  destruct a as [a1 a2], b as [b1 b2]. unfold pair_eqb. simpl.
  rewrite andb_true_iff, !String.eqb_eq. split.
  - intros [-> ->]. reflexivity.
  - intros H. inversion H. auto.
Qed.

Lemma pair_eqb_refl (a : string * string) : pair_eqb a a = true.
Proof. now apply pair_eqb_eq. Qed.

Lemma pair_eqb_neq (a b : string * string) : pair_eqb a b = false <-> a <> b.
Proof.
  destruct (pair_eqb a b) eqn:E.
  - apply pair_eqb_eq in E. split; congruence.
  - split; auto. intros _ H. apply pair_eqb_eq in H. congruence.
Qed.

Lemma counter_get_none (e : string * string) (c : counter) :
  counter_get e c = None <-> ~ In e (map fst c).
Proof.
  induction c as [|[e' n] c IH]; simpl.
  - tauto.
  - destruct (pair_eqb e e') eqn:E.
    + apply pair_eqb_eq in E. subst. split; [discriminate | tauto].
    + apply pair_eqb_neq in E. rewrite IH. split.
      * intros H [H1|H1]; [congruence | tauto].
      * tauto.
Qed.

Lemma counter_incr_keys (e : string * string) (c : counter) :
  NoDup (map fst c) -> NoDup (map fst (counter_incr e c)) /\
  forall x, In x (map fst (counter_incr e c)) <-> x = e \/ In x (map fst c).
Proof.
  induction c as [|[e' n] c IH]; simpl; intros Hnd.
  - split; [repeat constructor; auto | intros x; intuition (subst; auto)].
  - inversion Hnd; subst. destruct (IH H2) as [IH1 IH2].
    destruct (pair_eqb e e') eqn:E; simpl.
    + apply pair_eqb_eq in E. subst. split; [exact Hnd|].
      intros x. intuition (subst; auto).
    + apply pair_eqb_neq in E. split.
      * constructor; auto. rewrite IH2. intros [H|H]; [congruence | tauto].
      * intros x. rewrite IH2. intuition (subst; auto).
Qed.

Lemma counter_count_incr (e x : string * string) (c : counter) :
  counter_count x (counter_incr e c) =
  if pair_eqb x e then S (counter_count x c) else counter_count x c.
Proof.
  unfold counter_count. induction c as [|[e' n] c IH]; simpl.
  - destruct (pair_eqb x e); reflexivity.
  - destruct (pair_eqb e e') eqn:E; simpl.
    + apply pair_eqb_eq in E. subst e'.
      destruct (pair_eqb x e); reflexivity.
    + destruct (pair_eqb x e') eqn:E'; auto.
      apply pair_eqb_eq in E'. subst e'.
      destruct (pair_eqb x e) eqn:E''; auto.
      apply pair_eqb_eq in E''. subst. rewrite pair_eqb_refl in E. discriminate.
Qed.

Lemma counter_get_filter (f : nat -> bool) (e : string * string) (c : counter) :
  NoDup (map fst c) ->
  counter_get e (filter (fun ec => f (snd ec)) c) =
  match counter_get e c with
  | Some n => if f n then Some n else None
  | None => None
  end.
Proof.
  induction c as [|[e' n] c IH]; simpl; intros Hnd; auto.
  inversion Hnd; subst.
  destruct (pair_eqb e e') eqn:E.
  - apply pair_eqb_eq in E. subst e'.
    destruct (f n); simpl.
    + now rewrite pair_eqb_refl.
    + rewrite IH by assumption.
      apply counter_get_none in H1. now rewrite H1.
  - destruct (f n); simpl; [rewrite E|]; now apply IH.
Qed.

Lemma count_edges_pairs (es : list PywrEdge) (c : counter) :
  Forall (fun e => List.length e = 2) es ->
  NoDup (map fst c) ->
  exists c',
    count_edges es c = Return c' /\ NoDup (map fst c') /\
    forall x, counter_count x c' = counter_count x c + edge_occurrences es x.
Proof.
  revert c. induction es as [|e es IH]; intros c Hall Hnd.
  - exists c. simpl. repeat split; auto.
  - inversion Hall as [|? ? He Hes]; subst.
    destruct e as [|n1 [|n2 [|n3 e]]]; try discriminate.
    cbn [count_edges unpack_pair].
    destruct (counter_incr_keys (n1, n2) c Hnd) as [Hnd' _].
    destruct (IH _ Hes Hnd') as (c' & Hrun & Hnd'' & Hcount).
    exists c'. split; [exact Hrun|]. split; [exact Hnd''|].
    intros [x1 x2]. rewrite Hcount, counter_count_incr.
    unfold edge_occurrences. cbn [count_occ fst snd].
    destruct (list_eq_dec string_dec [n1; n2] [x1; x2]) as [E|E].
    + inversion E; subst. rewrite pair_eqb_refl. lia.
    + destruct (pair_eqb (x1, x2) (n1, n2)) eqn:E'; [|lia].
      apply pair_eqb_eq in E'. inversion E'; subst. congruence.
Qed.

(** On an edge list whose edges are pairs, [duplicate_edges] returns the
    mapping from each pair that occurs more than once to its number of
    occurrences. *)
Lemma duplicate_edges_pairs (net : PywrNetwork) :
  Forall (fun e => List.length e = 2) (edges net) ->
  exists dup,
    duplicate_edges net = Return dup /\
    NoDup (map fst dup) /\
    forall n1 n2,
      counter_get (n1, n2) dup =
      if (1 <? edge_occurrences (edges net) (n1, n2))%nat
      then Some (edge_occurrences (edges net) (n1, n2))
      else None.
Proof.
  intros Hall. unfold duplicate_edges.
  destruct (count_edges_pairs (edges net) [] Hall (NoDup_nil _))
    as (c & Hrun & Hnd & Hcount).
  rewrite Hrun. eexists. split; [reflexivity|]. split.
  - apply NoDup_map_inv with (f := fun x => x).
    rewrite map_id. clear - Hnd.
    induction c as [|[e n] c IH]; simpl; [constructor|].
    inversion Hnd; subst.
    destruct (1 <? n)%nat; simpl; auto.
    constructor; auto.
    intros Hin. apply H1. apply in_map_iff in Hin.
    destruct Hin as ([e' n'] & He & Hin). simpl in He. subst e'.
    apply filter_In in Hin. apply in_map_iff. exists (e, n'). tauto.
  - intros n1 n2.
    rewrite (counter_get_filter (fun n => (1 <? n)%nat)) by exact Hnd.
    specialize (Hcount (n1, n2)). unfold counter_count in Hcount.
    simpl in Hcount.
    destruct (counter_get (n1, n2) c) as [n|] eqn:Hget.
    + now rewrite <- Hcount.
    + rewrite <- Hcount. reflexivity.
Qed.

(** C8 does not hold for edges of more than two nodes: the generator unpacks
    every edge into exactly two names, so on the edge list [(A,B,C), (A,B,C)]
    the property raises [ValueError] instead of returning [{(A,B,C): 2}].  On
    the spec's list [(A,B), (B,C), (A,B)] it returns [{(A,B): 2}]. *)
Theorem C8_duplicate_edges_longer_edge :
  duplicate_edges long_edges_network =
  Raise (ValueError "too many values to unpack (expected 2)") /\
  duplicate_edges pair_edges_network = Return [(("A", "B"), 2)].
Proof. split; reflexivity. Qed.

(** ** Construction entry points *)

(** C6: what is returned with errors has no network, and [from_file] returns
    the error of the parser's constructor when [raise_on_parser_error] is
    false; but [from_json] lets that same error escape as an exception
    although [raise_on_parser_error] is false. *)
Theorem C6_from_json_constructor_error_escapes
        (P : ParserFrontEnd) (read_file : string -> read_outcome)
        (filename json_src m : string) (w d : bool) :
  read_file filename = ReadContent json_src ->
  PywrJSONParser P json_src None = Raise (PywrParserException m) ->
  from_file P read_file filename false w d None =
  Return (None, Some [("network", [PywrParserException m])], None) /\
  from_json P json_src false w d = Raise (PywrParserException m).
Proof.
  intros Hread Hctor. unfold from_file, from_json. rewrite Hread, Hctor. auto.
Qed.

Lemma C6_from_json_constructor_error_escapes_witness :
  from_file example_front_end example_read_file "empty.json" false false true None =
  Return (None, Some [("network", [PywrParserException "Invalid JSON"])], None) /\
  from_json example_front_end "" false false true =
  Raise (PywrParserException "Invalid JSON").
Proof.
  apply (C6_from_json_constructor_error_escapes
           example_front_end example_read_file "empty.json" "" "Invalid JSON"
           false true eq_refl eq_refl).
Defined.

(** The part of C6 that holds: a result that carries errors carries no
    network, for both entry points. *)
Lemma construction_errors_without_network
      (P : ParserFrontEnd) (read_file : string -> read_outcome)
      (src : string) (r w d : bool) (ruleset : option string)
      (n : option PywrNetwork) (errs warns : option (dict (list exn))) :
  (from_file P read_file src r w d ruleset = Return (n, errs, warns) \/
   from_json P src r w d = Return (n, errs, warns)) ->
  errs <> None -> n = None.
Proof.
  unfold from_file, from_json. intros [H|H].
  - destruct (read_file src) as [err|e|json_src].
    + destruct r; inversion H; subst; congruence.
    + discriminate.
    + destruct (PywrJSONParser P json_src ruleset) as [[m|m|m]|parser];
        try discriminate.
      * destruct r; inversion H; subst; congruence.
      * destruct (parse P parser r w d) as [e|parser']; [discriminate|].
        destruct (has_errors P parser'); inversion H; subst; congruence.
  - destruct (PywrJSONParser P src None) as [e|parser]; [discriminate|].
    destruct (parse P parser r w d) as [e|parser']; [discriminate|].
    destruct (has_errors P parser'); inversion H; subst; congruence.
Qed.

(** * Further properties *)

(** ** Traversals that change nothing, and the shape of the node store *)

Lemma update_items_unchanged {S : Type}
      (g : string -> string -> attr_value -> S -> (option attr_value * S) * option exn)
      (name : string) (d : dict attr_value) (s : S) :
  (forall attr v, In (attr, v) d -> g name attr v s = ((None, s), None)) ->
  update_items g name d s = ((d, s), None).
Proof.
  induction d as [|[attr v] d IH]; intros H; simpl; auto.
  rewrite (H attr v) by (left; reflexivity).
  rewrite IH; auto. intros a w Hin. apply H. now right.
Qed.

Lemma update_nodes_unchanged {S : Type}
      (g : string -> string -> attr_value -> S -> (option attr_value * S) * option exn)
      (ns : dict PywrNode) (s : S) :
  (forall name attr v, In (name, attr, v) (attrs_in_order ns) ->
                       g name attr v s = ((None, s), None)) ->
  update_nodes g ns s = ((ns, s), None).
Proof.
  induction ns as [|[key [name d]] ns IH]; intros H; simpl; auto.
  rewrite update_items_unchanged.
  - rewrite IH; auto. intros n a v Hin. apply H. simpl.
    apply in_or_app. now right.
  - intros attr v Hin. apply H. simpl. apply in_or_app. left.
    unfold attrs_of_node. simpl.
    apply in_map_iff. exists (attr, v). auto.
Qed.

Lemma same_shape_shape_of (ns ns' : dict PywrNode) :
  same_shape ns ns' <-> shape_of ns = shape_of ns'.
Proof.
  unfold same_shape, shape_of. split.
  - induction 1 as [|kn kn' ns ns' (H1 & H2 & H3) _ IH]; simpl; auto.
    now rewrite H1, H2, H3, IH.
  - revert ns'. induction ns as [|kn ns IH]; intros [|kn' ns']; simpl;
      try discriminate; [constructor|].
    intros H. inversion H. constructor; auto.
Qed.

Lemma network_eta (net : PywrNetwork) :
  with_nodes_parameters net (nodes net) (parameters net) = net.
Proof. now destruct net. Qed.

Lemma attach_parameters_shape (net : PywrNetwork) :
  nodes_wf (nodes net) = true ->
  same_shape (nodes net) (nodes (fst (attach_parameters net))).
Proof.
  intros Hwf. unfold attach_parameters.
  rewrite attach_nodes_positional by exact Hwf.
  pose proof (update_nodes_shape attach_value (nodes net) (parameters net)) as H.
  destruct (update_nodes attach_value (nodes net) (parameters net)) as [[? ?] ?].
  exact H.
Qed.

(** ** [attach_parameters]: what it leaves alone *)

(** [attach_parameters] changes attribute values and removes registry
    entries, and nothing else: node keys, node names and attribute names stay
    as they are, every entry of the registry after the run was an entry
    before it, and the other collections are untouched. *)
Theorem attach_parameters_frame (net : PywrNetwork) :
  nodes_wf (nodes net) = true ->
  shape_of (nodes (fst (attach_parameters net))) = shape_of (nodes net) /\
  (forall k p, dict_get k (parameters (fst (attach_parameters net))) = Some p ->
               dict_get k (parameters net) = Some p) /\
  metadata (fst (attach_parameters net)) = metadata net /\
  timestepper (fst (attach_parameters net)) = timestepper net /\
  scenarios (fst (attach_parameters net)) = scenarios net /\
  tables (fst (attach_parameters net)) = tables net /\
  edges (fst (attach_parameters net)) = edges net /\
  recorders (fst (attach_parameters net)) = recorders net.
Proof.
  intros Hwf. split; [|split].
  - symmetry. apply same_shape_shape_of. now apply attach_parameters_shape.
  - pose proof (attach_parameters_flat net Hwf) as Hflat.
    destruct (attach_parameters net) as [net' e]. cbn [fst].
    intros k p. eapply attach_flat_shrinks; eauto.
  - unfold attach_parameters.
    destruct (attach_nodes (nodes net) (parameters net)) as [[? ?] ?].
    repeat split.
Qed.

Lemma attach_parameters_frame_witness :
  shape_of (nodes (fst (attach_parameters referencing_network))) =
  shape_of (nodes referencing_network) /\
  recorders (fst (attach_parameters referencing_network)) =
  recorders referencing_network.
Proof.
  pose proof (attach_parameters_frame referencing_network eq_refl)
    as (H1 & _ & _ & _ & _ & _ & _ & H2).
  split; [exact H1 | exact H2].
Defined.

(** ** [attach_parameters]: the state left by an error *)

Lemma attach_value_raises (name attr : string) (v : attr_value)
      (r r' : dict PywrParameter) (ov : option attr_value) (e : exn) :
  attach_value name attr v r = ((ov, r'), Some e) ->
  ov = None /\ r' = r /\ reserved attr = false /\
  exists d, v = VJson (JDict d) /\
            ((e = ValueError "inline dups global param" /\
              dict_in (canonical_name name attr) r = true) \/
             e = AttributeError "object has no attribute 'lower'").
Proof.
  unfold attach_value, reserved.
  destruct (tuple_in (lower attr) exclude); [discriminate|].
  destruct v as [j|p|q]; try discriminate.
  destruct j as [|b|n|s|l|d]; try discriminate.
  - destruct (dict_get s r); discriminate.
  - cbv zeta. destruct (negb (truthy (json_get "type" d))); [discriminate|].
    destruct (json_get "type" d) as [|b|n|t|l|d'];
      try (intros H; inversion H; subst; repeat split; auto; exists d; auto).
    destruct (str_in "recorder" (lower t)); [discriminate|].
    destruct (dict_in (canonical_name name attr) r) eqn:Hin; [|discriminate].
    intros H; inversion H; subst. repeat split; auto. exists d. auto.
Qed.

Lemma attach_flat_error (l l' : list (string * string * attr_value))
      (r r' : dict PywrParameter) (e : exn) :
  update_flat attach_value l r = ((l', r'), Some e) ->
  exists l1 l1' name attr d l2,
    l = l1 ++ (name, attr, VJson (JDict d)) :: l2 /\
    l' = l1' ++ (name, attr, VJson (JDict d)) :: l2 /\
    List.length l1' = List.length l1 /\
    reserved attr = false /\
    ((e = ValueError "inline dups global param" /\
      dict_in (canonical_name name attr) r' = true) \/
     e = AttributeError "object has no attribute 'lower'").
Proof.
  revert l' r. induction l as [|[[name attr] v] l IH]; intros l' r; simpl.
  - discriminate.
  - destruct (attach_value name attr v r) as [[ov s'] [x|]] eqn:Hv.
    + intros H. inversion H; subst.
      apply attach_value_raises in Hv.
      destruct Hv as (-> & -> & Hres & d & -> & He).
      exists [], [], name, attr, d, l. simpl. repeat split; auto.
    + destruct (update_flat attach_value l s') as [[rest' s''] e'] eqn:Hl.
      intros H. inversion H; subst.
      destruct (IH _ _ Hl) as (l1 & l1' & n0 & a0 & d & l2 & -> & -> & Hlen & Hres & He).
      exists ((name, attr, v) :: l1), ((name, attr, assigned v ov) :: l1'),
             n0, a0, d, l2.
      simpl. repeat split; auto.
Qed.

(** When [attach_parameters] raises, it raises at an inline definition under
    a non-reserved name, and that attribute and every attribute after it are
    left as they were; the error is the name collision, with the canonical
    name a key of the registry as it is left, or the [AttributeError] of a
    [type] that is not a string. *)
Theorem attach_parameters_error_state (net : PywrNetwork) (e : exn) :
  nodes_wf (nodes net) = true ->
  snd (attach_parameters net) = Some e ->
  exists l1 l1' name attr d l2,
    attrs_in_order (nodes net) = l1 ++ (name, attr, VJson (JDict d)) :: l2 /\
    attrs_in_order (nodes (fst (attach_parameters net))) =
    l1' ++ (name, attr, VJson (JDict d)) :: l2 /\
    List.length l1' = List.length l1 /\
    reserved attr = false /\
    ((e = ValueError "inline dups global param" /\
      dict_in (canonical_name name attr) (parameters (fst (attach_parameters net)))
      = true) \/
     e = AttributeError "object has no attribute 'lower'").
Proof.
  intros Hwf He.
  pose proof (attach_parameters_flat net Hwf) as Hflat.
  destruct (attach_parameters net) as [net' x]. cbn [fst snd] in *. subst x.
  now apply attach_flat_error in Hflat.
Qed.

Lemma attach_parameters_error_state_witness :
  exists l1 l1' name attr d l2,
    attrs_in_order (nodes colliding_network) =
    l1 ++ (name, attr, VJson (JDict d)) :: l2 /\
    attrs_in_order (nodes (fst (attach_parameters colliding_network))) =
    l1' ++ (name, attr, VJson (JDict d)) :: l2 /\
    List.length l1' = List.length l1 /\
    reserved attr = false /\
    ((ValueError "inline dups global param" = ValueError "inline dups global param" /\
      dict_in (canonical_name name attr)
              (parameters (fst (attach_parameters colliding_network))) = true) \/
     ValueError "inline dups global param" =
     AttributeError "object has no attribute 'lower'").
Proof.
  apply (attach_parameters_error_state colliding_network
           (ValueError "inline dups global param")); reflexivity.
Defined.

(** ** [attach_parameters]: a second run changes nothing *)

Lemma attach_value_stable (name attr : string) (v : attr_value)
      (r r' : dict PywrParameter) :
  attach_value name attr v r = ((None, r), None) ->
  (forall k, dict_get k r = None -> dict_get k r' = None) ->
  attach_value name attr v r' = ((None, r'), None).
Proof.
  unfold attach_value.
  destruct (tuple_in (lower attr) exclude); [reflexivity|].
  destruct v as [j|p|q]; try reflexivity.
  destruct j as [|b|n|s|l|d]; try reflexivity.
  - destruct (dict_get s r) eqn:Hs; [discriminate|].
    intros _ H. now rewrite (H s Hs).
  - cbv zeta. destruct (negb (truthy (json_get "type" d))); [reflexivity|].
    destruct (json_get "type" d) as [|b|n|t|l|d']; try discriminate.
    destruct (str_in "recorder" (lower t)); [reflexivity|].
    destruct (dict_in (canonical_name name attr) r); discriminate.
Qed.

Lemma attach_value_parameter (name attr : string) (p : PywrParameter)
      (r : dict PywrParameter) :
  attach_value name attr (VParameter p) r = ((None, r), None).
Proof.
  unfold attach_value. destruct (tuple_in (lower attr) exclude); reflexivity.
Qed.

Lemma attach_flat_settled (l l' : list (string * string * attr_value))
      (r r' : dict PywrParameter) :
  update_flat attach_value l r = ((l', r'), None) ->
  forall name attr v, In (name, attr, v) l' ->
                      attach_value name attr v r' = ((None, r'), None).
Proof.
  revert l' r. induction l as [|[[name attr] v] l IH]; intros l' r; simpl.
  - intros H. inversion H; subst. simpl. tauto.
  - destruct (attach_value name attr v r) as [[ov s'] [x|]] eqn:Hv; [discriminate|].
    destruct (update_flat attach_value l s') as [[rest' s''] e'] eqn:Hl.
    intros H. inversion H; subst. intros n a w [Hin|Hin].
    + inversion Hin; subst. clear Hin.
      pose proof Hv as Hcases. apply attach_value_cases in Hcases.
      destruct Hcases as [[-> ->]|[(s & p & _ & _ & _ & -> & _)
                                  |(d & _ & _ & _ & _ & -> & _)]];
        cbn [assigned]; try apply attach_value_parameter.
      eapply attach_value_stable; eauto.
      intros k. eapply attach_flat_none; eauto.
    + eapply IH; eauto.
Qed.

(** After a run of [attach_parameters] that raises nothing, a second run
    raises nothing and changes nothing. *)
Theorem attach_parameters_idempotent (net : PywrNetwork) :
  nodes_wf (nodes net) = true ->
  snd (attach_parameters net) = None ->
  attach_parameters (fst (attach_parameters net)) = (fst (attach_parameters net), None).
Proof.
  intros Hwf He.
  pose proof (attach_parameters_flat net Hwf) as Hflat.
  pose proof (attach_parameters_shape net Hwf) as Hshape.
  destruct (attach_parameters net) as [net1 e]. cbn [fst snd] in *. subst e.
  assert (Hwf1 : nodes_wf (nodes net1) = true) by (eapply same_shape_wf; eauto).
  unfold attach_parameters. rewrite attach_nodes_positional by exact Hwf1.
  rewrite update_nodes_unchanged.
  - now rewrite network_eta.
  - intros name attr v Hin. eapply attach_flat_settled; eauto.
Qed.

Lemma attach_parameters_idempotent_witness :
  attach_parameters (fst (attach_parameters inline_network)) =
  (fst (attach_parameters inline_network), None).
Proof.
  apply (attach_parameters_idempotent inline_network); reflexivity.
Defined.

(** ** [attach_parameters]: where attached parameters come from *)

Lemma attach_value_inline_type (name attr : string) (d : dict json)
      (r r' : dict PywrParameter) (w : attr_value) (e : option exn) :
  attach_value name attr (VJson (JDict d)) r = ((Some w, r'), e) ->
  exists t, json_get "type" d = JStr t /\ (t =? "") = false /\
            str_in "recorder" (lower t) = false.
Proof.
  unfold attach_value.
  destruct (tuple_in (lower attr) exclude); [discriminate|].
  cbv zeta. destruct (negb (truthy (json_get "type" d))) eqn:Ht; [discriminate|].
  destruct (json_get "type" d) as [|b|n|t|l|d']; try discriminate.
  destruct (str_in "recorder" (lower t)) eqn:Hrec; [discriminate|].
  intros _. exists t. cbn [truthy] in Ht.
  rewrite negb_false_iff, negb_true_iff in Ht. auto.
Qed.

(** After [attach_parameters], a Parameter held by an attribute was already
    there, or is the registry entry named by the string the attribute held,
    or was built from the inline dict the attribute held: then it is named by
    the canonical name of the node and attribute, that name is not a key of
    the registry, and the Parameter passes [rule_type_required]. *)
Theorem attach_parameters_origin (net : PywrNetwork) (i : nat) (name attr : string)
        (p : PywrParameter) :
  nodes_wf (nodes net) = true ->
  nth_error (attrs_in_order (nodes (fst (attach_parameters net)))) i =
  Some (name, attr, VParameter p) ->
  nth_error (attrs_in_order (nodes net)) i = Some (name, attr, VParameter p) \/
  (exists s, nth_error (attrs_in_order (nodes net)) i = Some (name, attr, VJson (JStr s)) /\
             dict_get s (parameters net) = Some p) \/
  (exists d, nth_error (attrs_in_order (nodes net)) i = Some (name, attr, VJson (JDict d)) /\
             p = mkPywrParameter (canonical_name name attr) d /\
             dict_in (canonical_name name attr) (parameters (fst (attach_parameters net)))
             = false /\
             rule_type_required p = Passes).
Proof.
  intros Hwf Hnth'.
  pose proof (attach_parameters_flat net Hwf) as Hflat.
  destruct (attach_parameters net) as [net' e]. cbn [fst snd] in *.
  assert (Hlen : List.length (attrs_in_order (nodes net')) =
                 List.length (attrs_in_order (nodes net))).
  { pose proof (update_flat_length attach_value (attrs_in_order (nodes net))
                                   (parameters net)) as H.
    now rewrite Hflat in H. }
  destruct (nth_error (attrs_in_order (nodes net)) i) as [[[n0 a0] v0]|] eqn:Hnth.
  2:{ apply nth_error_None in Hnth.
      assert (i < List.length (attrs_in_order (nodes net'))).
      { apply nth_error_Some. congruence. }
      lia. }
  destruct (update_flat_nth attach_value _ (parameters net) _ _ _ _ Hnth)
    as (l1 & l2 & Hl & Hi & Hat).
  rewrite Hflat in Hat. cbn [fst snd] in Hat.
  destruct (update_flat attach_value l1 (parameters net)) as [[l1' r1] [x|]] eqn:H1.
  - destruct Hat as [_ Hat]. rewrite Hat in Hnth'. inversion Hnth'; subst. now left.
  - destruct Hat as [Hrun Hat]. rewrite Hat in Hnth'.
    destruct (attach_value n0 a0 v0 r1) as [[ov r2] x] eqn:Hv.
    cbn [fst] in Hnth'.
    assert (Heq : n0 = name /\ a0 = attr /\ assigned v0 ov = VParameter p)
      by (inversion Hnth'; auto).
    destruct Heq as (-> & -> & H2). clear Hnth'.
    pose proof Hv as Hcases. apply attach_value_cases in Hcases.
    destruct Hcases as [[-> ->]|[(s & q & -> & _ & Hget & -> & -> & ->)
                                |(d & -> & _ & Hpass & Hin & -> & -> & ->)]];
      cbn [assigned] in H2.
    + subst v0. now left.
    + inversion H2; subst q. right. left. exists s. split; auto.
      eapply attach_flat_shrinks; eauto.
    + inversion H2; subst p. right. right. exists d.
      split; [reflexivity|]. split; [reflexivity|]. split.
      * destruct (update_flat attach_value l2 r1) as [[l2' r3] e3] eqn:H3.
        inversion Hrun; subst.
        apply dict_in_false. eapply attach_flat_none; eauto.
        now apply dict_in_false.
      * apply attach_value_inline_type in Hv. destruct Hv as (t & Ht & _).
        unfold rule_type_required, param_type. cbn [param_data].
        now rewrite Ht.
Qed.

Lemma attach_parameters_origin_witness :
  exists d,
    nth_error (attrs_in_order (nodes inline_network)) 2 =
    Some ("Reservoir1", "max_flow", VJson (JDict d)) /\
    rule_type_required (mkPywrParameter (canonical_name "Reservoir1" "max_flow") d)
    = Passes.
Proof.
  destruct (attach_parameters_origin inline_network 2 "Reservoir1" "max_flow"
              (mkPywrParameter "__Reservoir1__:max_flow" monthly_profile)
              eq_refl eq_refl) as [H|[(s & H & _)|(d & H & Hp & _ & Hr)]].
  - vm_compute in H. discriminate.
  - vm_compute in H. discriminate.
  - exists d. split; [exact H|].
    inversion Hp. subst d. exact Hr.
Defined.

(** ** Mapping over the attribute values *)

Lemma attrs_in_order_map_values (f : attr_value -> attr_value) (ns : dict PywrNode) :
  attrs_in_order (map_values f ns) =
  map (fun x => (fst x, f (snd x))) (attrs_in_order ns).
Proof.
  unfold attrs_in_order, map_values.
  induction ns as [|[key [name d]] ns IH]; simpl; auto.
  rewrite map_app, IH. f_equal.
  unfold attrs_of_node. simpl. rewrite !map_map. reflexivity.
Qed.

Lemma same_shape_map_values (f : attr_value -> attr_value) (ns : dict PywrNode) :
  same_shape ns (map_values f ns).
Proof.
  unfold same_shape, map_values.
  induction ns as [|[key [name d]] ns IH]; simpl; constructor; auto.
  simpl. repeat split. unfold node_attrs, dict_keys. simpl.
  rewrite map_map. reflexivity.
Qed.

Lemma map_values_comp (f g : attr_value -> attr_value) (ns : dict PywrNode) :
  map_values f (map_values g ns) = map_values (fun v => f (g v)) ns.
Proof.
  unfold map_values. rewrite map_map. apply map_ext. intros [key [name d]]. simpl.
  now rewrite map_map.
Qed.

Lemma map_values_ext (f g : attr_value -> attr_value) (ns : dict PywrNode) :
  (forall v, f v = g v) -> map_values f ns = map_values g ns.
Proof.
  intros H. unfold map_values. apply map_ext. intros [key [name d]]. simpl.
  do 2 f_equal. apply map_ext. intros [a v]. simpl. now rewrite H.
Qed.

Lemma map_values_id (f : attr_value -> attr_value) (ns : dict PywrNode) :
  (forall name attr v, In (name, attr, v) (attrs_in_order ns) -> f v = v) ->
  map_values f ns = ns.
Proof.
  unfold map_values, attrs_in_order.
  induction ns as [|[key [name d]] ns IH]; simpl; auto.
  intros H. rewrite IH.
  - do 2 f_equal. f_equal.
    assert (Hd : forall a v, In (a, v) d -> f v = v).
    { intros a v Hin. apply (H name a v). apply in_or_app. left.
      unfold attrs_of_node. simpl. apply in_map_iff. exists (a, v). auto. }
    clear - Hd. induction d as [|[a v] d IHd]; simpl; auto.
    rewrite (Hd a v) by (left; reflexivity). f_equal.
    apply IHd. intros a' v' Hin. apply (Hd a' v'). now right.
  - intros n a v Hin. apply (H n a v). apply in_or_app. now right.
Qed.

Lemma shape_mapped (f : attr_value -> attr_value) (ns ns' : dict PywrNode) :
  same_shape ns ns' ->
  attrs_in_order ns' = map (fun x => (fst x, f (snd x))) (attrs_in_order ns) ->
  ns' = map_values f ns.
Proof.
  unfold same_shape.
  induction 1 as [|[k [name d]] [k' [name' d']] ns ns' (H1 & H2 & H3) _ IH]; simpl.
  - reflexivity.
  - simpl in *. subst k' name'. rewrite map_app. intros H.
    apply app_eq_length in H.
    + destruct H as [Hd Hrest]. rewrite (IH Hrest). do 2 f_equal. f_equal.
      clear - Hd. unfold attrs_of_node in Hd. simpl in Hd.
      revert d' Hd. induction d as [|[a v] d IHd]; intros [|[a' v'] d']; simpl;
        try discriminate; auto.
      intros H. inversion H; subst. f_equal. now apply IHd.
    + unfold attrs_of_node. simpl. rewrite !length_map.
      unfold node_attrs, dict_keys in H3. simpl in H3.
      apply (f_equal (@List.length string)) in H3.
      rewrite !length_map in H3. auto.
Qed.

Lemma detached_nodes_map_values (ns : dict PywrNode) :
  detached_nodes ns = map_values detached_value ns.
Proof. reflexivity. Qed.

(** ** [detach_parameters]: what it leaves alone, and a second run *)

Lemma detach_flat_keeps (l l' : list (string * string * attr_value))
      (r r' : dict PywrParameter) (e : option exn) (k : string) (p : PywrParameter) :
  update_flat detach_value l r = ((l', r'), e) ->
  dict_get k r = Some p -> dict_get k r' = Some p.
Proof.
  revert l' r. induction l as [|[[name attr] v] l IH]; intros l' r; simpl.
  - intros H. inversion H. auto.
  - assert (Hstep : forall ov s' x, detach_value name attr v r = ((ov, s'), x) ->
                                    dict_get k r = Some p -> dict_get k s' = Some p).
    { unfold detach_value. intros ov s' x. destruct v as [j|q|q];
        try (intros Hv; inversion Hv; subst; now auto).
      destruct (dict_in (param_name q) r) eqn:Hin; intros Hv; inversion Hv; subst; auto.
      intros Hk. rewrite dict_get_set_neq; auto.
      intros ->. apply dict_in_false in Hin. congruence. }
    destruct (detach_value name attr v r) as [[ov s'] [x|]] eqn:Hv.
    + intros H. inversion H; subst. eapply Hstep; eauto.
    + destruct (update_flat detach_value l s') as [[rest' s''] e'] eqn:Hl.
      intros H. inversion H; subst. intros Hk.
      eapply IH; eauto.
Qed.

Lemma detach_parameters_shape (net : PywrNetwork) :
  nodes_wf (nodes net) = true ->
  same_shape (nodes net) (nodes (fst (detach_parameters net))).
Proof.
  intros Hwf. unfold detach_parameters.
  rewrite detach_nodes_positional by exact Hwf.
  pose proof (update_nodes_shape detach_value (nodes net) (parameters net)) as H.
  destruct (update_nodes detach_value (nodes net) (parameters net)) as [[? ?] ?].
  exact H.
Qed.

(** [detach_parameters] never removes or overwrites a registry entry, whether
    it raises or not, and keeps node keys, node names, attribute names and the
    other collections. *)
Theorem detach_parameters_frame (net : PywrNetwork) :
  nodes_wf (nodes net) = true ->
  (forall k p, dict_get k (parameters net) = Some p ->
               dict_get k (parameters (fst (detach_parameters net))) = Some p) /\
  shape_of (nodes (fst (detach_parameters net))) = shape_of (nodes net) /\
  metadata (fst (detach_parameters net)) = metadata net /\
  timestepper (fst (detach_parameters net)) = timestepper net /\
  scenarios (fst (detach_parameters net)) = scenarios net /\
  tables (fst (detach_parameters net)) = tables net /\
  edges (fst (detach_parameters net)) = edges net /\
  recorders (fst (detach_parameters net)) = recorders net.
Proof.
  intros Hwf. split; [|split].
  - pose proof (detach_parameters_flat net Hwf) as Hflat.
    destruct (detach_parameters net) as [net' e]. cbn [fst].
    intros k p. eapply detach_flat_keeps; eauto.
  - symmetry. apply same_shape_shape_of. now apply detach_parameters_shape.
  - unfold detach_parameters.
    destruct (detach_nodes (nodes net) (parameters net)) as [[? ?] ?].
    repeat split.
Qed.

Lemma detach_parameters_frame_witness :
  dict_get "low" (parameters (fst (detach_parameters mixed_attached_network))) =
  Some (mkPywrParameter "low" [("type", JStr "constant")]).
Proof.
  apply (proj1 (detach_parameters_frame mixed_attached_network eq_refl)).
  reflexivity.
Defined.

Lemma detach_parameters_success (net : PywrNetwork) :
  nodes_wf (nodes net) = true ->
  snd (detach_parameters net) = None ->
  collision_free (attached_parameters (nodes net)) (parameters net) = true.
Proof.
  intros Hwf He.
  destruct (collision_free (attached_parameters (nodes net)) (parameters net)) eqn:Hc;
    auto.
  pose proof (detach_parameters_flat net Hwf) as Hflat.
  apply detach_flat_collision in Hc. unfold attached_parameters in *.
  destruct (detach_parameters net) as [net' e].
  rewrite Hflat in Hc. cbn [snd] in *. congruence.
Qed.

Lemma attached_in_detached (l : list (string * string * attr_value)) :
  attached_in (map detached_attr l) = [].
Proof.
  unfold attached_in. induction l as [|[[n a] v] l IH]; simpl; auto.
  destruct v; simpl; auto.
Qed.

(** After a run of [detach_parameters] that raises nothing, no attribute holds
    a Parameter, and a second run raises nothing and changes nothing. *)
Theorem detach_parameters_idempotent (net : PywrNetwork) :
  nodes_wf (nodes net) = true ->
  snd (detach_parameters net) = None ->
  attached_parameters (nodes (fst (detach_parameters net))) = [] /\
  detach_parameters (fst (detach_parameters net)) = (fst (detach_parameters net), None).
Proof.
  intros Hwf He.
  pose proof (detach_parameters_success net Hwf He) as Hfree.
  destruct (detach_parameters_collision_free net Hwf Hfree) as [Hrun _].
  rewrite Hrun. cbn [fst nodes with_nodes_parameters].
  assert (Hnone : attached_parameters (detached_nodes (nodes net)) = []).
  { unfold attached_parameters.
    rewrite detached_nodes_map_values, attrs_in_order_map_values.
    apply attached_in_detached. }
  split; [exact Hnone|].
  assert (Hwf1 : nodes_wf (detached_nodes (nodes net)) = true).
  { eapply same_shape_wf; [|exact Hwf]. apply same_shape_map_values. }
  match goal with |- detach_parameters ?n = _ => set (net1 := n) end.
  assert (Hfree1 : collision_free (attached_parameters (nodes net1)) (parameters net1)
                   = true)
    by (cbn [net1 nodes with_nodes_parameters]; now rewrite Hnone).
  destruct (detach_parameters_collision_free net1 Hwf1 Hfree1) as [Hrun1 _].
  rewrite Hrun1.
  assert (Htwice : detached_nodes (detached_nodes (nodes net)) = detached_nodes (nodes net)).
  { rewrite (detached_nodes_map_values (nodes net)), detached_nodes_map_values.
    rewrite map_values_comp.
    apply map_values_ext. intros [j|p|r]; reflexivity. }
  unfold net1 in *. cbn [nodes parameters with_nodes_parameters] in *.
  rewrite Hnone, Htwice. reflexivity.
Qed.

Lemma detach_parameters_idempotent_witness :
  attached_parameters (nodes (fst (detach_parameters mixed_attached_network))) = [] /\
  detach_parameters (fst (detach_parameters mixed_attached_network)) =
  (fst (detach_parameters mixed_attached_network), None).
Proof.
  apply (detach_parameters_idempotent mixed_attached_network); reflexivity.
Defined.

(** ** [detach_recorders] *)

Lemma detach_recorder_item_assigns (name attr : string) (v : attr_value)
      (data : dict attr_value) (recs : dict PywrRecorder) :
  detach_recorder_item (attr, v) (data, recs) =
  match detach_recorder_value name attr v recs with
  | ((Some v', s'), e) => ((dict_set attr v' data, s'), e)
  | ((None, s'), e) => ((data, s'), e)
  end.
Proof.
  unfold detach_recorder_item, detach_recorder_value.
  destruct v as [j|p|r]; try reflexivity.
  destruct (dict_in (recorder_name r) recs); reflexivity.
Qed.

Lemma detach_recorders_nodes_positional (ns : dict PywrNode) (recs : dict PywrRecorder) :
  nodes_wf ns = true ->
  detach_recorders_nodes ns recs = update_nodes detach_recorder_value ns recs.
Proof.
  revert recs. induction ns as [|[key n] ns IH]; intros recs Hwf; simpl.
  - reflexivity.
  - apply nodes_wf_cons in Hwf. destruct Hwf as [Hu Hwf].
    unfold detach_recorders_node.
    pose proof (for_each_positional detach_recorder_value
                  (fun _ => detach_recorder_item)
                  detach_recorder_item_assigns (node_name n) (node_data n) recs Hu) as H.
    cbv beta in H. rewrite H. clear H.
    destruct (update_items detach_recorder_value (node_name n) (node_data n) recs)
      as [[d' s'] [e|]]; [reflexivity|].
    now rewrite IH.
Qed.

Lemma detach_recorders_flat (net : PywrNetwork) :
  nodes_wf (nodes net) = true ->
  update_flat detach_recorder_value (attrs_in_order (nodes net)) (recorders net) =
  match detach_recorders net with
  | (net', e) => ((attrs_in_order (nodes net'), recorders net'), e)
  end.
Proof.
  intros Hwf. unfold detach_recorders.
  rewrite detach_recorders_nodes_positional by exact Hwf.
  rewrite update_nodes_flat.
  now destruct (update_nodes detach_recorder_value (nodes net) (recorders net))
    as [[? ?] ?].
Qed.

Lemma detach_recorders_flat_ok (l : list (string * string * attr_value))
      (r : dict PywrRecorder) :
  recorder_collision_free
    (flat_map (fun x => match snd x with VRecorder q => [q] | _ => [] end) l) r = true ->
  update_flat detach_recorder_value l r =
  ((map (fun x => (fst x, detached_recorder_value (snd x))) l,
    add_recorders
      (flat_map (fun x => match snd x with VRecorder q => [q] | _ => [] end) l) r),
   None).
Proof.
  revert r. induction l as [|[[name attr] v] l IH]; intros r; simpl update_flat.
  - reflexivity.
  - destruct v as [j|p|q]; cbn [flat_map snd fst map app detach_recorder_value
                                         detached_recorder_value];
      try (intros H; rewrite (IH r H); reflexivity).
    cbn [recorder_collision_free]. rewrite andb_true_iff, negb_true_iff.
    intros [Hin Hfree]. rewrite Hin.
    rewrite (IH _ Hfree). reflexivity.
Qed.

Lemma detach_recorders_flat_collision (l : list (string * string * attr_value))
      (r : dict PywrRecorder) :
  recorder_collision_free
    (flat_map (fun x => match snd x with VRecorder q => [q] | _ => [] end) l) r = false ->
  snd (update_flat detach_recorder_value l r) =
  Some (ValueError "Attr recorder name duplicates global recorder name").
Proof.
  revert r. induction l as [|[[name attr] v] l IH]; intros r; simpl update_flat.
  - discriminate.
  - destruct v as [j|p|q]; cbn [flat_map snd app detach_recorder_value];
      try (intros H; specialize (IH r H);
           destruct (update_flat detach_recorder_value l r) as [[? ?] ?]; exact IH).
    cbn [recorder_collision_free]. rewrite andb_false_iff, negb_false_iff.
    destruct (dict_in (recorder_name q) r) eqn:Hin; [reflexivity|].
    intros [H|H]; [discriminate|].
    specialize (IH _ H).
    destruct (update_flat detach_recorder_value l (dict_set (recorder_name q) q r))
      as [[? ?] ?].
    exact IH.
Qed.

Lemma add_recorders_preserves (rs : list PywrRecorder) (r : dict PywrRecorder)
      (k : string) (v : PywrRecorder) :
  recorder_collision_free rs r = true ->
  dict_get k r = Some v -> dict_get k (add_recorders rs r) = Some v.
Proof.
  revert r. induction rs as [|q rs IH]; intros r; simpl; auto.
  rewrite andb_true_iff, negb_true_iff, dict_in_false.
  intros [Hin Hfree] Hk. apply IH; auto.
  rewrite dict_get_set_neq; auto. congruence.
Qed.

Lemma add_recorders_get (rs : list PywrRecorder) (r : dict PywrRecorder)
      (q : PywrRecorder) :
  recorder_collision_free rs r = true -> In q rs ->
  dict_get (recorder_name q) (add_recorders rs r) = Some q.
Proof.
  revert r. induction rs as [|q0 rs IH]; intros r; simpl; [tauto|].
  rewrite andb_true_iff. intros [Hin Hfree] [->|Hq].
  - apply add_recorders_preserves; auto. apply dict_get_set_eq.
  - now apply IH.
Qed.

Lemma detach_recorders_collision_free (net : PywrNetwork) :
  nodes_wf (nodes net) = true ->
  recorder_collision_free (attached_recorders (nodes net)) (recorders net) = true ->
  detach_recorders net =
  (with_nodes_recorders net (map_values detached_recorder_value (nodes net))
                        (add_recorders (attached_recorders (nodes net)) (recorders net)),
   None).
Proof.
  intros Hwf Hfree.
  pose proof (detach_recorders_flat net Hwf) as Hflat.
  unfold attached_recorders in *.
  rewrite (detach_recorders_flat_ok _ _ Hfree) in Hflat.
  unfold detach_recorders in *.
  rewrite detach_recorders_nodes_positional in * by exact Hwf.
  pose proof (update_nodes_shape detach_recorder_value (nodes net) (recorders net))
    as Hshape.
  destruct (update_nodes detach_recorder_value (nodes net) (recorders net))
    as [[ns' rs'] e]. simpl in *.
  inversion Hflat; subst.
  rewrite (shape_mapped detached_recorder_value _ _ Hshape) by auto. reflexivity.
Qed.

Lemma detach_recorders_success (net : PywrNetwork) :
  nodes_wf (nodes net) = true ->
  snd (detach_recorders net) = None ->
  recorder_collision_free (attached_recorders (nodes net)) (recorders net) = true.
Proof.
  intros Hwf He.
  destruct (recorder_collision_free (attached_recorders (nodes net)) (recorders net))
           eqn:Hc; auto.
  pose proof (detach_recorders_flat net Hwf) as Hflat.
  apply detach_recorders_flat_collision in Hc. unfold attached_recorders in *.
  destruct (detach_recorders net) as [net' e].
  rewrite Hflat in Hc. cbn [snd] in *. congruence.
Qed.

(** [detach_recorders] does for recorders what [detach_parameters] does for
    parameters.  A run raises nothing exactly when no attached recorder finds
    its name in the recorder registry at the time it is stored; then every
    attached recorder is replaced by its name and is found in the registry
    under its name, and the parameter registry is untouched.  Otherwise the
    run raises [ValueError]. *)
Theorem detach_recorders_spec (net : PywrNetwork) :
  nodes_wf (nodes net) = true ->
  (recorder_collision_free (attached_recorders (nodes net)) (recorders net) = true ->
   detach_recorders net =
   (with_nodes_recorders net (map_values detached_recorder_value (nodes net))
                         (add_recorders (attached_recorders (nodes net)) (recorders net)),
    None) /\
   forall r, In r (attached_recorders (nodes net)) ->
             dict_get (recorder_name r)
                      (add_recorders (attached_recorders (nodes net)) (recorders net))
             = Some r) /\
  (recorder_collision_free (attached_recorders (nodes net)) (recorders net) = false ->
   snd (detach_recorders net) =
   Some (ValueError "Attr recorder name duplicates global recorder name")) /\
  parameters (fst (detach_recorders net)) = parameters net.
Proof.
  intros Hwf. split; [|split].
  - intros Hfree. split.
    + now apply detach_recorders_collision_free.
    + intros r Hr. now apply add_recorders_get.
  - intros Hfree.
    pose proof (detach_recorders_flat net Hwf) as Hflat.
    apply detach_recorders_flat_collision in Hfree. unfold attached_recorders in *.
    destruct (detach_recorders net) as [net' e].
    rewrite Hflat in Hfree. exact Hfree.
  - unfold detach_recorders.
    destruct (detach_recorders_nodes (nodes net) (recorders net)) as [[? ?] ?].
    reflexivity.
Qed.

Lemma detach_recorders_spec_witness :
  detach_recorders mixed_attached_network =
  (with_nodes_recorders mixed_attached_network
     [("Reservoir1",
       mkPywrNode "Reservoir1"
         [("name", VJson (JStr "Reservoir1")); ("max_flow", VParameter flow_max);
          ("flow", VJson (JStr "flow_rec"))]);
      ("Link1",
       mkPywrNode "Link1"
         [("name", VJson (JStr "Link1")); ("cost", VJson (JNum 3))])]
     [("flow_rec", flow_recorder)], None).
Proof.
  exact (proj1 (proj1 (detach_recorders_spec mixed_attached_network eq_refl) eq_refl)).
Defined.

(** ** [detach_parameters] and [detach_recorders] in either order *)

Lemma attached_parameters_detached_recorders (ns : dict PywrNode) :
  attached_parameters (map_values detached_recorder_value ns) = attached_parameters ns.
Proof.
  unfold attached_parameters, attached_in. rewrite attrs_in_order_map_values.
  induction (attrs_in_order ns) as [|[[n a] v] l IH]; simpl; auto.
  rewrite IH. destruct v; reflexivity.
Qed.

Lemma attached_recorders_detached_parameters (ns : dict PywrNode) :
  attached_recorders (map_values detached_value ns) = attached_recorders ns.
Proof.
  unfold attached_recorders. rewrite attrs_in_order_map_values.
  induction (attrs_in_order ns) as [|[[n a] v] l IH]; simpl; auto.
  rewrite IH. destruct v; reflexivity.
Qed.

(** When [detach_parameters] and [detach_recorders], each run on the same
    network, raise nothing, then run one after the other they raise nothing
    either, and both orders give the same network. *)
Theorem detach_parameters_recorders_commute (net : PywrNetwork) :
  nodes_wf (nodes net) = true ->
  snd (detach_parameters net) = None ->
  snd (detach_recorders net) = None ->
  snd (detach_recorders (fst (detach_parameters net))) = None /\
  snd (detach_parameters (fst (detach_recorders net))) = None /\
  fst (detach_recorders (fst (detach_parameters net))) =
  fst (detach_parameters (fst (detach_recorders net))).
Proof.
  intros Hwf Hp Hr.
  pose proof (detach_parameters_success net Hwf Hp) as Hfp.
  pose proof (detach_recorders_success net Hwf Hr) as Hfr.
  destruct (detach_parameters_collision_free net Hwf Hfp) as [Hrunp _].
  pose proof (detach_recorders_collision_free net Hwf Hfr) as Hrunr.
  rewrite Hrunp, Hrunr. cbn [fst].
  set (netp := with_nodes_parameters net (detached_nodes (nodes net))
                 (add_params (attached_parameters (nodes net)) (parameters net))).
  set (netr := with_nodes_recorders net
                 (map_values detached_recorder_value (nodes net))
                 (add_recorders (attached_recorders (nodes net)) (recorders net))).
  assert (Hwfp : nodes_wf (nodes netp) = true).
  { eapply same_shape_wf; [|exact Hwf]. apply same_shape_map_values. }
  assert (Hwfr : nodes_wf (nodes netr) = true).
  { eapply same_shape_wf; [|exact Hwf]. apply same_shape_map_values. }
  assert (Hfr' : recorder_collision_free (attached_recorders (nodes netp))
                                         (recorders netp) = true).
  { unfold netp. cbn [nodes recorders with_nodes_parameters].
    rewrite detached_nodes_map_values, attached_recorders_detached_parameters.
    exact Hfr. }
  assert (Hfp' : collision_free (attached_parameters (nodes netr)) (parameters netr)
                 = true).
  { unfold netr. cbn [nodes parameters with_nodes_recorders].
    rewrite attached_parameters_detached_recorders. exact Hfp. }
  rewrite (detach_recorders_collision_free netp Hwfp Hfr').
  destruct (detach_parameters_collision_free netr Hwfr Hfp') as [Hrun' _].
  rewrite Hrun'. cbn [fst snd].
  split; [reflexivity|]. split; [reflexivity|].
  unfold netp, netr, with_nodes_recorders, with_nodes_parameters.
  cbn [nodes parameters recorders metadata timestepper scenarios tables edges].
  f_equal.
  - change detached_nodes with (map_values detached_value).
    rewrite !map_values_comp.
    apply map_values_ext. intros [j|p|r]; reflexivity.
  - now rewrite attached_parameters_detached_recorders.
  - change detached_nodes with (map_values detached_value).
    now rewrite attached_recorders_detached_parameters.
Qed.

Lemma detach_parameters_recorders_commute_witness :
  fst (detach_recorders (fst (detach_parameters mixed_attached_network))) =
  fst (detach_parameters (fst (detach_recorders mixed_attached_network))).
Proof.
  apply (detach_parameters_recorders_commute mixed_attached_network); reflexivity.
Defined.

(** ** [report] and [as_dict] *)

Section ReportProperties.
Context {metadata_as_dict : AsDict PywrMetadata}
        {timestepper_as_dict : AsDict PywrTimestepper}
        {scenario_as_dict : AsDict PywrScenario}
        {table_as_dict : AsDict PywrTable}
        {node_as_dict : AsDict PywrNode}
        {edge_as_dict : AsDict PywrEdge}
        {parameter_as_dict : AsDict PywrParameter}
        {recorder_as_dict : AsDict PywrRecorder}.

(** [report] counts what [as_dict] writes: for every key other than
    [metadata] and [timestepper], the report has the key exactly when the
    serialised network has it, and the count is the length of that entry. *)
Theorem report_agrees_with_as_dict (net : PywrNetwork) (k : string) :
  unique (dict_keys (parameters net)) = true ->
  unique (dict_keys (recorders net)) = true ->
  unique (dict_keys (tables net)) = true ->
  k <> "metadata" -> k <> "timestepper" ->
  dict_get k (report net) =
  match dict_get k (as_dict net) with
  | Some j => Some (json_len j)
  | None => None
  end.
Proof.
  intros Hp Hr Ht Hm Hts. unfold as_dict, report.
  cbn [fold_left component_len String.eqb Ascii.eqb Bool.eqb].
  assert (Lp : json_len (JDict (dict_comprehension as_dict_of (parameters net)))
               = dict_len (parameters net))
    by (apply dict_comprehension_length; exact Hp).
  assert (Lr : json_len (JDict (dict_comprehension as_dict_of (recorders net)))
               = dict_len (recorders net))
    by (apply dict_comprehension_length; exact Hr).
  assert (Lt : json_len (JDict (dict_comprehension as_dict_of (tables net)))
               = dict_len (tables net))
    by (apply dict_comprehension_length; exact Ht).
  assert (Ls : json_len (JList (map as_dict_of (scenarios net)))
               = List.length (scenarios net))
    by (simpl; apply length_map).
  assert (Ln : json_len (JList (map as_dict_of (dict_values (nodes net))))
               = dict_len (nodes net))
    by (simpl; unfold dict_values, dict_len; now rewrite !length_map).
  assert (Le : json_len (JList (map as_dict_of (edges net))) = List.length (edges net))
    by (simpl; apply length_map).
  revert Lp Lr Lt Ls Ln Le.
  generalize (JDict (dict_comprehension as_dict_of (parameters net))) as vp.
  generalize (JDict (dict_comprehension as_dict_of (recorders net))) as vr.
  generalize (JDict (dict_comprehension as_dict_of (tables net))) as vt.
  generalize (JList (map as_dict_of (scenarios net))) as vs.
  generalize (as_dict_of (metadata net)) as vm.
  generalize (as_dict_of (timestepper net)) as vts.
  generalize (JList (map as_dict_of (dict_values (nodes net)))) as vn.
  generalize (JList (map as_dict_of (edges net))) as ve.
  generalize (dict_len (parameters net)) as lp.
  generalize (dict_len (recorders net)) as lr.
  generalize (dict_len (tables net)) as lt.
  generalize (List.length (scenarios net)) as ls.
  generalize (dict_len (nodes net)) as ln.
  generalize (List.length (edges net)) as le.
  intros le ln ls lt lr lp ve vn vts vm vs vt vr vp Lp Lr Lt Ls Ln Le.
  apply String.eqb_neq in Hm, Hts.
  destruct (0 <? lp)%nat; destruct (0 <? lr)%nat;
    destruct (0 <? ls)%nat; destruct (0 <? lt)%nat;
    cbn [dict_set dict_get String.eqb Ascii.eqb Bool.eqb];
    rewrite ?Hm, ?Hts;
    repeat match goal with
           | |- context [String.eqb k ?s] =>
               let E := fresh "E" in
               destruct (String.eqb k s) eqn:E;
               [apply String.eqb_eq in E; subst k;
                cbn [dict_set dict_get String.eqb Ascii.eqb Bool.eqb]; congruence|]
           end;
    reflexivity.
Qed.
End ReportProperties.

Lemma report_agrees_with_as_dict_witness :
  dict_get "parameters" (report referencing_network) = Some 1 /\
  dict_get "tables" (report referencing_network) = None.
Proof.
  split.
  - rewrite (@report_agrees_with_as_dict
               example_metadata_as_dict example_timestepper_as_dict
               example_scenario_as_dict example_table_as_dict
               example_node_as_dict example_edge_as_dict
               example_parameter_as_dict example_recorder_as_dict
               referencing_network "parameters" eq_refl eq_refl eq_refl);
      [reflexivity | discriminate | discriminate].
  - reflexivity.
Defined.

(** ** [duplicate_edges]: when it raises *)

Lemma count_edges_raises (es : list PywrEdge) (c : counter) :
  (exists e, In e es /\ List.length e <> 2) ->
  exists msg, count_edges es c = Raise (ValueError msg).
Proof.
  revert c. induction es as [|e es IH]; intros c [x [Hin Hlen]].
  - destruct Hin.
  - destruct e as [|n1 [|n2 [|n3 e]]]; simpl; eauto.
    apply IH. destruct Hin as [<-|Hin]; [simpl in Hlen; congruence|].
    exists x. auto.
Qed.

(** [duplicate_edges] raises, and then it raises [ValueError], exactly when
    some edge of the list does not have exactly two elements. *)
Theorem duplicate_edges_raises (net : PywrNetwork) :
  (exists e, In e (edges net) /\ List.length e <> 2) <->
  (exists x, duplicate_edges net = Raise x) /\
  (forall x, duplicate_edges net = Raise x -> exists msg, x = ValueError msg).
Proof.
  split.
  - intros H. apply (count_edges_raises _ []) in H. destruct H as [msg H].
    unfold duplicate_edges. rewrite H. split; [eauto|].
    intros x Hx. inversion Hx. eauto.
  - intros [[x Hx] _].
    destruct (Forall_Exists_dec (fun e => List.length e = 2)
                                (fun e => Nat.eq_dec (List.length e) 2) (edges net))
      as [Hall|Hex].
    + destruct (count_edges_pairs (edges net) [] Hall (NoDup_nil _))
        as (c & Hrun & _).
      unfold duplicate_edges in Hx. rewrite Hrun in Hx. discriminate.
    + apply Exists_exists in Hex. exact Hex.
Qed.

Lemma duplicate_edges_pairs_witness :
  exists dup,
    duplicate_edges pair_edges_network = Return dup /\
    NoDup (map fst dup) /\
    forall n1 n2,
      counter_get (n1, n2) dup =
      if (1 <? edge_occurrences (edges pair_edges_network) (n1, n2))%nat
      then Some (edge_occurrences (edges pair_edges_network) (n1, n2))
      else None.
Proof.
  apply (duplicate_edges_pairs pair_edges_network).
  repeat constructor.
Defined.

(** ** Construction entry points: what is returned and what is raised *)

(** In what [from_file] and [from_json] return, the network is missing
    exactly when errors are present, and a returned network always comes with
    a warnings mapping (possibly empty), never with [None]. *)
Theorem construction_network_xor_errors
        (P : ParserFrontEnd) (read_file : string -> read_outcome)
        (src : string) (r w d : bool) (ruleset : option string)
        (n : option PywrNetwork) (errs warns : option (dict (list exn))) :
  (from_file P read_file src r w d ruleset = Return (n, errs, warns) \/
   from_json P src r w d = Return (n, errs, warns)) ->
  (n = None <-> errs <> None) /\ (n <> None -> warns <> None).
Proof.
  unfold from_file, from_json. intros [H|H].
  - destruct (read_file src) as [err|e|json_src].
    + destruct r; inversion H; subst. split; [split|]; congruence.
    + discriminate.
    + destruct (PywrJSONParser P json_src ruleset) as [[m|m|m]|parser];
        try discriminate.
      * destruct r; inversion H; subst. split; [split|]; congruence.
      * destruct (parse P parser r w d) as [e|parser']; [discriminate|].
        destruct (has_errors P parser'); inversion H; subst;
          (split; [split|]; congruence).
  - destruct (PywrJSONParser P src None) as [e|parser]; [discriminate|].
    destruct (parse P parser r w d) as [e|parser']; [discriminate|].
    destruct (has_errors P parser'); inversion H; subst;
      (split; [split|]; congruence).
Qed.

Lemma construction_network_xor_errors_witness :
  (@None PywrNetwork = None <->
   Some [("network", [PywrParserException "Invalid JSON"])] <> None) /\
  ((@None PywrNetwork) <> None -> (@None (dict (list exn))) <> None).
Proof.
  apply (construction_network_xor_errors
           example_front_end example_read_file "empty.json" false false true None
           None (Some [("network", [PywrParserException "Invalid JSON"])]) None).
  left. reflexivity.
Defined.

(** [from_file] on a readable file is [from_json] on its content, unless the
    parser's constructor raises a parser exception while
    [raise_on_parser_error] is false. *)
Theorem from_file_agrees_with_from_json
        (P : ParserFrontEnd) (read_file : string -> read_outcome)
        (filename json_src : string) (r w d : bool) :
  read_file filename = ReadContent json_src ->
  r = true \/ (forall m, PywrJSONParser P json_src None <> Raise (PywrParserException m)) ->
  from_file P read_file filename r w d None = from_json P json_src r w d.
Proof.
  intros Hread Hcond. unfold from_file, from_json. rewrite Hread.
  destruct (PywrJSONParser P json_src None) as [[m|m|m]|parser]; try reflexivity.
  destruct Hcond as [->|Hcond]; [reflexivity|].
  exfalso. now apply (Hcond m).
Qed.

Lemma from_file_agrees_with_from_json_witness :
  from_file example_front_end example_read_file "empty.json" true false true None =
  from_json example_front_end "" true false true.
Proof.
  apply (from_file_agrees_with_from_json example_front_end example_read_file
           "empty.json" "" true false true eq_refl).
  left. reflexivity.
Defined.

(** With [raise_on_parser_error] false, [from_file] lets neither the
    [OSError] of a file it cannot read nor a parser exception of the
    constructor escape.  It raises [e] exactly when reading the file raised
    [e] (an exception that is not an [OSError]), or the constructor raised [e]
    and [e] is not a parser exception, or [parse] raised [e]. *)
Theorem from_file_raises_only_from_parser
        (P : ParserFrontEnd) (read_file : string -> read_outcome)
        (filename : string) (w d : bool) (ruleset : option string) (e : exn) :
  from_file P read_file filename false w d ruleset = Raise e <->
  read_file filename = ReadRaises e \/
  exists json_src,
    read_file filename = ReadContent json_src /\
    ((PywrJSONParser P json_src ruleset = Raise e /\
      forall m, e <> PywrParserException m) \/
     (exists parser, PywrJSONParser P json_src ruleset = Return parser /\
                     parse P parser false w d = Raise e)).
Proof.
  unfold from_file. split.
  - destruct (read_file filename) as [err|x|json_src]; [discriminate| |].
    + intros H. inversion H. now left.
    + intros H. right. exists json_src. split; [reflexivity|].
      destruct (PywrJSONParser P json_src ruleset) as [[m|m|m]|parser] eqn:Hc;
        try discriminate.
      * inversion H; subst. left. split; auto. discriminate.
      * inversion H; subst. left. split; auto. discriminate.
      * right. exists parser. split; auto.
        destruct (parse P parser false w d) as [x|parser']; [congruence|].
        destruct (has_errors P parser'); discriminate.
  - intros [Hread|(json_src & Hread & [[Hc Hne]|(parser & Hc & Hp)])];
      rewrite Hread; [reflexivity| |].
    + rewrite Hc. destruct e as [m|m|m]; try reflexivity.
      exfalso. now apply (Hne m).
    + rewrite Hc, Hp. reflexivity.
Qed.

(** The three ways [from_file] raises with the flag off: a file that is not
    text, and a [parse] that raises; and the two failures it returns. *)
Example from_file_raises_examples :
  from_file example_front_end example_read_file "binary.json" false false true None =
  Raise (ValueError "'utf-8' codec can't decode byte 0xff") /\
  from_file warning_front_end example_read_file "empty.json" false true true None =
  Raise (PywrParserException "warning") /\
  from_file example_front_end example_read_file "missing.json" false false true None =
  Return (None,
          Some [("network",
                 [PywrParserException
                    "Unable to read input file: [Errno 2] No such file or directory"])],
          None) /\
  from_file example_front_end example_read_file "empty.json" false false true None =
  Return (None, Some [("network", [PywrParserException "Invalid JSON"])], None).
Proof. repeat split. Qed.

(** ** Exception objects *)

(** [PywrTypeValidationError.__str__] reads [rules_failed], which
    [__init__] does not set: on an instance as constructed, [str] raises
    [AttributeError] (while [repr] gives the class name and the message);
    once [rules_failed] is assigned, [str] is the message followed by the
    failed rules, one per line.  The other two classes print their message. *)
Theorem exception_str_behaviour (message : string) (source component : json) :
  exception_str (type_validation_error_init message source component) =
  Raise (AttributeError "object has no attribute 'rules_failed'") /\
  exception_repr (type_validation_error_init message source component) =
  Return ("PywrTypeValidationError(" ++ message ++ ")")%string /\
  (forall rules,
      exception_str (set_rules_failed
                       (type_validation_error_init message source component) rules) =
      Return (message ++ newline ++ str_join newline rules)%string) /\
  exception_str (parser_exception_init PywrParserException_class message) =
  Return message /\
  exception_str (network_validation_error_init message) = Return message.
Proof. repeat split. Qed.

(** ** Back-references for both registries *)

Lemma add_references_in (ks : list string) (ns : dict PywrNode) (n : string) :
  dict_in n (add_references ks ns) = dict_in n ns.
Proof. apply references_in. Qed.

(** The value of every node attribute after the loop over the names [ks]. *)
Lemma add_references_attr (ks : list string) (ns : dict PywrNode) (n a : string) :
  node_attr (add_references ks ns) n a =
  match node_attr ns n a with
  | Some v => Some v
  | None =>
      if names_attr ks n a && dict_in n ns
      then Some (VJson (JStr (canonical_name n a)))
      else None
  end.
Proof.
  revert ns. induction ks as [|k ks IH]; intros ns.
  - simpl. destruct (node_attr ns n a); reflexivity.
  - change (add_references (k :: ks) ns)
      with (add_references ks (add_reference_item k ns)).
    rewrite IH, add_reference_item_attr, add_reference_item_in.
    destruct (node_attr ns n a) as [v|]; [reflexivity|].
    cbn [names_attr existsb].
    destruct (parse_reference_key k) as [[n' a']|] eqn:Hk; [|reflexivity].
    destruct ((n' =? n) && (a' =? a)) eqn:Hm; cbn [andb orb]; [|reflexivity].
    rewrite andb_true_iff in Hm. destruct Hm as [En Ea].
    apply String.eqb_eq in En, Ea. subst n' a'.
    apply parse_reference_key_sound in Hk. subst k.
    destruct (dict_in n ns); rewrite ?andb_false_r; reflexivity.
Qed.

Lemma add_references_keys (ks : list string) (ns : dict PywrNode) :
  dict_keys (add_references ks ns) = dict_keys ns.
Proof.
  revert ns. induction ks as [|k ks IH]; intros ns; [reflexivity|].
  change (add_references (k :: ks) ns)
    with (add_references ks (add_reference_item k ns)).
  rewrite IH. unfold add_reference_item.
  destruct (parse_reference_key k) as [[n a]|]; auto.
  destruct (dict_get n ns) as [node|] eqn:Hn; auto.
  destruct (tuple_in a (node_attrs node)); auto.
  apply dict_keys_set_present. apply dict_in_keys. unfold dict_in. now rewrite Hn.
Qed.

(** [add_recorder_references] gives a value to exactly the attributes that
    are missing from an existing node and are named by a key of the recorder
    registry, and the value is that key; every other attribute keeps its
    value.  Node keys and both registries are untouched, and a second
    invocation changes nothing. *)
Theorem add_recorder_references_spec (net : PywrNetwork) :
  (forall n a,
      node_attr (nodes (add_recorder_references net)) n a =
      match node_attr (nodes net) n a with
      | Some v => Some v
      | None =>
          if names_attr (dict_keys (recorders net)) n a && dict_in n (nodes net)
          then Some (VJson (JStr (canonical_name n a)))
          else None
      end) /\
  (forall n a, names_attr (dict_keys (recorders net)) n a = true ->
               In (canonical_name n a) (dict_keys (recorders net))) /\
  dict_keys (nodes (add_recorder_references net)) = dict_keys (nodes net) /\
  recorders (add_recorder_references net) = recorders net /\
  parameters (add_recorder_references net) = parameters net /\
  add_recorder_references (add_recorder_references net) = add_recorder_references net.
Proof.
  unfold add_recorder_references, add_component_references, component_store.
  cbn [String.eqb Ascii.eqb Bool.eqb andb with_nodes nodes parameters recorders].
  split; [|split; [|split; [|split; [|split]]]].
  - intros n a. apply add_references_attr.
  - intros n a H. unfold names_attr in H. apply existsb_exists in H.
    destruct H as (k & Hin & Hk).
    destruct (parse_reference_key k) as [[n' a']|] eqn:Hp; [|discriminate].
    rewrite andb_true_iff in Hk. destruct Hk as [En Ea].
    apply String.eqb_eq in En, Ea. subst n' a'.
    apply parse_reference_key_sound in Hp. now subst k.
  - apply add_references_keys.
  - reflexivity.
  - reflexivity.
  - unfold with_nodes. cbn [nodes parameters metadata timestepper scenarios tables
                            edges recorders].
    now rewrite references_idempotent.
Qed.

(** The attribute values left by [add_parameter_references] and
    [add_recorder_references] do not depend on the order in which the two are
    invoked, and neither do the node keys. *)
Theorem references_order_independent (net : PywrNetwork) (n a : string) :
  node_attr (nodes (add_recorder_references (add_parameter_references net))) n a =
  node_attr (nodes (add_parameter_references (add_recorder_references net))) n a /\
  dict_keys (nodes (add_recorder_references (add_parameter_references net))) =
  dict_keys (nodes (add_parameter_references (add_recorder_references net))).
Proof.
  unfold add_recorder_references, add_parameter_references,
    add_component_references, component_store.
  cbn [String.eqb Ascii.eqb Bool.eqb andb with_nodes nodes parameters recorders].
  split.
  - rewrite !add_references_attr, !add_references_in.
    destruct (node_attr (nodes net) n a) as [v|]; [reflexivity|].
    destruct (dict_in n (nodes net)); rewrite ?andb_false_r; [|reflexivity].
    rewrite !andb_true_r.
    destruct (names_attr (dict_keys (parameters net)) n a);
      destruct (names_attr (dict_keys (recorders net)) n a); reflexivity.
  - now rewrite !add_references_keys.
Qed.

(** Whatever its [component] argument, [__add_component_references] changes
    nothing when invoked a second time, and never touches node keys or the
    registries; with a component other than "parameter" and "recorder"
    (none, empty, or any other text) it leaves the network as it is. *)
Theorem add_component_references_general (net : PywrNetwork)
        (component : option string) :
  add_component_references (add_component_references net component) component =
  add_component_references net component /\
  dict_keys (nodes (add_component_references net component)) = dict_keys (nodes net) /\
  parameters (add_component_references net component) = parameters net /\
  recorders (add_component_references net component) = recorders net /\
  (component <> Some "parameter" -> component <> Some "recorder" ->
   add_component_references net component = net).
Proof.
  unfold add_component_references, component_store.
  destruct component as [c|]; [|repeat split].
  destruct (String.eqb_spec c ""); [repeat split|].
  destruct (String.eqb_spec c "parameter") as [->|Hp].
  - cbn [String.eqb Ascii.eqb Bool.eqb andb with_nodes nodes parameters recorders].
    repeat split.
    + unfold with_nodes. cbn. now rewrite references_idempotent.
    + apply add_references_keys.
    + congruence.
  - destruct (String.eqb_spec c "recorder") as [->|Hr].
    + cbn [String.eqb Ascii.eqb Bool.eqb andb with_nodes nodes parameters recorders].
      repeat split.
      * unfold with_nodes. cbn. now rewrite references_idempotent.
      * apply add_references_keys.
      * congruence.
    + destruct (String.eqb_spec c ""); [congruence|].
      destruct (String.eqb_spec c "parameter"); [congruence|].
      destruct (String.eqb_spec c "recorder"); [congruence|].
      repeat split.
Qed.

Example references_order_independent_example :
  node_attr (nodes (add_recorder_references
                      (add_parameter_references both_reference_network)))
            "Reservoir1" "max_flow" = Some (VJson (JStr "__Reservoir1__:max_flow")) /\
  node_attr (nodes (add_recorder_references
                      (add_parameter_references both_reference_network)))
            "Reservoir1" "flow" = Some (VJson (JStr "__Reservoir1__:flow")).
Proof. split; reflexivity. Qed.

(** ** [detach_parameters] followed by [attach_parameters] *)

Lemma collision_free_none (ps : list PywrParameter) (r : dict PywrParameter)
      (p : PywrParameter) :
  collision_free ps r = true -> In p ps -> dict_get (param_name p) r = None.
Proof.
  revert r. induction ps as [|p0 ps IH]; intros r; simpl; [tauto|].
  rewrite andb_true_iff, negb_true_iff, dict_in_false.
  intros [Hin Hfree] [->|Hp]; auto.
  specialize (IH _ Hfree Hp).
  destruct (string_dec (param_name p) (param_name p0)) as [E|E].
  - rewrite E in *. now rewrite dict_get_set_eq in IH.
  - now rewrite dict_get_set_neq in IH.
Qed.

Lemma collision_free_nodup (ps : list PywrParameter) (r : dict PywrParameter) :
  collision_free ps r = true -> NoDup (map param_name ps).
Proof.
  revert r. induction ps as [|p0 ps IH]; intros r; simpl; [constructor|].
  rewrite andb_true_iff. intros [Hin Hfree]. constructor; [|eapply IH; eauto].
  intros Hex. apply in_map_iff in Hex. destruct Hex as (p & Hn & Hp).
  pose proof (collision_free_none _ _ _ Hfree Hp) as Hnone.
  rewrite Hn, dict_get_set_eq in Hnone. discriminate.
Qed.

Lemma attach_value_passed_over (name attr : string) (d : dict json)
      (r : dict PywrParameter) :
  reserved attr || passed_over d = true ->
  attach_value name attr (VJson (JDict d)) r = ((None, r), None).
Proof.
  unfold attach_value, reserved, passed_over.
  destruct (tuple_in (lower attr) exclude); [reflexivity|].
  cbv zeta. cbn [orb].
  destruct (negb (truthy (json_get "type" d))); [reflexivity|]. cbn [orb].
  destruct (json_get "type" d); try discriminate.
  now intros ->.
Qed.

Lemma reattach_flat (r0 : dict PywrParameter) (l : list (string * string * attr_value))
      (r : dict PywrParameter) :
  (forall p, In p (attached_in l) -> dict_get (param_name p) r = Some p) ->
  NoDup (map param_name (attached_in l)) ->
  forallb (fun x =>
             match x with
             | (_, attr, VParameter _) => negb (reserved attr)
             | (_, attr, VJson (JStr s)) => reserved attr || negb (dict_in s r0)
             | (_, attr, VJson (JDict d)) => reserved attr || passed_over d
             | _ => true
             end) l = true ->
  (forall k, dict_get k r0 = None -> dict_get k r = None) ->
  exists r',
    update_flat attach_value (map detached_attr l) r = ((l, r'), None) /\
    (forall k, In k (map param_name (attached_in l)) -> dict_get k r' = None) /\
    (forall k, ~ In k (map param_name (attached_in l)) -> dict_get k r' = dict_get k r).
Proof.
  revert r. induction l as [|[[name attr] v] l IH]; intros r Hps Hnd Hready Hsub.
  - exists r. simpl. repeat split; auto. tauto.
  - cbn [forallb] in Hready. apply andb_true_iff in Hready.
    destruct Hready as [Hhead Hready].
    rewrite attached_in_cons in *. cbn [snd] in *.
    cbn [map update_flat]. unfold detached_attr at 1. cbn [fst snd].
    destruct v as [j|p|q].
    + (* JSON data: left as it is *)
      assert (Hv : attach_value name attr (detached_value (VJson j)) r
                   = ((None, r), None)).
      { cbn [detached_value]. destruct j as [|b|n|s|lj|d];
          try (unfold attach_value;
               destruct (tuple_in (lower attr) exclude); reflexivity).
        - unfold attach_value. fold (reserved attr).
          destruct (reserved attr); [reflexivity|]. cbn [orb] in Hhead.
          rewrite negb_true_iff, dict_in_false in Hhead.
          now rewrite (Hsub _ Hhead).
        - now apply attach_value_passed_over. }
      rewrite Hv.
      destruct (IH r Hps Hnd Hready Hsub) as (r' & Hrun & Hin & Hout).
      exists r'. rewrite Hrun. cbn [assigned detached_value]. auto.
    + (* an attached parameter: its name is resolved again *)
      cbn [detached_value]. cbn [map] in Hnd. inversion Hnd as [|? ? Hfresh Hnd']; subst.
      apply negb_true_iff in Hhead.
      assert (Hget : dict_get (param_name p) r = Some p)
        by (apply Hps; left; reflexivity).
      assert (Hv : attach_value name attr (VJson (JStr (param_name p))) r
                   = ((Some (VParameter p), dict_del (param_name p) r), None)).
      { unfold attach_value. fold (reserved attr). now rewrite Hhead, Hget. }
      rewrite Hv.
      destruct (IH (dict_del (param_name p) r)) as (r' & Hrun & Hin & Hout); auto.
      * intros p' Hp'. rewrite dict_get_del_neq; [apply Hps; now right|].
        intros E. apply Hfresh. rewrite <- E. now apply in_map.
      * intros k Hk. specialize (Hsub k Hk).
        destruct (dict_get k (dict_del (param_name p) r)) eqn:E; auto.
        apply dict_get_del_some in E. congruence.
      * exists r'. rewrite Hrun. cbn [assigned]. split; [reflexivity|]. split.
        -- intros k [<-|Hk]; [|now apply Hin].
           rewrite Hout by exact Hfresh. apply dict_get_del_eq.
        -- intros k Hk. cbn [map In] in Hk.
           rewrite Hout by tauto. apply dict_get_del_neq. intros ->. tauto.
    + (* an attached recorder: left as it is *)
      assert (Hv : attach_value name attr (detached_value (VRecorder q)) r
                   = ((None, r), None)).
      { unfold attach_value. cbn [detached_value].
        destruct (tuple_in (lower attr) exclude); reflexivity. }
      rewrite Hv.
      destruct (IH r Hps Hnd Hready Hsub) as (r' & Hrun & Hin & Hout).
      exists r'. rewrite Hrun. cbn [assigned detached_value]. auto.
Qed.

Lemma shape_same_attrs (ns ns' : dict PywrNode) :
  same_shape ns ns' -> attrs_in_order ns' = attrs_in_order ns -> ns' = ns.
Proof.
  intros Hshape Hattrs.
  rewrite (shape_mapped (fun v => v) ns ns' Hshape).
  - apply map_values_id. auto.
  - rewrite Hattrs. symmetry. erewrite map_ext; [apply map_id|].
    intros [[n a] v]. reflexivity.
Qed.

(** For a network whose node attributes hold attached Parameters:
    when [detach_parameters] raises nothing and, in the detached network, the
    only strings that name a registry entry are those the detach has just
    written (and no attribute is an inline definition), then
    [attach_parameters] on the detached network raises nothing and restores
    the node store, and the registry has the content it had before the
    detach. *)
Theorem detach_then_attach (net : PywrNetwork) :
  nodes_wf (nodes net) = true ->
  snd (detach_parameters net) = None ->
  reattach_ready (nodes net) (parameters (fst (detach_parameters net))) = true ->
  snd (attach_parameters (fst (detach_parameters net))) = None /\
  nodes (fst (attach_parameters (fst (detach_parameters net)))) = nodes net /\
  dict_equiv (parameters (fst (attach_parameters (fst (detach_parameters net)))))
             (parameters net).
Proof.
  intros Hwf He Hready.
  pose proof (detach_parameters_success net Hwf He) as Hfree.
  destruct (detach_parameters_collision_free net Hwf Hfree) as [Hrun Hget].
  rewrite Hrun in *. cbn [fst snd parameters with_nodes_parameters] in *.
  set (net1 := with_nodes_parameters net (detached_nodes (nodes net))
                 (add_params (attached_parameters (nodes net)) (parameters net))) in *.
  assert (Hshape1 : same_shape (nodes net) (nodes net1))
    by apply same_shape_map_values.
  assert (Hwf1 : nodes_wf (nodes net1) = true) by (eapply same_shape_wf; eauto).
  pose proof (attach_parameters_flat net1 Hwf1) as Hflat.
  pose proof (attach_parameters_shape net1 Hwf1) as Hshape2.
  assert (Hattrs1 : attrs_in_order (nodes net1) =
                    map detached_attr (attrs_in_order (nodes net))).
  { unfold net1. cbn [nodes with_nodes_parameters].
    change detached_nodes with (map_values detached_value).
    apply attrs_in_order_map_values. }
  rewrite Hattrs1 in Hflat.
  destruct (reattach_flat (parameters net1) (attrs_in_order (nodes net))
                          (parameters net1))
    as (r' & Hrun' & Hin & Hout); auto.
  { unfold attached_parameters in Hfree. eapply collision_free_nodup; eauto. }
  rewrite Hrun' in Hflat.
  destruct (attach_parameters net1) as [net2 e2]. cbn [fst snd] in *.
  inversion Hflat as [[Hattrs2 Hr' He2]]. split; [reflexivity|]. split.
  - apply shape_same_attrs; [|auto].
    apply same_shape_shape_of.
    apply same_shape_shape_of in Hshape1, Hshape2. congruence.
  - intros k. unfold attached_parameters in *. rewrite <- Hr'.
    destruct (in_dec string_dec k
                     (map param_name (attached_in (attrs_in_order (nodes net)))))
      as [Hk|Hk].
    + rewrite (Hin k Hk). apply in_map_iff in Hk. destruct Hk as (p & <- & Hp).
      symmetry. eapply collision_free_none; eauto.
    + rewrite (Hout k Hk). unfold net1. cbn [parameters with_nodes_parameters].
      now apply add_params_other.
Qed.

Lemma detach_then_attach_witness :
  snd (attach_parameters (fst (detach_parameters mixed_attached_network))) = None /\
  nodes (fst (attach_parameters (fst (detach_parameters mixed_attached_network)))) =
  nodes mixed_attached_network /\
  dict_equiv (parameters (fst (attach_parameters
                                 (fst (detach_parameters mixed_attached_network)))))
             (parameters mixed_attached_network).
Proof.
  apply (detach_then_attach mixed_attached_network); reflexivity.
Defined.

(** ** [attach_parameters] followed by [detach_parameters], in general *)

Lemma attach_value_none_dict (name attr : string) (d : dict json)
      (r r' : dict PywrParameter) :
  attach_value name attr (VJson (JDict d)) r = ((None, r'), None) ->
  reserved attr || passed_over d = true.
Proof.
  unfold attach_value, reserved, passed_over.
  destruct (tuple_in (lower attr) exclude); [reflexivity|].
  cbv zeta. cbn [orb].
  destruct (negb (truthy (json_get "type" d))); [reflexivity|]. cbn [orb].
  destruct (json_get "type" d) as [|b|n|t|l|d']; try discriminate.
  destruct (str_in "recorder" (lower t)); [reflexivity|].
  destruct (dict_in (canonical_name name attr) r); discriminate.
Qed.

Lemma attach_flat_general (l l' : list (string * string * attr_value))
      (r r' : dict PywrParameter) :
  forallb (fun x => is_json (snd x)) l = true ->
  keyed_by_name r = true ->
  update_flat attach_value l r = ((l', r'), None) ->
  map detached_attr l' = map referenced_attr l /\
  (forall p, In p (attached_in l') ->
             dict_get (param_name p) r = Some p \/
             exists name attr d,
               In (name, attr, VJson (JDict d)) l /\ reserved attr = false /\
               passed_over d = false /\
               p = mkPywrParameter (canonical_name name attr) d) /\
  (forall k p, dict_get k r = Some p ->
               dict_get k r' = Some p \/ In p (attached_in l')).
Proof.
  revert l' r. induction l as [|[[name attr] v] l IH]; intros l' r.
  - simpl. intros _ _ H. inversion H; subst. simpl. repeat split; auto. tauto.
  - cbn [forallb snd]. rewrite andb_true_iff.
    intros [Hj Hjs] Hkeyed. cbn [update_flat].
    destruct (attach_value name attr v r) as [[ov s'] [x|]] eqn:Hv; [discriminate|].
    destruct (update_flat attach_value l s') as [[rest' s''] e'] eqn:Hl.
    intros H. inversion H; subst. clear H.
    pose proof Hv as Hcases. apply attach_value_cases in Hcases.
    rewrite attached_in_cons. cbn [snd map].
    unfold detached_attr at 1, referenced_attr at 1. cbn [fst snd].
    destruct Hcases as [[-> ->]|[(s & p & -> & Hres & Hget & -> & -> & _)
                                |(d & -> & Hres & Hpass & Hin & -> & -> & _)]];
      cbn [assigned].
    + (* passed over *)
      destruct (IH _ _ Hjs Hkeyed Hl) as (Hmap & Hps & Hkeep).
      destruct v as [j|p|q]; try discriminate. cbn [detached_value].
      split; [|split].
      * rewrite Hmap. f_equal. f_equal.
        destruct j as [|b|n|s|lj|d]; try reflexivity.
        cbn [referenced_value]. now rewrite (attach_value_none_dict _ _ _ _ _ Hv).
      * intros p Hp. destruct (Hps p Hp) as [H|(n0 & a0 & d0 & Hin & H)]; auto.
        right. exists n0, a0, d0. split; [now right | exact H].
      * exact Hkeep.
    + (* a global parameter is attached *)
      pose proof (keyed_get _ _ _ Hkeyed Hget) as Hname.
      destruct (IH _ _ Hjs (keyed_del _ s Hkeyed) Hl) as (Hmap & Hps & Hkeep).
      cbn [detached_value referenced_value]. split; [|split].
      * now rewrite Hmap, Hname.
      * intros p' [<-|Hp'].
        -- left. now rewrite Hname.
        -- destruct (Hps p' Hp') as [H|(n0 & a0 & d0 & Hin & H)].
           ++ left. eapply dict_get_del_some; eauto.
           ++ right. exists n0, a0, d0. split; [now right | exact H].
      * intros k q Hk. destruct (string_dec k s) as [->|Hne].
        -- right. left. congruence.
        -- destruct (Hkeep k q) as [H|H]; auto.
           ++ now rewrite dict_get_del_neq.
           ++ right. now right.
    + (* an inline definition is promoted *)
      destruct (IH _ _ Hjs Hkeyed Hl) as (Hmap & Hps & Hkeep).
      cbn [detached_value referenced_value param_name]. split; [|split].
      * rewrite Hmap, Hres, Hpass. reflexivity.
      * intros p' [<-|Hp'].
        -- right. exists name, attr, d. split; [now left|]. auto.
        -- destruct (Hps p' Hp') as [H|(n0 & a0 & d0 & Hin0 & H)]; auto.
           right. exists n0, a0, d0. split; [now right | exact H].
      * intros k q Hk. destruct (Hkeep k q Hk) as [H|H]; auto.
        right. now right.
Qed.

(** For a network as the parser delivers it, when [attach_parameters] and
    then [detach_parameters] raise nothing: every attribute has its value
    back, except that an inline definition the attach acted upon is now the
    canonical-name string; every entry of the registry is back under its
    name; and the only other entries are the Parameters built from those
    inline definitions, each under its canonical name. *)
Theorem attach_then_detach_general (net : PywrNetwork) :
  nodes_wf (nodes net) = true ->
  json_only (nodes net) = true ->
  keyed_by_name (parameters net) = true ->
  snd (attach_parameters net) = None ->
  snd (detach_parameters (fst (attach_parameters net))) = None ->
  attrs_in_order (nodes (fst (detach_parameters (fst (attach_parameters net))))) =
  map referenced_attr (attrs_in_order (nodes net)) /\
  (forall k p,
      dict_get k (parameters net) = Some p ->
      dict_get k (parameters (fst (detach_parameters (fst (attach_parameters net)))))
      = Some p) /\
  (forall k p,
      dict_get k (parameters (fst (detach_parameters (fst (attach_parameters net)))))
      = Some p ->
      dict_get k (parameters net) = Some p \/
      exists name attr d,
        In (name, attr, VJson (JDict d)) (attrs_in_order (nodes net)) /\
        reserved attr = false /\ passed_over d = false /\
        k = canonical_name name attr /\ p = mkPywrParameter k d).
Proof.
  intros Hwf Hjson Hkeyed He1 He2.
  pose proof (attach_parameters_flat net Hwf) as Hflat.
  pose proof (attach_parameters_shape net Hwf) as Hshape.
  destruct (attach_parameters net) as [net1 e1]. cbn [fst snd] in *. subst e1.
  destruct (attach_flat_general _ _ _ _ Hjson Hkeyed Hflat) as (Hmap & Hps & Hkeep).
  assert (Hwf1 : nodes_wf (nodes net1) = true) by (eapply same_shape_wf; eauto).
  pose proof (detach_parameters_success net1 Hwf1 He2) as Hfree.
  destruct (detach_parameters_collision_free net1 Hwf1 Hfree) as [Hrun Hget].
  rewrite Hrun. cbn [fst nodes parameters with_nodes_parameters].
  unfold attached_parameters in *.
  split; [|split].
  - change detached_nodes with (map_values detached_value).
    rewrite attrs_in_order_map_values. exact Hmap.
  - intros k p Hk. destruct (Hkeep k p Hk) as [H|H].
    + now apply add_params_preserves.
    + destruct (Hps p H) as [Hg|(n0 & a0 & d0 & _ & _ & _ & ->)].
      * rewrite <- (keyed_get _ _ _ Hkeyed Hk). now apply Hget.
      * assert (Hn : dict_get k (parameters net) =
                     Some (mkPywrParameter (canonical_name n0 a0) d0)) by exact Hk.
        rewrite <- (keyed_get _ _ _ Hkeyed Hn). now apply Hget.
  - intros k p Hk.
    destruct (in_dec string_dec k
                     (map param_name (attached_in (attrs_in_order (nodes net1)))))
      as [Hin|Hnin].
    + apply in_map_iff in Hin. destruct Hin as (p' & <- & Hp').
      rewrite (Hget p' Hp') in Hk. inversion Hk; subst p'.
      destruct (Hps p Hp') as [Hg|(n0 & a0 & d0 & Hin0 & Hres & Hpass & ->)].
      * now left.
      * right. exists n0, a0, d0. cbn [param_name]. auto.
    + rewrite add_params_other in Hk by exact Hnin.
      left. eapply attach_flat_shrinks; eauto.
Qed.

Lemma attach_then_detach_general_witness :
  attrs_in_order (nodes (fst (detach_parameters (fst (attach_parameters inline_network)))))
  = [("Reservoir1", "name", VJson (JStr "Reservoir1"));
     ("Reservoir1", "type", VJson (JStr "storage"));
     ("Reservoir1", "max_flow", VJson (JStr "__Reservoir1__:max_flow"))].
Proof.
  exact (proj1 (attach_then_detach_general inline_network
                  eq_refl eq_refl eq_refl eq_refl eq_refl)).
Defined.

(** ** Back-references keep the network a valid input of the resolver *)

Lemma dict_set_In {V : Type} (k k' : string) (v v' : V) (d : dict V) :
  In (k, v) (dict_set k' v' d) -> (k, v) = (k', v') \/ In (k, v) d.
Proof.
  induction d as [|[k0 v0] d IH]; simpl.
  - intros [H|[]]. left. now symmetry.
  - destruct (String.eqb k' k0); simpl.
    + intros [H|H]; [left; now symmetry | right; now right].
    + intros [H|H]; [right; now left|].
      destruct (IH H); [now left | right; now right].
Qed.

Lemma attrs_in_order_In (ns : dict PywrNode) (x : string * string * attr_value) :
  In x (attrs_in_order ns) <->
  exists key node, In (key, node) ns /\ In x (attrs_of_node node).
Proof.
  unfold attrs_in_order. rewrite in_flat_map. split.
  - intros ([key node] & Hin & Hx). exists key, node. auto.
  - intros (key & node & Hin & Hx). exists (key, node). auto.
Qed.

Lemma add_reference_item_attrs (k : string) (ns : dict PywrNode)
      (x : string * string * attr_value) :
  In x (attrs_in_order (add_reference_item k ns)) ->
  In x (attrs_in_order ns) \/ snd x = VJson (JStr k).
Proof.
  unfold add_reference_item.
  destruct (parse_reference_key k) as [[n a]|]; auto.
  destruct (dict_get n ns) as [node|] eqn:Hn; auto.
  destruct (tuple_in a (node_attrs node)) eqn:Ha; auto.
  rewrite !attrs_in_order_In. intros (key & node' & Hin & Hx).
  apply dict_set_In in Hin. destruct Hin as [Heq|Hin].
  - inversion Heq; subst. clear Heq.
    unfold attrs_of_node in Hx. cbn [node_name node_data] in Hx.
    apply in_map_iff in Hx. destruct Hx as ([a' v'] & <- & Hav).
    apply dict_set_In in Hav. destruct Hav as [Heq|Hav].
    + inversion Heq; subst. now right.
    + left. exists n, node. split.
      * clear - Hn. induction ns as [|[k0 v0] ns IH]; simpl in *; [discriminate|].
        destruct (String.eqb n k0) eqn:E.
        -- apply String.eqb_eq in E. inversion Hn; subst. now left.
        -- right. auto.
      * unfold attrs_of_node. apply in_map_iff. exists (a', v'). auto.
  - left. exists key, node'. auto.
Qed.

Lemma add_reference_item_wf (k : string) (ns : dict PywrNode) :
  nodes_wf ns = true -> nodes_wf (add_reference_item k ns) = true.
Proof.
  unfold add_reference_item.
  destruct (parse_reference_key k) as [[n a]|]; auto.
  destruct (dict_get n ns) as [node|] eqn:Hn; auto.
  destruct (tuple_in a (node_attrs node)) eqn:Ha; auto.
  unfold nodes_wf. rewrite !forallb_forall. intros Hwf [key node'] Hin.
  apply dict_set_In in Hin. destruct Hin as [Heq|Hin]; [|now apply Hwf].
  inversion Heq; subst. clear Heq. cbn [snd].
  assert (Hnode : unique (node_attrs node) = true).
  { apply (Hwf (n, node)).
    clear - Hn. induction ns as [|[k0 v0] ns IH]; simpl in *; [discriminate|].
    destruct (String.eqb n k0) eqn:E.
    - apply String.eqb_eq in E. inversion Hn; subst. now left.
    - right. auto. }
  apply unique_NoDup. apply unique_NoDup in Hnode.
  unfold node_attrs in *. cbn [node_data].
  rewrite dict_set_fresh.
  - unfold dict_keys. rewrite map_app. simpl.
    assert (Hnot : ~ In a (dict_keys (node_data node))).
    { intros Hin. apply tuple_in_In in Hin. unfold node_attrs in Ha. congruence. }
    clear - Hnode Hnot. unfold dict_keys in *.
    induction (map fst (node_data node)) as [|y l IH]; simpl.
    + constructor; [tauto | constructor].
    + inversion Hnode; subst. constructor.
      * rewrite in_app_iff. simpl. intros [H|[H|[]]]; [tauto|].
        subst. apply Hnot. now left.
      * apply IH; auto. intros H. apply Hnot. now right.
  - intros Hin. apply tuple_in_In in Hin. unfold node_attrs in Ha. congruence.
Qed.

(** Whatever its [component] argument, [__add_component_references] keeps
    what the resolver relies on: attribute names stay unique in every node,
    and when every attribute held JSON data (none of it an inline definition
    that [attach_parameters] acts upon), that is still so afterwards, because
    only strings are added. *)
Theorem add_component_references_keeps_invariants (net : PywrNetwork)
        (component : option string) :
  (nodes_wf (nodes net) = true ->
   nodes_wf (nodes (add_component_references net component)) = true) /\
  (json_only (nodes net) = true ->
   json_only (nodes (add_component_references net component)) = true) /\
  (no_inline_definitions (nodes net) = true ->
   no_inline_definitions (nodes (add_component_references net component)) = true).
Proof.
  assert (Hwf : forall ks ns, nodes_wf ns = true ->
                              nodes_wf (add_references ks ns) = true).
  { induction ks as [|k ks IH]; intros ns H; [exact H|].
    apply (IH (add_reference_item k ns)). now apply add_reference_item_wf. }
  assert (Hall : forall F : string * string * attr_value -> bool,
             (forall x k, snd x = VJson (JStr k) -> F x = true) ->
             forall ks ns, forallb F (attrs_in_order ns) = true ->
                           forallb F (attrs_in_order (add_references ks ns)) = true).
  { intros F HF. induction ks as [|k ks IH]; intros ns H; [exact H|].
    apply (IH (add_reference_item k ns)).
    rewrite forallb_forall in *. intros x Hx.
    apply add_reference_item_attrs in Hx. destruct Hx as [Hx|Hx]; eauto. }
  unfold add_component_references, component_store.
  destruct component as [c|]; [|tauto].
  destruct (c =? ""); [tauto|].
  destruct (c =? "parameter"); [|destruct (c =? "recorder"); [|tauto]];
    cbn [with_nodes nodes]; (split; [apply Hwf|split]).
  - apply Hall. intros [[n a] v] k. cbn [snd]. now intros ->.
  - apply Hall. intros [[n a] v] k. cbn [snd]. now intros ->.
  - apply Hall. intros [[n a] v] k. cbn [snd]. now intros ->.
  - apply Hall. intros [[n a] v] k. cbn [snd]. now intros ->.
Qed.

Lemma add_component_references_keeps_invariants_witness :
  nodes_wf (nodes (add_parameter_references back_reference_network)) = true /\
  json_only (nodes (add_parameter_references back_reference_network)) = true /\
  no_inline_definitions (nodes (add_parameter_references back_reference_network)) = true.
Proof.
  destruct (add_component_references_keeps_invariants back_reference_network
              (Some "parameter")) as (H1 & H2 & H3).
  split; [apply H1; reflexivity|]. split; [apply H2; reflexivity | apply H3; reflexivity].
Defined.
